(** * CreditParser: the XML-to-record transformation layer

    A shallow embedding of [backend/services/xmlParserService.js]
    (text/number/date extraction, path resolver, schema sniffing) and of
    [backend/services/dataTransformerService.js] (root location and the four
    extractors), followed by the properties the specification states about
    them.

    Conventions of the embedding.
    - A JavaScript value is a [jsval]; an object keeps its properties in
      insertion order (an association list), because [Object.keys] and
      [Object.values] are order sensitive in the source.
    - A JavaScript number is an IEEE-754 binary64 value, [spec_float] with
      precision 53 and maximal exponent 1024, and arithmetic is the
      Standard Library's [SFadd] and friends.
    - A JavaScript string is a [string] whose characters stand for UTF-16
      code units below 256.
    - A function that can raise returns a [result]; code that reads the
      wall clock threads a [world]. Calls to the logger are left out. *)

From Stdlib Require Import ZArith List String Ascii Bool Lia.
From Stdlib Require Import Floats.SpecFloat.
From Stdlib Require Import DecimalString DecimalN.
Import ListNotations.

Local Open Scope string_scope.
Local Open Scope Z_scope.
Local Set Warnings "-register-all".

(** ** Strings *)

Module Str.

Definition code (c : ascii) : N := N_of_ascii c.

(** WhiteSpace and LineTerminator code units below 256. *)
Definition is_space (c : ascii) : bool :=
  let n := code c in
  ((9 <=? n) && (n <=? 13) || (n =? 32) || (n =? 160))%N.

Definition is_digit (c : ascii) : bool :=
  let n := code c in ((48 <=? n) && (n <=? 57))%N.

Definition digit_val (c : ascii) : Z := Z.of_N (code c) - 48.

Fixpoint trimStart (s : string) : string :=
  match s with
  | String c s' => if is_space c then trimStart s' else s
  | EmptyString => EmptyString
  end.

Fixpoint trimEnd (s : string) : string :=
  match s with
  | EmptyString => EmptyString
  | String c s' =>
      match trimEnd s' with
      | EmptyString => if is_space c then EmptyString else String c EmptyString
      | t => String c t
      end
  end.

(** [String.prototype.trim] *)
Definition trim (s : string) : string := trimEnd (trimStart s).

Definition lower_char (c : ascii) : ascii :=
  let n := code c in
  if ((65 <=? n) && (n <=? 90) ||
      (192 <=? n) && (n <=? 222) && negb (n =? 215))%N
  then ascii_of_N (n + 32) else c.

(** [String.prototype.toLowerCase] *)
Fixpoint toLowerCase (s : string) : string :=
  match s with
  | EmptyString => EmptyString
  | String c s' => String (lower_char c) (toLowerCase s')
  end.

(** [String.prototype.includes] *)
Fixpoint includes (s sub : string) : bool :=
  prefix sub s ||
  match s with
  | EmptyString => false
  | String _ s' => includes s' sub
  end.

(** [String.prototype.substring a b] for literal bounds [a <= b]. *)
Definition substring (a b : nat) (s : string) : string :=
  String.substring a (b - a) s.

Fixpoint split_on (sep : ascii) (cur : string) (s : string) : list string :=
  match s with
  | EmptyString => [cur]
  | String c s' =>
      if Ascii.eqb c sep then cur :: split_on sep EmptyString s'
      else split_on sep (cur ++ String c EmptyString) s'
  end.

(** [String.prototype.split] on a one-character separator. *)
Definition split (sep : ascii) (s : string) : list string :=
  split_on sep EmptyString s.

(** [Array.prototype.join] on an array of strings. *)
Fixpoint join (sep : string) (l : list string) : string :=
  match l with
  | [] => EmptyString
  | [x] => x
  | x :: rest => x ++ sep ++ join sep rest
  end.

Fixpoint filter (keep : ascii -> bool) (s : string) : string :=
  match s with
  | EmptyString => EmptyString
  | String c s' =>
      if keep c then String c (filter keep s') else filter keep s'
  end.

Fixpoint repeat (c : ascii) (n : nat) : string :=
  match n with
  | O => EmptyString
  | S n' => String c (repeat c n')
  end.

Definition isEmpty (s : string) : bool :=
  match s with EmptyString => true | _ => false end.

(** Decimal numeral of a natural number, ["0"] for zero. *)
Definition of_N (n : N) : string := NilZero.string_of_uint (N.to_uint n).

(** Value of a run of decimal digits read left to right. *)
Fixpoint digits_value (acc : Z) (s : string) : Z :=
  match s with
  | EmptyString => acc
  | String c s' => digits_value (10 * acc + digit_val c) s'
  end.

(** Longest prefix of digits, and the rest. *)
Fixpoint span_digits (s : string) : string * string :=
  match s with
  | String c s' =>
      if is_digit c then
        let (d, r) := span_digits s' in (String c d, r)
      else (EmptyString, s)
  | EmptyString => (EmptyString, EmptyString)
  end.

End Str.

(** ** Numbers: IEEE-754 binary64 *)

Module Num.

Definition number : Type := spec_float.

Definition prec : Z := 53.
Definition emax : Z := 1024.

Definition NaN : number := S754_nan.
Definition zero : number := S754_zero false.

(** The number nearest to an integer. *)
Definition of_Z (z : Z) : number := binary_normalize prec emax z 0 false.
Definition of_nat (n : nat) : number := of_Z (Z.of_nat n).
Definition one : number := of_Z 1.

(** The number nearest to [p / q], with the given sign; [p, q > 0]. *)
Definition of_ratio (neg : bool) (p q : Z) : number :=
  let '(m, e, l) := SFdiv_core_binary prec emax p 0 q 0 in
  binary_round_aux prec emax neg m e l.

(** The number nearest to [d * 10^t], with the given sign; [d >= 0]. *)
Definition of_decimal (neg : bool) (d : Z) (t : Z) : number :=
  if d =? 0 then S754_zero neg
  else if 0 <=? t then
    binary_normalize prec emax ((if neg then -1 else 1) * (d * 10 ^ t)) 0 neg
  else of_ratio neg d (10 ^ (- t)).

Definition add (x y : number) : number := SFadd prec emax x y.
(** Postfix [++] on a property that holds a number. *)
Definition incr (x : number) : number := add x one.

Definition isNaN (x : number) : bool :=
  match x with S754_nan => true | _ => false end.
(** [x > y] *)
Definition gtb (x y : number) : bool := SFltb y x.
(** [x === y] on numbers *)
Definition eqb (x y : number) : bool := SFeqb x y.
(** ToBoolean on a number *)
Definition truthy (x : number) : bool :=
  match x with S754_nan | S754_zero _ => false | _ => true end.
(** [x || 0] *)
Definition or_zero (x : number) : number := if truthy x then x else zero.

(** *** parseFloat

    [parseFloat] on a string over the alphabet that survives
    [replace(/[^0-9.-]/g, '')]: the longest prefix that is a
    StrDecimalLiteral, read as a decimal and rounded to nearest-even;
    [NaN] when no prefix is one. *)
Definition parseFloat (s : string) : number :=
  let '(neg, body) :=
    match s with
    | String "-"%char r => (true, r)
    | _ => (false, s)
    end in
  let '(ip, r1) := Str.span_digits body in
  let fp :=
    match r1 with
    | String "."%char r2 => fst (Str.span_digits r2)
    | _ => EmptyString
    end in
  if Str.isEmpty ip && Str.isEmpty fp then NaN
  else of_decimal neg (Str.digits_value 0 (ip ++ fp))
                  (- Z.of_nat (String.length fp)).

(** *** Number::toString, radix 10 *)

(** A positive finite number [m * 2^e] as a fraction. *)
Definition fraction_of (m : positive) (e : Z) : Z * Z :=
  if 0 <=? e then (Z.pos m * 2 ^ e, 1) else (Z.pos m, 2 ^ (- e)).

(** The decimal order [n0] of [p / q]: [10^(n0-1) <= p/q < 10^n0]. *)
Fixpoint order_up (fuel : nat) (p q : Z) (n : Z) : Z :=
  match fuel with
  | O => n
  | S f => if p <? q * 10 ^ n then n else order_up f p q (n + 1)
  end.
Fixpoint order_down (fuel : nat) (p q : Z) (n : Z) : Z :=
  match fuel with
  | O => n
  | S f => if q <=? p * 10 ^ (1 - n) then n else order_down f p q (n - 1)
  end.
Definition decimal_order (p q : Z) : Z :=
  if q <=? p then order_up 400 p q 1 else order_down 400 p q 0.

(** For [k] digits: the integers [s] next to [p/q / 10^(n0-k)] whose
    decimal [s * 10^(n0-k)] reads back as [x], the closer one first. *)
Definition candidates (x : number) (p q n0 k : Z) : option (Z * Z) :=
  let t := n0 - k in
  let a := if 0 <=? t then p else p * 10 ^ (- t) in
  let b := if 0 <=? t then q * 10 ^ t else q in
  let lo := a / b in
  let hi := lo + 1 in
  let ok s := match x, of_decimal false s t with
              | S754_finite _ m e, S754_finite _ m' e' =>
                  Pos.eqb m m' && (e =? e')
              | _, _ => false
              end in
  let dlo := a - lo * b in
  let dhi := hi * b - a in
  match ok lo, ok hi with
  | true, true =>
      if dlo <? dhi then Some (lo, t)
      else if dhi <? dlo then Some (hi, t)
      else Some (if Z.even lo then lo else hi, t)
  | true, false => Some (lo, t)
  | false, true => Some (hi, t)
  | false, false => None
  end.

Fixpoint shortest (fuel : nat) (x : number) (p q n0 k : Z) : Z * Z :=
  match fuel with
  | O => (0, 0)
  | S f =>
      match candidates x p q n0 k with
      | Some r => r
      | None => shortest f x p q n0 (k + 1)
      end
  end.

Fixpoint strip_zeros (fuel : nat) (s t : Z) : Z * Z :=
  match fuel with
  | O => (s, t)
  | S f => if (s mod 10 =? 0) && negb (s =? 0)
           then strip_zeros f (s / 10) (t + 1) else (s, t)
  end.

(** Layout of the digit string [ds] (its length is [k]) with decimal
    point position [n], as Number::toString prescribes. *)
Definition layout (ds : string) (n : Z) : string :=
  let k := Z.of_nat (String.length ds) in
  if (k <=? n) && (n <=? 21) then
    ds ++ Str.repeat "0"%char (Z.to_nat (n - k))
  else if (0 <? n) && (n <=? 21) then
    String.substring 0 (Z.to_nat n) ds ++ "." ++
    String.substring (Z.to_nat n) (String.length ds) ds
  else if (-6 <? n) && (n <=? 0) then
    "0." ++ Str.repeat "0"%char (Z.to_nat (- n)) ++ ds
  else
    let e := n - 1 in
    let es := (if e <? 0 then "-" else "+") ++ Str.of_N (Z.to_N (Z.abs e)) in
    match ds with
    | String c EmptyString => ds ++ "e" ++ es
    | String c rest => String c ("." ++ rest) ++ "e" ++ es
    | EmptyString => ds
    end.

Definition toString (x : number) : string :=
  match x with
  | S754_nan => "NaN"
  | S754_zero _ => "0"
  | S754_infinity neg => if neg then "-Infinity" else "Infinity"
  | S754_finite neg m e =>
      let '(p, q) := fraction_of m e in
      let n0 := decimal_order p q in
      let '(s0, t0) := shortest 21 x p q n0 1 in
      let '(s, t) := strip_zeros 400 s0 t0 in
      let ds := Str.of_N (Z.to_N s) in
      (if neg then "-" else "") ++ layout ds (Z.of_nat (String.length ds) + t)
  end.

End Num.

(** ** JavaScript values and exceptions *)

Definition number := Num.number.

(** A parsed XML tree, and the few other values the transformer meets:
    [JNative f] is the built-in function [f] that every object inherits
    from [Object.prototype]. The keys of a [JObj] are pairwise distinct. *)
Inductive jsval : Type :=
| JUndefined
| JNull
| JBool (b : bool)
| JNum (n : number)
| JStr (s : string)
| JArr (elems : list jsval)
| JObj (props : list (string * jsval))
| JNative (name : string).

Inductive exn : Type :=
| TypeError (message : string)
| Error (message : string).

Definition message (e : exn) : string :=
  match e with TypeError m | Error m => m end.

Inductive result (A : Type) : Type :=
| Ok (a : A)
| Throw (e : exn).
Arguments Ok {A} a.
Arguments Throw {A} e.

Definition bind {A B} (r : result A) (k : A -> result B) : result B :=
  match r with
  | Ok a => k a
  | Throw e => Throw e
  end.

Declare Scope js_scope.
Delimit Scope js_scope with js.
Notation "x <- c ;; k" := (bind c (fun x => k))
  (at level 61, c at next level, right associativity) : js_scope.
Notation "' pat <- c ;; k" := (bind c (fun x => match x with pat => k end))
  (at level 61, pat pattern, c at next level, right associativity) : js_scope.
Local Open Scope js_scope.

(** [Array.prototype.map] and [forEach] with a callback that can raise. *)
Fixpoint mapM {A B} (f : A -> result B) (l : list A) : result (list B) :=
  match l with
  | [] => Ok []
  | a :: rest => b <- f a ;; bs <- mapM f rest ;; Ok (b :: bs)
  end.

Fixpoint foldM {A S} (f : S -> A -> result S) (l : list A) (s : S) : result S :=
  match l with
  | [] => Ok s
  | a :: rest => s' <- f s a ;; foldM f rest s'
  end.

(** The wall clock: [clock w i] is what the [i]-th reading returns. *)
Record world : Type := { clock : nat -> Z; reads : nat }.

(** A [Date] object: its time value in milliseconds since the epoch, or the
    invalid date (time value [NaN]). *)
Inductive jsdate : Type :=
| InvalidDate
| DateAt (ms : Z).

(** [new Date()] *)
Definition newDateNow (w : world) : jsdate * world :=
  (DateAt (clock w (reads w)), {| clock := clock w; reads := S (reads w) |}).

(** *** Truthiness, [typeof], property access *)

(** ToBoolean *)
Definition truthy (v : jsval) : bool :=
  match v with
  | JUndefined | JNull => false
  | JBool b => b
  | JNum n => Num.truthy n
  | JStr s => negb (Str.isEmpty s)
  | JArr _ | JObj _ | JNative _ => true
  end.

Definition nullish (v : jsval) : bool :=
  match v with JUndefined | JNull => true | _ => false end.

(** [a || b] on values *)
Definition or (a b : jsval) : jsval := if truthy a then a else b.
(** [s || t] on strings, [s] falsy exactly when empty *)
Definition orS (s t : string) : string := if Str.isEmpty s then t else s.

Definition isUndefined (v : jsval) : bool :=
  match v with JUndefined => true | _ => false end.
Definition isArray (v : jsval) : bool :=
  match v with JArr _ => true | _ => false end.
(** [typeof v === 'object' && v !== null] *)
Definition isObjectType (v : jsval) : bool :=
  match v with JArr _ | JObj _ => true | _ => false end.
Definition isString (v : jsval) : bool :=
  match v with JStr _ => true | _ => false end.

Fixpoint lookup (k : string) (ps : list (string * jsval)) : option jsval :=
  match ps with
  | [] => None
  | (k', v) :: rest => if String.eqb k k' then Some v else lookup k rest
  end.

(** What every object inherits from [Object.prototype]. *)
Definition objectPrototypeNames : list string :=
  ["constructor"; "toString"; "toLocaleString"; "valueOf"; "hasOwnProperty";
   "isPrototypeOf"; "propertyIsEnumerable"; "__defineGetter__";
   "__defineSetter__"; "__lookupGetter__"; "__lookupSetter__"].

Definition inherited (k : string) : jsval :=
  if String.eqb k "__proto__" then JObj []
  else if String.eqb k "constructor" then JNative "Object"
  else if existsb (String.eqb k) objectPrototypeNames then JNative k
  else JUndefined.

(** A canonical array index: a decimal numeral without a leading zero. *)
Definition isIndex (k : string) : bool :=
  negb (Str.isEmpty k) &&
  Str.isEmpty (Str.filter (fun c => negb (Str.is_digit c)) k) &&
  (String.eqb k "0" || negb (prefix "0" k)).
Definition indexOf (k : string) : nat := Z.to_nat (Str.digits_value 0 k).

(** The value of [v[k]] for a receiver that is not nullish: an own
    property (a member of an object, an element or the [length] of an array
    or a string), else what the prototype chain ends with. The methods
    that only arrays, strings, numbers and booleans carry are not listed:
    the source reads its receivers under XML element names and ['#text']
    only, none of which names a built-in. *)
Definition prop (v : jsval) (k : string) : jsval :=
  match v with
  | JObj ps =>
      match lookup k ps with
      | Some x => x
      | None => inherited k
      end
  | JArr l =>
      if isIndex k then nth (indexOf k) l JUndefined
      else if String.eqb k "length" then JNum (Num.of_nat (List.length l))
      else inherited k
  | JStr s =>
      if isIndex k then
        if (indexOf k <? String.length s)%nat
        then JStr (String.substring (indexOf k) 1 s) else JUndefined
      else if String.eqb k "length" then JNum (Num.of_nat (String.length s))
      else inherited k
  | _ => inherited k
  end.

Definition describe (v : jsval) : string :=
  match v with JNull => "null" | _ => "undefined" end.

(** [v.k]: raises on [undefined] and [null]. *)
Definition getp (v : jsval) (k : string) : result jsval :=
  if nullish v then
    Throw (TypeError ("Cannot read properties of " ++ describe v ++
                      " (reading '" ++ k ++ "')"))
  else Ok (prop v k).

(** [v?.k] *)
Definition getopt (v : jsval) (k : string) : jsval :=
  if nullish v then JUndefined else prop v k.

(** [arr[0]] *)
Definition first (v : jsval) : jsval :=
  match v with
  | JArr (x :: _) => x
  | _ => JUndefined
  end.

(** [Array.isArray(v) ? v : [v]] *)
Definition asArray (v : jsval) : list jsval :=
  match v with
  | JArr l => l
  | _ => [v]
  end.

(** [Object.values] of an object. *)
Definition values (ps : list (string * jsval)) : list jsval := map snd ps.

(** ToString of a value, as [v.toString()] and [Array.prototype.join]
    compute it. An object answers ["[object Object]"] unless an own
    property hides [Object.prototype.toString]; no own property of a parsed
    tree is callable, so the call raises then. *)
Fixpoint toStringCall (v : jsval) : result string :=
  match v with
  | JUndefined | JNull =>
      Throw (TypeError ("Cannot read properties of " ++ describe v ++
                        " (reading 'toString')"))
  | JBool b => Ok (if b then "true" else "false")
  | JNum n => Ok (Num.toString n)
  | JStr s => Ok s
  | JNative f => Ok ("function " ++ f ++ "() { [native code] }")
  | JObj ps =>
      match lookup "toString" ps with
      | Some _ => Throw (TypeError "toString is not a function")
      | None => Ok "[object Object]"
      end
  | JArr l =>
      (fix joinAll (l : list jsval) : result string :=
         match l with
         | [] => Ok ""
         | x :: rest =>
             sx <- (if nullish x then Ok "" else toStringCall x) ;;
             match rest with
             | [] => Ok sx
             | _ => sr <- joinAll rest ;; Ok (sx ++ "," ++ sr)
             end
         end) l
  end.

(** ** xmlParserService.js *)

(** [extractText] *)
Definition extractText (node : jsval) : result string :=
  if negb (truthy node) then Ok ""
  else
    match node with
    | JStr s => Ok (Str.trim s)
    | JNum n => Ok (Num.toString n)
    | _ =>
        let t := prop node "#text" in
        if truthy t then s <- toStringCall t ;; Ok (Str.trim s)
        else
          match node with
          | JObj ps =>
              Ok (match find isString (values ps) with
                  | Some (JStr s) => s
                  | _ => ""
                  end)
          | _ => Ok ""
          end
    end.

Definition keepNumeric (c : ascii) : bool :=
  Str.is_digit c || Ascii.eqb c "."%char || Ascii.eqb c "-"%char.

(** [extractNumber] *)
Definition extractNumber (node : jsval) : result number :=
  text <- extractText node ;;
  let n := Num.parseFloat (Str.filter keepNumeric text) in
  Ok (if Num.isNaN n then Num.zero else n).

(** [getNestedValue] *)
Definition getNestedValue (obj : jsval) (path : string) : jsval :=
  fold_left
    (fun current key =>
       if truthy current && negb (isUndefined (prop current key))
       then prop current key
       else JUndefined)
    (Str.split "."%char path) obj.

(** *** Dates *)

Module DateTime.

Definition msPerDay : Z := 86400000.

Definition isLeap (y : Z) : bool :=
  ((y mod 4 =? 0) && negb (y mod 100 =? 0)) || (y mod 400 =? 0).

Definition daysInMonth (y m : Z) : Z :=
  if m =? 2 then (if isLeap y then 29 else 28)
  else if (m =? 4) || (m =? 6) || (m =? 9) || (m =? 11) then 30
  else 31.

(** DayFromYear of ECMA-262: the day number of 1 January of year [y]. *)
Definition dayFromYear (y : Z) : Z :=
  365 * (y - 1970) + (y - 1969) / 4 - (y - 1901) / 100 + (y - 1601) / 400.

Fixpoint daysBefore (y : Z) (m : nat) : Z :=
  match m with
  | O => 0
  | S m' => daysBefore y m' + daysInMonth y (Z.of_nat m)
  end.

(** MakeDate (MakeDay (y, m - 1, d), 0) for month [m] counted from 1. *)
Definition utc (y m d : Z) : Z :=
  (dayFromYear y + daysBefore y (Z.to_nat (m - 1)) + (d - 1)) * msPerDay.

(** Year, month index (January is 0) and day of the month of a time
    value, in UTC. *)
Definition civil (ms : Z) : Z * Z * Z :=
  let z := ms / msPerDay + 719468 in
  let era := z / 146097 in
  let doe := z - era * 146097 in
  let yoe := (doe - doe / 1460 + doe / 36524 - doe / 146096) / 365 in
  let doy := doe - (365 * yoe + yoe / 4 - yoe / 100) in
  let mp := (5 * doy + 2) / 153 in
  let d := doy - (153 * mp + 2) / 5 + 1 in
  let m := if mp <? 10 then mp + 3 else mp - 9 in
  let y := yoe + era * 400 + (if m <=? 2 then 1 else 0) in
  (y, m - 1, d).

Definition getUTCFullYear (ms : Z) : Z := fst (fst (civil ms)).
Definition getUTCMonth (ms : Z) : Z := snd (fst (civil ms)).
Definition getUTCDate (ms : Z) : Z := snd (civil ms).

Definition allDigits (s : string) : bool :=
  Str.isEmpty (Str.filter (fun c => negb (Str.is_digit c)) s).

(** The time value of a string of the form [YYYY-MM-DD] that names a day
    of the calendar: midnight UTC of that day. *)
Definition calendarDate (s : string) : option Z :=
  let ys := Str.substring 0 4 s in
  let ms := Str.substring 5 7 s in
  let ds := Str.substring 8 10 s in
  if (String.length s =? 10)%nat
     && String.eqb (Str.substring 4 5 s) "-"
     && String.eqb (Str.substring 7 8 s) "-"
     && allDigits ys && allDigits ms && allDigits ds
  then
    let y := Str.digits_value 0 ys in
    let m := Str.digits_value 0 ms in
    let d := Str.digits_value 0 ds in
    if (1 <=? m) && (m <=? 12) && (1 <=? d) && (d <=? daysInMonth y m)
    then Some (utc y m d) else None
  else None.

End DateTime.

Section Host.

(** [Date.parse] on the strings that are not calendar dates: other ISO
    forms and whatever the engine accepts besides. *)
Variable hostDateParse : string -> jsdate.

(** [new Date(s)] *)
Definition newDate (s : string) : jsdate :=
  match DateTime.calendarDate s with
  | Some ms => DateAt ms
  | None => hostDateParse s
  end.

(** [extractDate]: [null] is [None]. *)
Definition extractDate (node : jsval) : result (option jsdate) :=
  text <- extractText node ;;
  if Str.isEmpty text then Ok None
  else
    match newDate text with
    | InvalidDate => Ok None
    | d => Ok (Some d)
    end.

End Host.

Definition experianIndicators : list string :=
  ["INProfileResponse"; "CreditReport"; "CREDITREPORT"; "ExpCreditReport";
   "Report"; "XMLResponse"].

(** [Object.keys] of a value that is not nullish. *)
Definition keys (v : jsval) : list string :=
  match v with
  | JObj ps => map fst ps
  | JArr l => map (fun i => Str.of_N (N.of_nat i)) (seq 0 (List.length l))
  | JStr s => map (fun i => Str.of_N (N.of_nat i)) (seq 0 (String.length s))
  | _ => []
  end.

(** [rootKeys.some(key => experianIndicators.some(...))] *)
Definition hasExperianRoot (rootKeys : list string) : bool :=
  existsb
    (fun key =>
       existsb
         (fun indicator =>
            Str.includes (Str.toLowerCase key) (Str.toLowerCase indicator))
         experianIndicators)
    rootKeys.

(** [validateExperianXml]; nothing in its body can raise on a value that
    passed the first test, so the [catch] branch is dead. *)
Definition validateExperianXml (parsedData : jsval) : bool :=
  if negb (truthy parsedData) || negb (isObjectType parsedData) then false
  else if negb (hasExperianRoot (keys parsedData)) then false
  else
    let profileResponse := prop parsedData "INProfileResponse" in
    if truthy profileResponse then
      truthy (or (or (prop profileResponse "Header")
                     (prop profileResponse "CAIS_Account"))
                 (prop profileResponse "Current_Application"))
    else true.

(** ** dataTransformerService.js *)

(** [findValueFromPaths] *)
Fixpoint findValueFromPaths (obj : jsval) (paths : list string) : jsval :=
  match paths with
  | [] => JNull
  | path :: rest =>
      let value := getNestedValue obj path in
      if negb (nullish value) then value else findValueFromPaths obj rest
  end.

Definition possibleRoots : list string :=
  ["CreditReport"; "CREDITREPORT"; "ExpCreditReport"; "Report";
   "XMLResponse.CreditReport"; "XMLResponse.Response.CreditReport"].

(** The two loops of [findReportRoot]. *)
Fixpoint firstTruthyPath (obj : jsval) (paths : list string) : option jsval :=
  match paths with
  | [] => None
  | path :: rest =>
      let root := getNestedValue obj path in
      if truthy root then Some root else firstTruthyPath obj rest
  end.

Fixpoint firstObjectValue (obj : jsval) (ks : list string) : option jsval :=
  match ks with
  | [] => None
  | key :: rest =>
      if isObjectType (prop obj key) then Some (prop obj key)
      else firstObjectValue obj rest
  end.

(** [findReportRoot] *)
Definition findReportRoot (parsedXml : jsval) : result jsval :=
  r <- getp parsedXml "INProfileResponse" ;;
  if truthy r then Ok r
  else
    match firstTruthyPath parsedXml possibleRoots with
    | Some root => Ok root
    | None =>
        match firstObjectValue parsedXml (keys parsedXml) with
        | Some root => Ok root
        | None => Ok JNull
        end
    end.

(** *** The records of the output *)

Module BasicDetails.
(** A property that was never assigned is [JUndefined] for [name] and
    [None] for the others; [creditScore] can also hold [null]. *)
Record t : Type := mk {
  name : jsval;
  mobilePhone : option string;
  pan : option string;
  email : option string;
  dateOfBirth : option jsdate;
  gender : option string;
  address : option string;
  creditScore : option (option number)
}.
Definition empty : t := mk JUndefined None None None None None None None.
Definition setName v b :=
  mk v (mobilePhone b) (pan b) (email b) (dateOfBirth b) (gender b)
     (address b) (creditScore b).
Definition setMobilePhone v b :=
  mk (name b) (Some v) (pan b) (email b) (dateOfBirth b) (gender b)
     (address b) (creditScore b).
Definition setPan v b :=
  mk (name b) (mobilePhone b) (Some v) (email b) (dateOfBirth b) (gender b)
     (address b) (creditScore b).
Definition setEmail v b :=
  mk (name b) (mobilePhone b) (pan b) (Some v) (dateOfBirth b) (gender b)
     (address b) (creditScore b).
Definition setDateOfBirth v b :=
  mk (name b) (mobilePhone b) (pan b) (email b) (Some v) (gender b)
     (address b) (creditScore b).
Definition setGender v b :=
  mk (name b) (mobilePhone b) (pan b) (email b) (dateOfBirth b) (Some v)
     (address b) (creditScore b).
Definition setAddress v b :=
  mk (name b) (mobilePhone b) (pan b) (email b) (dateOfBirth b) (gender b)
     (Some v) (creditScore b).
Definition setCreditScore v b :=
  mk (name b) (mobilePhone b) (pan b) (email b) (dateOfBirth b) (gender b)
     (address b) (Some v).
End BasicDetails.

Module ReportSummary.
Record t : Type := mk {
  totalAccounts : number;
  activeAccounts : number;
  closedAccounts : number;
  currentBalanceAmount : number;
  securedAmount : number;
  unsecuredAmount : number;
  recentEnquiries : number
}.
Definition zero : t :=
  mk Num.zero Num.zero Num.zero Num.zero Num.zero Num.zero Num.zero.
Definition setTotalAccounts v s :=
  mk v (activeAccounts s) (closedAccounts s) (currentBalanceAmount s)
     (securedAmount s) (unsecuredAmount s) (recentEnquiries s).
Definition setActiveAccounts v s :=
  mk (totalAccounts s) v (closedAccounts s) (currentBalanceAmount s)
     (securedAmount s) (unsecuredAmount s) (recentEnquiries s).
Definition setClosedAccounts v s :=
  mk (totalAccounts s) (activeAccounts s) v (currentBalanceAmount s)
     (securedAmount s) (unsecuredAmount s) (recentEnquiries s).
Definition setCurrentBalanceAmount v s :=
  mk (totalAccounts s) (activeAccounts s) (closedAccounts s) v
     (securedAmount s) (unsecuredAmount s) (recentEnquiries s).
Definition setSecuredAmount v s :=
  mk (totalAccounts s) (activeAccounts s) (closedAccounts s)
     (currentBalanceAmount s) v (unsecuredAmount s) (recentEnquiries s).
Definition setUnsecuredAmount v s :=
  mk (totalAccounts s) (activeAccounts s) (closedAccounts s)
     (currentBalanceAmount s) (securedAmount s) v (recentEnquiries s).
Definition setRecentEnquiries v s :=
  mk (totalAccounts s) (activeAccounts s) (closedAccounts s)
     (currentBalanceAmount s) (securedAmount s) (unsecuredAmount s) v.
End ReportSummary.

Module CreditAccount.
(** [type] and [status] are values because a table lookup can return an
    inherited built-in; the last three properties are absent ([None]) on
    an account mapped from a legacy collection. *)
Record t : Type := mk {
  type : jsval;
  bankName : string;
  accountNumber : string;
  address : string;
  amountOverdue : number;
  currentBalance : number;
  sanctionedAmount : number;
  dateOpened : option jsdate;
  dateClosed : option jsdate;
  status : jsval;
  paymentHistory : string;
  paymentRating : option string;
  portfolioType : option string;
  lastReported : option (option jsdate)
}.
End CreditAccount.

Module Enquiry.
Record t : Type := mk {
  institution : string;
  date : option jsdate;
  amount : number;
  purpose : string
}.
End Enquiry.

Module TransformedReport.
Record t : Type := mk {
  basicDetails : BasicDetails.t;
  reportSummary : ReportSummary.t;
  creditAccounts : list CreditAccount.t;
  enquiries : list Enquiry.t;
  reportDate : jsdate
}.
End TransformedReport.

(** *** Code tables *)

Definition typeMap : jsval :=
  JObj [("10", JStr "Credit Card"); ("51", JStr "Personal Loan");
        ("52", JStr "Personal Loan"); ("53", JStr "Auto Loan");
        ("61", JStr "Housing Loan"); ("71", JStr "Gold Loan");
        ("81", JStr "Two Wheeler Loan")].

Definition statusMap : jsval :=
  JObj [("11", JStr "Active - Regular"); ("12", JStr "Active - Regular");
        ("13", JStr "Closed - Regular"); ("14", JStr "Closed - Regular");
        ("21", JStr "Active - Irregular"); ("22", JStr "Active - Irregular");
        ("31", JStr "Active - Irregular"); ("32", JStr "Active - Irregular");
        ("41", JStr "Active - Irregular"); ("42", JStr "Active - Irregular");
        ("51", JStr "Active - Irregular"); ("52", JStr "Active - Irregular");
        ("53", JStr "Active - Irregular"); ("71", JStr "Active - Irregular");
        ("78", JStr "Settled"); ("80", JStr "Settled"); ("82", JStr "Settled");
        ("83", JStr "Settled"); ("84", JStr "Settled"); ("89", JStr "Closed")].

(** [type += suffix]: the left operand is a string, or one of the values
    [inherited] returns, whose ToPrimitive is its [toString()]. *)
Definition appendTo (v : jsval) (suffix : string) : jsval :=
  match toStringCall v with
  | Ok s => JStr (s ++ suffix)
  | Throw _ => v
  end.

(** [getAccountTypeString] *)
Definition getAccountTypeString (typeCode portfolio : string) : jsval :=
  let type := or (prop typeMap typeCode) (JStr "Other") in
  let type := if String.eqb portfolio "R"
              then appendTo type " (Revolving)" else type in
  let type := if String.eqb portfolio "I"
              then appendTo type " (Installment)" else type in
  type.

(** [getAccountStatus] *)
Definition getAccountStatus (statusCode : string) : jsval :=
  or (prop statusMap statusCode) (JStr ("Status " ++ statusCode)).

Section Transformer.

Variable hostDateParse : string -> jsdate.

(** [new Date(`${year}-${month}-${day}`)] on the three slices of an
    8-character code. *)
Definition dateOfCode (code : string) : jsdate :=
  let year := Str.substring 0 4 code in
  let month := Str.substring 4 6 code in
  let day := Str.substring 6 8 code in
  newDate hostDateParse (year ++ "-" ++ month ++ "-" ++ day).

(** [convertDate] *)
Definition convertDate (dateString : string) : option jsdate :=
  if Str.isEmpty dateString || negb (String.length dateString =? 8)%nat
  then None
  else Some (dateOfCode dateString).

(** [[...].filter(part => part && part.trim() !== '').join(', ')] *)
Definition joinAddress (parts : list string) : string :=
  Str.join ", "
    (List.filter
       (fun part => negb (Str.isEmpty part) &&
                    negb (Str.isEmpty (Str.trim part)))
       parts).

(** [extractText(a.k1)], ..., one after the other. *)
Definition extractTexts (a : jsval) (ks : list string) : result (list string) :=
  mapM (fun k => extractText (prop a k)) ks.

(** [extractText(a.k1) || extractText(a.k2) || ''] *)
Definition textOr (a : jsval) (k1 k2 : string) : result string :=
  t1 <- extractText (prop a k1) ;;
  if Str.isEmpty t1
  then t2 <- extractText (prop a k2) ;; Ok (orS t2 "")
  else Ok t1.

(** [`${firstName} ${lastName}`.trim()] *)
Definition fullName (a : jsval) (k1 k2 : string) : result jsval :=
  firstName <- extractText (prop a k1) ;;
  lastName <- extractText (prop a k2) ;;
  Ok (JStr (Str.trim (orS firstName "" ++ " " ++ orS lastName ""))).

Definition falsyS (o : option string) : bool :=
  match o with Some s => Str.isEmpty s | None => true end.

(** The block under [if (applicantDetails)]. *)
Definition fromApplicantDetails (applicantDetails : jsval)
    (bd : BasicDetails.t) : result BasicDetails.t :=
  nm <- fullName applicantDetails "First_Name" "Last_Name" ;;
  let bd := BasicDetails.setName nm bd in
  phone <- textOr applicantDetails "MobilePhoneNumber"
                  "Telephone_Number_Applicant_1st" ;;
  let bd := BasicDetails.setMobilePhone phone bd in
  p <- extractText (prop applicantDetails "IncomeTaxPan") ;;
  let bd := BasicDetails.setPan (orS p "") bd in
  e <- extractText (prop applicantDetails "EMailId") ;;
  let bd := BasicDetails.setEmail (orS e "") bd in
  dobString <- extractText (prop applicantDetails "Date_Of_Birth_Applicant") ;;
  if negb (Str.isEmpty dobString) && negb (String.eqb dobString "00010201")
  then
    if negb (String.eqb (Str.substring 0 4 dobString) "0001")
    then Ok (BasicDetails.setDateOfBirth (dateOfCode dobString) bd)
    else Ok bd
  else Ok bd.

(** The block under [if (reportRoot.Current_Application)]. *)
Definition fromCurrentApplication (currentApplication : jsval)
    (bd : BasicDetails.t) : result BasicDetails.t :=
  let details := prop currentApplication "Current_Application_Details" in
  let applicantDetails := getopt details "Current_Applicant_Details" in
  bd <- (if truthy applicantDetails
         then fromApplicantDetails applicantDetails bd else Ok bd) ;;
  let addressDetails := getopt details "Current_Applicant_Address_Details" in
  if truthy addressDetails then
    parts <- extractTexts addressDetails
               ["FlatNoPlotNoHouseNo"; "BldgNoSocietyName";
                "RoadNoNameAreaLocality"; "City"; "State"; "PINCode"] ;;
    Ok (BasicDetails.setAddress (joinAddress parts) bd)
  else Ok bd.

(** The block under [if (caisDetails?.CAIS_Holder_Details)]. *)
Definition fromHolderDetails (holderDetails : jsval)
    (bd : BasicDetails.t) : result BasicDetails.t :=
  bd <- (if negb (truthy (BasicDetails.name bd)) then
           nm <- fullName holderDetails "First_Name_Non_Normalized"
                          "Surname_Non_Normalized" ;;
           Ok (BasicDetails.setName nm bd)
         else Ok bd) ;;
  bd <- (if falsyS (BasicDetails.pan bd) then
           p <- extractText (prop holderDetails "Income_TAX_PAN") ;;
           Ok (BasicDetails.setPan (orS p "") bd)
         else Ok bd) ;;
  bd <- (match BasicDetails.dateOfBirth bd with
         | None =>
             if truthy (prop holderDetails "Date_of_birth") then
               dobString <- extractText (prop holderDetails "Date_of_birth") ;;
               if negb (Str.isEmpty dobString) &&
                  (String.length dobString =? 8)%nat
               then Ok (BasicDetails.setDateOfBirth (dateOfCode dobString) bd)
               else Ok bd
             else Ok bd
         | Some _ => Ok bd
         end) ;;
  genderCode <- extractText (prop holderDetails "Gender_Code") ;;
  if String.eqb genderCode "1" then Ok (BasicDetails.setGender "Male" bd)
  else if String.eqb genderCode "2" then Ok (BasicDetails.setGender "Female" bd)
  else Ok bd.

(** The block under [if (reportRoot.CAIS_Account?.CAIS_Account_DETAILS)]. *)
Definition fromAccountDetails (accountDetails : jsval)
    (bd : BasicDetails.t) : result BasicDetails.t :=
  let caisDetails :=
    if isArray accountDetails then first accountDetails else accountDetails in
  let holderDetails := getopt caisDetails "CAIS_Holder_Details" in
  bd <- (if truthy holderDetails
         then fromHolderDetails holderDetails bd else Ok bd) ;;
  let phoneDetails := getopt caisDetails "CAIS_Holder_Phone_Details" in
  bd <- (if truthy phoneDetails && falsyS (BasicDetails.mobilePhone bd) then
           phone <- textOr phoneDetails "Telephone_Number"
                           "Mobile_Telephone_Number" ;;
           Ok (BasicDetails.setMobilePhone phone bd)
         else Ok bd) ;;
  let addrDetails := getopt caisDetails "CAIS_Holder_Address_Details" in
  if truthy addrDetails && falsyS (BasicDetails.address bd) then
    parts <- extractTexts addrDetails
               ["First_Line_Of_Address_non_normalized";
                "Second_Line_Of_Address_non_normalized";
                "Third_Line_Of_Address_non_normalized";
                "City_non_normalized"; "State_non_normalized";
                "ZIP_Postal_Code_non_normalized"] ;;
    Ok (BasicDetails.setAddress (joinAddress parts) bd)
  else Ok bd.

Definition namePaths : list string :=
  ["PersonalInfo.Name"; "PersonalInformation.Name"; "ApplicantInfo.Name";
   "Consumer.Name"; "Header.SubjectName"].

(** [extractBasicDetails] *)
Definition extractBasicDetails (reportRoot : jsval) : result BasicDetails.t :=
  let bd := BasicDetails.empty in
  currentApplication <- getp reportRoot "Current_Application" ;;
  bd <- (if truthy currentApplication
         then fromCurrentApplication currentApplication bd else Ok bd) ;;
  scoreBlock <- getp reportRoot "SCORE" ;;
  bd <- (if truthy scoreBlock then
           score <- extractNumber (prop scoreBlock "BureauScore") ;;
           Ok (BasicDetails.setCreditScore
                 (if Num.gtb score Num.zero then Some score else None) bd)
         else Ok bd) ;;
  caisAccount <- getp reportRoot "CAIS_Account" ;;
  let accountDetails := getopt caisAccount "CAIS_Account_DETAILS" in
  bd <- (if truthy accountDetails
         then fromAccountDetails accountDetails bd else Ok bd) ;;
  if negb (truthy (BasicDetails.name bd))
  then Ok (BasicDetails.setName
             (or (findValueFromPaths reportRoot namePaths) (JStr "")) bd)
  else Ok bd.

Definition accountsPaths : list string :=
  ["Accounts"; "CreditAccounts"; "AccountInfo"; "TradeLines"].
Definition enquiriesPaths : list string :=
  ["Enquiries"; "CreditEnquiries"; "InquiryInfo"].

(** The callback of the first [forEach] of [extractReportSummary]. *)
Definition countAccount (summary : ReportSummary.t) (account : jsval)
    : result ReportSummary.t :=
  statusNode <- getp account "Account_Status" ;;
  status <- extractText statusNode ;;
  balance <- extractNumber (prop account "Current_Balance") ;;
  let currentBalance := Num.or_zero balance in
  let summary :=
    if String.eqb status "11" || String.eqb status "53" ||
       String.eqb status "71"
    then ReportSummary.setActiveAccounts
           (Num.incr (ReportSummary.activeAccounts summary)) summary
    else if String.eqb status "13"
    then ReportSummary.setClosedAccounts
           (Num.incr (ReportSummary.closedAccounts summary)) summary
    else summary in
  let summary :=
    ReportSummary.setCurrentBalanceAmount
      (Num.add (ReportSummary.currentBalanceAmount summary) currentBalance)
      summary in
  portfolioType <- extractText (prop account "Portfolio_Type") ;;
  if String.eqb portfolioType "R"
  then Ok (ReportSummary.setUnsecuredAmount
             (Num.add (ReportSummary.unsecuredAmount summary) currentBalance)
             summary)
  else Ok (ReportSummary.setSecuredAmount
             (Num.add (ReportSummary.securedAmount summary) currentBalance)
             summary).

(** The callback of the second [forEach], on a legacy collection. *)
Definition countLegacyAccount (summary : ReportSummary.t) (account : jsval)
    : result ReportSummary.t :=
  status <- extractText (or (getNestedValue account "Status")
                            (getNestedValue account "AccountStatus")) ;;
  let lower := Str.toLowerCase status in
  let summary :=
    if negb (Str.isEmpty status) &&
       (Str.includes lower "active" || Str.includes lower "current")
    then ReportSummary.setActiveAccounts
           (Num.incr (ReportSummary.activeAccounts summary)) summary
    else if negb (Str.isEmpty status) && Str.includes lower "closed"
    then ReportSummary.setClosedAccounts
           (Num.incr (ReportSummary.closedAccounts summary)) summary
    else summary in
  balance <- extractNumber (or (getNestedValue account "CurrentBalance")
                               (getNestedValue account "Balance")) ;;
  let summary :=
    ReportSummary.setCurrentBalanceAmount
      (Num.add (ReportSummary.currentBalanceAmount summary) balance)
      summary in
  accountType <- extractText (or (getNestedValue account "Type")
                                 (getNestedValue account "AccountType")) ;;
  if negb (Str.isEmpty accountType) &&
     Str.includes (Str.toLowerCase accountType) "secured"
  then Ok (ReportSummary.setSecuredAmount
             (Num.add (ReportSummary.securedAmount summary) balance) summary)
  else Ok (ReportSummary.setUnsecuredAmount
             (Num.add (ReportSummary.unsecuredAmount summary) balance)
             summary).

(** The block under [if (reportRoot.CAIS_Account?.CAIS_Summary)]. *)
Definition fromCaisSummary (caisSummary : jsval) (summary : ReportSummary.t)
    : result ReportSummary.t :=
  let creditAccount := prop caisSummary "Credit_Account" in
  summary <-
    (if truthy creditAccount then
       total <- extractNumber (prop creditAccount "CreditAccountTotal") ;;
       active <- extractNumber (prop creditAccount "CreditAccountActive") ;;
       closed <- extractNumber (prop creditAccount "CreditAccountClosed") ;;
       Ok (ReportSummary.setClosedAccounts (Num.or_zero closed)
             (ReportSummary.setActiveAccounts (Num.or_zero active)
                (ReportSummary.setTotalAccounts (Num.or_zero total) summary)))
     else Ok summary) ;;
  let outstandingBalance := prop caisSummary "Total_Outstanding_Balance" in
  if truthy outstandingBalance then
    secured <- extractNumber
                 (prop outstandingBalance "Outstanding_Balance_Secured") ;;
    unsecured <- extractNumber
                   (prop outstandingBalance "Outstanding_Balance_UnSecured") ;;
    all <- extractNumber (prop outstandingBalance "Outstanding_Balance_All") ;;
    Ok (ReportSummary.setCurrentBalanceAmount (Num.or_zero all)
          (ReportSummary.setUnsecuredAmount (Num.or_zero unsecured)
             (ReportSummary.setSecuredAmount (Num.or_zero secured) summary)))
  else Ok summary.

(** The block under the second [if (summary.totalAccounts === 0)]. *)
Definition legacySummary (reportRoot : jsval) (summary : ReportSummary.t)
    : result ReportSummary.t :=
  let accounts := findValueFromPaths reportRoot accountsPaths in
  summary <-
    (if truthy accounts then
       let accountsArray := asArray accounts in
       foldM countLegacyAccount accountsArray
         (ReportSummary.setTotalAccounts
            (Num.of_nat (List.length accountsArray)) summary)
     else Ok summary) ;;
  let enquiries := findValueFromPaths reportRoot enquiriesPaths in
  if truthy enquiries
  then Ok (ReportSummary.setRecentEnquiries
             (Num.of_nat (List.length (asArray enquiries))) summary)
  else Ok summary.

(** [extractReportSummary] *)
Definition extractReportSummary (reportRoot : jsval) : result ReportSummary.t :=
  let summary := ReportSummary.zero in
  caisAccount <- getp reportRoot "CAIS_Account" ;;
  let caisSummary := getopt caisAccount "CAIS_Summary" in
  summary <- (if truthy caisSummary
              then fromCaisSummary caisSummary summary else Ok summary) ;;
  let accountDetails := getopt caisAccount "CAIS_Account_DETAILS" in
  summary <-
    (if truthy accountDetails then
       let accountsArray := asArray accountDetails in
       if Num.eqb (ReportSummary.totalAccounts summary) Num.zero then
         foldM countAccount accountsArray
           (ReportSummary.setTotalAccounts
              (Num.of_nat (List.length accountsArray)) summary)
       else Ok summary
     else Ok summary) ;;
  caps <- getp reportRoot "CAPS" ;;
  let capsSummary := getopt caps "CAPS_Summary" in
  summary <-
    (if truthy capsSummary then
       n <- extractNumber (prop capsSummary "CAPSLast90Days") ;;
       Ok (ReportSummary.setRecentEnquiries (Num.or_zero n) summary)
     else Ok summary) ;;
  if Num.eqb (ReportSummary.totalAccounts summary) Num.zero
  then legacySummary reportRoot summary
  else Ok summary.

(** The callback of the first [map] of [extractCreditAccounts]. *)
Definition mapAccount (account : jsval) : result CreditAccount.t :=
  typeNode <- getp account "Account_Type" ;;
  accountType <- extractText typeNode ;;
  portfolioType <- extractText (prop account "Portfolio_Type") ;;
  let type := getAccountTypeString accountType portfolioType in
  subscriber <- extractText (prop account "Subscriber_Name") ;;
  let bankName := orS (Str.trim subscriber) "Unknown Bank" in
  accNo <- extractText (prop account "Account_Number") ;;
  pastDue <- extractNumber (prop account "Amount_Past_Due") ;;
  balance <- extractNumber (prop account "Current_Balance") ;;
  limit <- extractNumber (prop account "Credit_Limit_Amount") ;;
  sanctioned <-
    (if Num.truthy limit then Ok limit
     else
       highest <- extractNumber
                    (prop account "Highest_Credit_or_Original_Loan_Amount") ;;
       Ok (Num.or_zero highest)) ;;
  openDate <- extractText (prop account "Open_Date") ;;
  closedDate <- extractText (prop account "Date_Closed") ;;
  statusCode <- extractText (prop account "Account_Status") ;;
  history <- extractText (prop account "Payment_History_Profile") ;;
  rating <- extractText (prop account "Payment_Rating") ;;
  reported <- extractText (prop account "Date_Reported") ;;
  Ok {| CreditAccount.type := type;
        CreditAccount.bankName := bankName;
        CreditAccount.accountNumber := orS accNo "N/A";
        CreditAccount.address := "";
        CreditAccount.amountOverdue := Num.or_zero pastDue;
        CreditAccount.currentBalance := Num.or_zero balance;
        CreditAccount.sanctionedAmount := sanctioned;
        CreditAccount.dateOpened := convertDate openDate;
        CreditAccount.dateClosed := convertDate closedDate;
        CreditAccount.status := getAccountStatus statusCode;
        CreditAccount.paymentHistory := orS history "";
        CreditAccount.paymentRating := Some (orS rating "0");
        CreditAccount.portfolioType := Some portfolioType;
        CreditAccount.lastReported := Some (convertDate reported) |}.

(** [getNestedValue(a, k1) || getNestedValue(a, k2)] *)
Definition nested2 (a : jsval) (k1 k2 : string) : jsval :=
  or (getNestedValue a k1) (getNestedValue a k2).

(** The callback of the second [map], on a legacy collection. *)
Definition mapLegacyAccount (account : jsval) : result CreditAccount.t :=
  type <- extractText (nested2 account "Type" "AccountType") ;;
  bankName <- extractText (or (nested2 account "BankName" "Institution")
                              (getNestedValue account "Creditor")) ;;
  accNo <- extractText (nested2 account "AccountNumber" "AccNum") ;;
  addr <- extractText (getNestedValue account "Address") ;;
  overdue <- extractNumber (nested2 account "AmountOverdue" "PastDue") ;;
  balance <- extractNumber (nested2 account "CurrentBalance" "Balance") ;;
  sanctioned <- extractNumber
                  (nested2 account "SanctionedAmount" "CreditLimit") ;;
  opened <- extractDate hostDateParse
              (nested2 account "DateOpened" "OpenDate") ;;
  closed <- extractDate hostDateParse
              (nested2 account "DateClosed" "CloseDate") ;;
  status <- extractText (nested2 account "Status" "AccountStatus") ;;
  history <- extractText (getNestedValue account "PaymentHistory") ;;
  Ok {| CreditAccount.type := JStr (orS type "Other");
        CreditAccount.bankName := bankName;
        CreditAccount.accountNumber := accNo;
        CreditAccount.address := addr;
        CreditAccount.amountOverdue := overdue;
        CreditAccount.currentBalance := balance;
        CreditAccount.sanctionedAmount := sanctioned;
        CreditAccount.dateOpened := opened;
        CreditAccount.dateClosed := closed;
        CreditAccount.status := JStr (orS status "Active");
        CreditAccount.paymentHistory := history;
        CreditAccount.paymentRating := None;
        CreditAccount.portfolioType := None;
        CreditAccount.lastReported := None |}.

(** [extractCreditAccounts] *)
Definition extractCreditAccounts (reportRoot : jsval)
    : result (list CreditAccount.t) :=
  caisAccount <- getp reportRoot "CAIS_Account" ;;
  let accountDetails := getopt caisAccount "CAIS_Account_DETAILS" in
  accounts <- (if truthy accountDetails
               then mapM mapAccount (asArray accountDetails)
               else Ok []) ;;
  if (List.length accounts =? 0)%nat then
    let accountsData := findValueFromPaths reportRoot accountsPaths in
    if truthy accountsData
    then mapM mapLegacyAccount (asArray accountsData)
    else Ok accounts
  else Ok accounts.

(** The purpose text of the synthesized enquiry. *)
Definition purposeText (recent90Days recent30Days recent7Days : number)
    : string :=
  Num.toString recent90Days ++ " enquiries in last 90 days (" ++
  Num.toString recent30Days ++ " in last 30 days, " ++
  Num.toString recent7Days ++ " in last 7 days)".

(** The block under [if (capsSummary)]. *)
Definition fromCapsSummary (capsSummary : jsval) (w : world)
    : result (list Enquiry.t * world) :=
  n90 <- extractNumber (prop capsSummary "CAPSLast90Days") ;;
  n30 <- extractNumber (prop capsSummary "CAPSLast30Days") ;;
  n7 <- extractNumber (prop capsSummary "CAPSLast7Days") ;;
  let recent90Days := Num.or_zero n90 in
  let recent30Days := Num.or_zero n30 in
  let recent7Days := Num.or_zero n7 in
  if Num.gtb recent90Days Num.zero then
    let (now, w') := newDateNow w in
    Ok ([ {| Enquiry.institution := "Various Institutions";
             Enquiry.date := Some now;
             Enquiry.amount := Num.zero;
             Enquiry.purpose :=
               purposeText recent90Days recent30Days recent7Days |} ], w')
  else Ok ([], w).

(** The callback of the [map] of [extractEnquiries]. *)
Definition mapLegacyEnquiry (enquiry : jsval) : result Enquiry.t :=
  institution <- extractText (nested2 enquiry "Institution" "BankName") ;;
  date <- extractDate hostDateParse (nested2 enquiry "Date" "EnquiryDate") ;;
  amount <- extractNumber (nested2 enquiry "Amount" "EnquiryAmount") ;;
  purpose <- extractText (nested2 enquiry "Purpose" "EnquiryPurpose") ;;
  Ok {| Enquiry.institution := institution;
        Enquiry.date := date;
        Enquiry.amount := amount;
        Enquiry.purpose := purpose |}.

(** [extractEnquiries] *)
Definition extractEnquiries (reportRoot : jsval) (w : world)
    : result (list Enquiry.t * world) :=
  caps <- getp reportRoot "CAPS" ;;
  '(enquiries, w) <-
    (if truthy caps then
       let capsSummary := prop caps "CAPS_Summary" in
       if truthy capsSummary then fromCapsSummary capsSummary w
       else Ok ([], w)
     else Ok ([], w)) ;;
  if (List.length enquiries =? 0)%nat then
    let enquiriesData := findValueFromPaths reportRoot enquiriesPaths in
    if truthy enquiriesData then
      mapped <- mapM mapLegacyEnquiry (asArray enquiriesData) ;;
      Ok (mapped, w)
    else Ok (enquiries, w)
  else Ok (enquiries, w).

(** The body of the [try] block of [transformCreditReportData]. *)
Definition transformBody (parsedXml : jsval) (w : world)
    : result (TransformedReport.t * world) :=
  reportRoot <- findReportRoot parsedXml ;;
  if negb (truthy reportRoot)
  then Throw (Error "Could not find credit report data in XML")
  else
    basicDetails <- extractBasicDetails reportRoot ;;
    reportSummary <- extractReportSummary reportRoot ;;
    creditAccounts <- extractCreditAccounts reportRoot ;;
    '(enquiries, w) <- extractEnquiries reportRoot w ;;
    let (now, w) := newDateNow w in
    Ok ({| TransformedReport.basicDetails := basicDetails;
           TransformedReport.reportSummary := reportSummary;
           TransformedReport.creditAccounts := creditAccounts;
           TransformedReport.enquiries := enquiries;
           TransformedReport.reportDate := now |}, w).

(** [transformCreditReportData]: whatever the body raises is raised again
    under a prefixed message. *)
Definition transformCreditReportData (parsedXml : jsval) (w : world)
    : result (TransformedReport.t * world) :=
  match transformBody parsedXml w with
  | Ok r => Ok r
  | Throw error =>
      Throw (Error ("Data transformation failed: " ++ message error))
  end.

End Transformer.

(** ** Parsed documents *)

Definition isScalar (v : jsval) : bool :=
  match v with JBool _ | JNum _ | JStr _ => true | _ => false end.

Fixpoint distinct (ks : list string) : bool :=
  match ks with
  | [] => true
  | k :: rest => negb (existsb (String.eqb k) rest) && distinct rest
  end.

(** What the XML parser builds: scalars, arrays of trees, and objects of
    trees with distinct keys; the text of an element that also has
    attributes or children sits under ['#text'] as a scalar. No member or
    element is [null] or [undefined]. *)
Fixpoint parsedTree (v : jsval) : bool :=
  match v with
  | JBool _ | JNum _ | JStr _ => true
  | JArr l =>
      (fix all (l : list jsval) : bool :=
         match l with
         | [] => true
         | x :: rest => parsedTree x && all rest
         end) l
  | JObj ps =>
      (fix all (ps : list (string * jsval)) : bool :=
         match ps with
         | [] => true
         | (k, x) :: rest =>
             parsedTree x && (negb (String.eqb k "#text") || isScalar x)
             && all rest
         end) ps
      && distinct (map fst ps)
  | JUndefined | JNull | JNative _ => false
  end.

(** A parsed document is the object the parser returns for a file. *)
Definition parsedDocument (v : jsval) : bool :=
  match v with
  | JObj _ => parsedTree v
  | _ => false
  end.

(** A node handed to the extraction utilities: a subtree, or the
    [undefined] or [null] of a missing member. *)
Definition parsedNode (v : jsval) : bool := nullish v || parsedTree v.

(** ** Notions used to state the properties *)

(** A computation that returns. *)
Definition returns {A} (r : result A) : Prop := exists a, r = Ok a.

(** A key that names nothing inherited and no index or length, as every
    XML element name the source reads; and a dotted path of such keys. *)
Definition plainKey (k : string) : bool :=
  isUndefined (inherited k) && negb (isIndex k) &&
  negb (String.eqb k "length").
Definition plainPath (path : string) : bool :=
  forallb plainKey (Str.split "."%char path).

(** The sections the extractors read directly under the report root. *)
Definition rootSections : list string :=
  ["Current_Application"; "SCORE"; "CAIS_Account"; "CAPS"; "PersonalInfo";
   "PersonalInformation"; "ApplicantInfo"; "Consumer"; "Header"; "Accounts";
   "CreditAccounts"; "AccountInfo"; "TradeLines"; "Enquiries";
   "CreditEnquiries"; "InquiryInfo"].

(** The report root has none of [rootSections]. *)
Definition bare (root : jsval) : Prop :=
  forall k, In k rootSections -> prop root k = JUndefined.

(** Where a collection of accounts or enquiries can sit under the root. *)
Definition collectionFields : list (list string) :=
  [["CAIS_Account"; "CAIS_Account_DETAILS"]; ["Accounts"]; ["CreditAccounts"];
   ["AccountInfo"]; ["TradeLines"]; ["Enquiries"]; ["CreditEnquiries"];
   ["InquiryInfo"]].

(** The member reached from [v] along [path], if every step exists. *)
Fixpoint valueAt (path : list string) (v : jsval) : option jsval :=
  match path with
  | [] => Some v
  | k :: rest =>
      match v with
      | JObj ps =>
          match lookup k ps with
          | Some x => valueAt rest x
          | None => None
          end
      | _ => None
      end
  end.

(** The same tree with the member at [path] replaced by [f] of it. *)
Fixpoint updateAt (f : jsval -> jsval) (path : list string) (v : jsval) : jsval :=
  match path with
  | [] => f v
  | k :: rest =>
      match v with
      | JObj ps =>
          JObj (map (fun kv => if String.eqb k (fst kv)
                               then (fst kv, updateAt f rest (snd kv))
                               else kv) ps)
      | _ => v
      end
  end.

(** The member at [path] wrapped in a one-element array. *)
Definition wrapAt (path : list string) (v : jsval) : jsval :=
  updateAt (fun x => JArr [x]) path v.

(** The status codes [extractReportSummary] counts as active and closed. *)
Definition isActiveCode (status : string) : bool :=
  String.eqb status "11" || String.eqb status "53" || String.eqb status "71".
Definition isClosedCode (status : string) : bool :=
  negb (isActiveCode status) && String.eqb status "13".

Definition countIf {A} (p : A -> bool) (l : list A) : nat :=
  List.length (List.filter p l).

(** What [countAccount] reads from one record: status code, current
    balance ([extractNumber(...) || 0]) and portfolio type. *)
Definition readAccount (account : jsval) : result (string * number * string) :=
  status <- extractText (prop account "Account_Status") ;;
  balance <- extractNumber (prop account "Current_Balance") ;;
  portfolioType <- extractText (prop account "Portfolio_Type") ;;
  Ok (status, Num.or_zero balance, portfolioType).

Definition sumZ (l : list Z) : Z := fold_right Z.add 0 l.

(** Binary64 facts: the number of bits of a positive integer, and the
    canonical mantissa and exponent of an integer below [2^53]. *)
Definition bits (p : positive) : Z := Z.log2 (Z.pos p) + 1.

Definition canon (s : bool) (n : positive) : number :=
  S754_finite s (Z.to_pos (Z.pos n * 2 ^ (Num.prec - bits n)))
              (bits n - Num.prec).

Definition signed (s : bool) (n : positive) : Z := cond_Zopp s (Z.pos n).

(** A clock and a host for the examples. *)
Definition sampleWorld : world :=
  {| clock := fun i => Z.of_nat i; reads := 0 |}.
Definition noHostDates : string -> jsdate := fun _ => InvalidDate.

(** The three CAPS counters as [extractEnquiries] reads them; a missing
    block reads as three zeros. *)
Definition capsCounters (reportRoot : jsval)
    : result (number * number * number) :=
  let capsSummary := getopt (prop reportRoot "CAPS") "CAPS_Summary" in
  n90 <- extractNumber (prop capsSummary "CAPSLast90Days") ;;
  n30 <- extractNumber (prop capsSummary "CAPSLast30Days") ;;
  n7 <- extractNumber (prop capsSummary "CAPSLast7Days") ;;
  Ok (Num.or_zero n90, Num.or_zero n30, Num.or_zero n7).

(** The enquiries mapped one to one from a legacy collection. *)
Definition legacyEnquiries (hostDateParse : string -> jsdate)
    (reportRoot : jsval) : result (list Enquiry.t) :=
  let enquiriesData := findValueFromPaths reportRoot enquiriesPaths in
  if truthy enquiriesData
  then mapM (mapLegacyEnquiry hostDateParse) (asArray enquiriesData)
  else Ok [].

(** The document of the enquiry example: counters "2", "1" and "0". *)
Definition capsExample : jsval :=
  JObj [("INProfileResponse",
         JObj [("CAPS",
                JObj [("CAPS_Summary",
                       JObj [("CAPSLast90Days", JStr "2");
                             ("CAPSLast30Days", JStr "1");
                             ("CAPSLast7Days", JStr "0")])])])].

(** The summary enquiry dated [d] with purpose [p]. *)
Definition synthesized (d : jsdate) (p : string) : Enquiry.t :=
  {| Enquiry.institution := "Various Institutions";
     Enquiry.date := Some d;
     Enquiry.amount := Num.zero;
     Enquiry.purpose := p |}.

(** [b] is [a], or [a] is a truthy bare node and [b] is [[a]]. *)
Definition wrapEq (a b : jsval) : Prop :=
  b = a \/ (b = JArr [a] /\ truthy a = true /\ isArray a = false).

(** Two report roots that differ at most by such a wrapping of a
    collection. *)
Definition sameCollections (r r' : jsval) : Prop :=
  nullish r = false /\ nullish r' = false /\
  (forall k, In k ["Current_Application"; "SCORE"; "CAPS"] ->
             prop r' k = prop r k) /\
  (forall p, In p namePaths -> getNestedValue r' p = getNestedValue r p) /\
  getopt (prop r' "CAIS_Account") "CAIS_Summary" =
    getopt (prop r "CAIS_Account") "CAIS_Summary" /\
  wrapEq (getopt (prop r "CAIS_Account") "CAIS_Account_DETAILS")
         (getopt (prop r' "CAIS_Account") "CAIS_Account_DETAILS") /\
  wrapEq (findValueFromPaths r accountsPaths)
         (findValueFromPaths r' accountsPaths) /\
  wrapEq (findValueFromPaths r enquiriesPaths)
         (findValueFromPaths r' enquiriesPaths).

(** A report root whose account-detail field is an empty element. *)
Definition emptyDetailsRoot : jsval :=
  JObj [("CAIS_Account", JObj [("CAIS_Account_DETAILS", JStr "")])].

(** One step of [updateAt] on a property list. *)
Definition replaceAt (h : jsval -> jsval) (f : string) (kv : string * jsval)
    : string * jsval :=
  if String.eqb f (fst kv) then (fst kv, h (snd kv)) else kv.

(** The first segments of the paths the extractors follow from the root,
    other than the collection fields themselves. *)
Definition otherSections : list string :=
  ["Current_Application"; "SCORE"; "CAPS"; "CAIS_Account"; "PersonalInfo";
   "PersonalInformation"; "ApplicantInfo"; "Consumer"; "Header"].

(** What [countAccount] does to the summary with one record's readings. *)
Definition tally (s : ReportSummary.t) (r : string * number * string)
    : ReportSummary.t :=
  let '(status, currentBalance, portfolioType) := r in
  let s :=
    if isActiveCode status
    then ReportSummary.setActiveAccounts
           (Num.incr (ReportSummary.activeAccounts s)) s
    else if String.eqb status "13"
    then ReportSummary.setClosedAccounts
           (Num.incr (ReportSummary.closedAccounts s)) s
    else s in
  let s :=
    ReportSummary.setCurrentBalanceAmount
      (Num.add (ReportSummary.currentBalanceAmount s) currentBalance) s in
  if String.eqb portfolioType "R"
  then ReportSummary.setUnsecuredAmount
         (Num.add (ReportSummary.unsecuredAmount s) currentBalance) s
  else ReportSummary.setSecuredAmount
         (Num.add (ReportSummary.securedAmount s) currentBalance) s.

Definition statusOf (r : string * number * string) : string := fst (fst r).

(** The account-detail records of a report root, and whether its CAIS
    block carries a summary. *)
Definition accountDetailsOf (root : jsval) : jsval :=
  getopt (prop root "CAIS_Account") "CAIS_Account_DETAILS".
Definition caisSummaryOf (root : jsval) : jsval :=
  getopt (prop root "CAIS_Account") "CAIS_Summary".

(** Three records with statuses "11", "11" and "71", and no summary. *)
Definition threeAccounts : jsval :=
  JObj [("CAIS_Account",
         JObj [("CAIS_Account_DETAILS",
                JArr [JObj [("Account_Type", JStr "10");
                            ("Portfolio_Type", JStr "R");
                            ("Account_Status", JStr "11");
                            ("Current_Balance", JStr "10000")];
                      JObj [("Account_Type", JStr "51");
                            ("Portfolio_Type", JStr "I");
                            ("Account_Status", JStr "11");
                            ("Current_Balance", JStr "20000")];
                      JObj [("Account_Type", JStr "10");
                            ("Portfolio_Type", JStr "R");
                            ("Account_Status", JStr "71");
                            ("Current_Balance", JStr "0")]])])].

(** Three records with balances 0.1 (revolving), 0.2 and 0.3. *)
Definition fractionalBalances : jsval :=
  JObj [("CAIS_Account",
         JObj [("CAIS_Account_DETAILS",
                JArr [JObj [("Portfolio_Type", JStr "R");
                            ("Account_Status", JStr "11");
                            ("Current_Balance", JStr "0.1")];
                      JObj [("Portfolio_Type", JStr "I");
                            ("Account_Status", JStr "11");
                            ("Current_Balance", JStr "0.2")];
                      JObj [("Portfolio_Type", JStr "I");
                            ("Account_Status", JStr "11");
                            ("Current_Balance", JStr "0.3")]])])].

(** A record's readings with a whole-number balance. *)
Definition intReading (r : string * Z * string) : string * number * string :=
  (fst (fst r), Num.of_Z (snd (fst r)), snd r).
Definition amountOf (r : string * Z * string) : Z := snd (fst r).
Definition revolvingInt (r : string * Z * string) : bool :=
  String.eqb (snd r) "R".
Definition sumAbs (l : list (string * Z * string)) : Z :=
  sumZ (map (fun r => Z.abs (amountOf r)) l).
Definition sumOf (l : list (string * Z * string)) : Z :=
  sumZ (map amountOf l).

(** A block of applicant details, and of holder details, that carries
    only a date of birth code. *)
Definition applicantBorn (code : string) : jsval :=
  JObj [("Date_Of_Birth_Applicant", JStr code)].
Definition holderBorn (code : string) : jsval :=
  JObj [("Date_of_birth", JStr code)].

(** [t.toString()] can raise only where an own member named [toString]
    hides the inherited method: on such an object, or on an array that
    holds one, since the elements of an array are converted in turn. *)
Fixpoint hidesToString (v : jsval) : bool :=
  match v with
  | JObj ps =>
      match lookup "toString" ps with Some _ => true | None => false end
  | JArr l =>
      (fix any (l : list jsval) : bool :=
         match l with
         | [] => false
         | x :: rest => hidesToString x || any rest
         end) l
  | _ => false
  end.

(** A node whose text can be read: whatever sits under ['#text'], if
    anything does, keeps the inherited [toString]. Every string, number,
    boolean and array, [null], [undefined], and every object whose ['#text']
    member is absent, [null], a string, a number, a boolean, or an array or
    object without a member named [toString]. *)
Definition textNode (v : jsval) : bool :=
  negb (hidesToString (prop v "#text")).

(** The report root of a document by the three strategies in their order:
    the member [INProfileResponse], the six fallback paths, the first
    member that is an object or an array. *)
Definition locatedRoot (doc : jsval) : option jsval :=
  match find truthy
          (prop doc "INProfileResponse" ::
           map (getNestedValue doc)
               ["CreditReport"; "CREDITREPORT"; "ExpCreditReport"; "Report";
                "XMLResponse.CreditReport";
                "XMLResponse.Response.CreditReport"]) with
  | Some root => Some root
  | None =>
      match doc with
      | JObj ps => find isObjectType (values ps)
      | _ => None
      end
  end.

(** A block of elements, as opposed to what stands where a block is
    missing ([undefined]), empty (an empty element is the text [""]) or
    malformed (text, a number, or a repetition of the element). *)
Definition isBlock (v : jsval) : bool :=
  match v with JObj _ => true | _ => false end.

(** The account-detail record the holder details are read from. *)
Definition firstRecord (root : jsval) : jsval :=
  let details := accountDetailsOf root in
  if isArray details then first details else details.

(** The report root offers nothing to a group: each block the group reads
    is missing, empty or malformed, and each collection or legacy value it
    reads is missing or empty. *)
Definition noIdentity (root : jsval) : Prop :=
  let details := getopt (prop root "Current_Application")
                        "Current_Application_Details" in
  isBlock (getopt details "Current_Applicant_Details") = false /\
  isBlock (getopt details "Current_Applicant_Address_Details") = false /\
  isBlock (prop root "SCORE") = false /\
  isBlock (getopt (firstRecord root) "CAIS_Holder_Details") = false /\
  isBlock (getopt (firstRecord root) "CAIS_Holder_Phone_Details") = false /\
  isBlock (getopt (firstRecord root) "CAIS_Holder_Address_Details") = false /\
  truthy (findValueFromPaths root
            ["PersonalInfo.Name"; "PersonalInformation.Name";
             "ApplicantInfo.Name"; "Consumer.Name"; "Header.SubjectName"])
    = false.

Definition noSummary (root : jsval) : Prop :=
  isBlock (prop (caisSummaryOf root) "Credit_Account") = false /\
  isBlock (prop (caisSummaryOf root) "Total_Outstanding_Balance") = false /\
  truthy (accountDetailsOf root) = false /\
  isBlock (getopt (prop root "CAPS") "CAPS_Summary") = false /\
  truthy (findValueFromPaths root
            ["Accounts"; "CreditAccounts"; "AccountInfo"; "TradeLines"])
    = false /\
  truthy (findValueFromPaths root
            ["Enquiries"; "CreditEnquiries"; "InquiryInfo"]) = false.

Definition noAccounts (root : jsval) : Prop :=
  truthy (accountDetailsOf root) = false /\
  truthy (findValueFromPaths root
            ["Accounts"; "CreditAccounts"; "AccountInfo"; "TradeLines"])
    = false.

Definition noEnquiries (root : jsval) : Prop :=
  isBlock (getopt (prop root "CAPS") "CAPS_Summary") = false /\
  truthy (findValueFromPaths root
            ["Enquiries"; "CreditEnquiries"; "InquiryInfo"]) = false.








(** The three counters of the CAIS summary as [extractReportSummary] reads
    them; a missing block reads as three zeros. *)
Definition caisCounters (reportRoot : jsval)
    : result (number * number * number) :=
  let creditAccount := prop (caisSummaryOf reportRoot) "Credit_Account" in
  total <- extractNumber (prop creditAccount "CreditAccountTotal") ;;
  active <- extractNumber (prop creditAccount "CreditAccountActive") ;;
  closed <- extractNumber (prop creditAccount "CreditAccountClosed") ;;
  Ok (Num.or_zero total, Num.or_zero active, Num.or_zero closed).

(** A summary that states a total of 0 beside four active accounts and one
    closed account, over two records with statuses "11" and "13". *)
Definition statedZeroTotal : jsval :=
  JObj [("CAIS_Account",
         JObj [("CAIS_Summary",
                JObj [("Credit_Account",
                       JObj [("CreditAccountTotal", JStr "0");
                             ("CreditAccountActive", JStr "4");
                             ("CreditAccountClosed", JStr "1")])]);
               ("CAIS_Account_DETAILS",
                JArr [JObj [("Account_Status", JStr "11")];
                      JObj [("Account_Status", JStr "13")]])])].

(** A legacy report root with one enquiry, as a bare node. *)
Definition legacyEnquiryRoot : jsval :=
  JObj [("Enquiries",
         JObj [("Institution", JStr "HDFC Bank");
               ("Amount", JStr "50000");
               ("Purpose", JStr "Home loan")])].

(** The balance of a record's readings, whether the record is revolving,
    and a list of numbers added up from 0 in the order of the list. *)
Definition balanceOf (r : string * number * string) : number := snd (fst r).
Definition revolving (r : string * number * string) : bool :=
  String.eqb (snd r) "R".
Definition addAll (l : list number) : number := fold_left Num.add l Num.zero.

(** ** Further notions *)

(** [key] contains [word] when letter case is ignored; [word] is in lower
    case. *)
Definition mentions (key word : string) : bool :=
  Str.includes (Str.toLowerCase key) word.

(** Some key contains "report", "inprofileresponse" or "xmlresponse" in
    any letter case. *)
Definition namesReport (rootKeys : list string) : bool :=
  existsb
    (fun key => mentions key "report" || mentions key "inprofileresponse" ||
                mentions key "xmlresponse")
    rootKeys.

(** ** xmlParserService.js: reading a file *)

(** An error object as the server inspects it: the [name] and [message]
    every error has, the own properties [code] and [statusCode] where one
    was assigned, and, on a Mongoose validation error, the messages of the
    members of [errors]. *)
Module JsError.
Inductive errorCode : Type :=
| NoCode
| NumCode (n : Z)
| StrCode (s : string).
Record t : Type := mk {
  name : string;
  message : string;
  code : errorCode;
  statusCode : option Z;
  errors : option (list string)
}.
End JsError.

(** How a promise settles. *)
Inductive settled (A : Type) : Type :=
| Resolved (a : A)
| Rejected (error : JsError.t).
Arguments Resolved {A} a.
Arguments Rejected {A} error.

(** [new Error(message)] with [name] set to ['XMLParsingError']. *)
Definition xmlParsingError (message : string) : JsError.t :=
  JsError.mk "XMLParsingError" message JsError.NoCode None None.

Section Parser.

(** [fs.readFile(filePath, 'utf8')] and [parser.parse(xmlContent)]: the
    file system and the XML library, each of which can fail with an error of
    its own. *)
Variable readFile : string -> settled string.
Variable parse : string -> settled jsval.

(** The body of the [try] block of [parseXmlFile]. *)
Definition parseXmlBody (filePath : string) : settled jsval :=
  match readFile filePath with
  | Rejected error => Rejected error
  | Resolved xmlContent =>
      if Str.isEmpty xmlContent ||
         (String.length (Str.trim xmlContent) =? 0)%nat
      then Rejected (xmlParsingError "XML file is empty")
      else
        match parse xmlContent with
        | Rejected error => Rejected error
        | Resolved parsedData =>
            if negb (truthy parsedData)
            then Rejected (xmlParsingError "Failed to parse XML content")
            else Resolved parsedData
        end
  end.

(** [parseXmlFile]: the [catch] block passes an [XMLParsingError] on and
    wraps every other error in one. *)
Definition parseXmlFile (filePath : string) : settled jsval :=
  match parseXmlBody filePath with
  | Resolved parsedData => Resolved parsedData
  | Rejected error =>
      if String.eqb (JsError.name error) "XMLParsingError"
      then Rejected error
      else Rejected (xmlParsingError
                       ("XML parsing failed: " ++ JsError.message error))
  end.

End Parser.

(** A file system with one blank file and a parser that accepts
    everything, for the examples. *)
Definition blankFile : string -> settled string :=
  fun _ => Resolved (String (ascii_of_nat 32) (String (ascii_of_nat 10) "")).
Definition anyParser : string -> settled jsval :=
  fun _ => Resolved (JObj []).
Definition missingFile : string -> settled string :=
  fun _ => Rejected (JsError.mk "Error" "ENOENT: no such file or directory"
                       (JsError.StrCode "ENOENT") None None).

(** ** middlewares/errorHandler.js *)

(** What [errorHandler] answers: the HTTP status and the [message] of the
    JSON body (whose [success] is always [false]; the stack trace added in
    development mode is left out). *)
Module Response.
Record t : Type := mk { status : Z; message : string }.
End Response.

Definition codeIs (err : JsError.t) (s : string) : bool :=
  match JsError.code err with
  | JsError.StrCode c => String.eqb c s
  | _ => false
  end.

(** [errorHandler]: [error] starts as a copy of the own properties of
    [err] with its message, of which only [statusCode] and [message] are
    read in the end; the tests replace it one after the other. *)
Definition errorHandler (err : JsError.t) : result Response.t :=
  let error := (JsError.statusCode err, JsError.message err) in
  let error :=
    if String.eqb (JsError.name err) "CastError"
    then (Some 404, "Resource not found") else error in
  let error :=
    match JsError.code err with
    | JsError.NumCode n =>
        if n =? 11000 then (Some 400, "Duplicate field value entered")
        else error
    | _ => error
    end in
  error <-
    (if String.eqb (JsError.name err) "ValidationError" then
       match JsError.errors err with
       | Some messages => Ok (Some 400, Str.join ", " messages)
       | None =>
           Throw (TypeError "Cannot convert undefined or null to object")
       end
     else Ok error) ;;
  let error :=
    if String.eqb (JsError.name err) "XMLParsingError"
    then (Some 422, JsError.message err) else error in
  let error :=
    if negb (Str.isEmpty (JsError.message err)) &&
       Str.includes (JsError.message err) "Cloudinary"
    then (Some 500, "File storage error") else error in
  let error :=
    if codeIs err "INVALID_FILE_TYPE" || codeIs err "INVALID_MIME_TYPE"
    then (Some 422, JsError.message err) else error in
  Ok {| Response.status :=
          match fst error with
          | Some statusCode => if statusCode =? 0 then 500 else statusCode
          | None => 500
          end;
        Response.message := orS (snd error) "Server Error" |}.

(** The error object that reaches [errorHandler] when the transformation
    raises: an [Error] or a [TypeError] with nothing but its message. *)
Definition thrown (e : exn) : JsError.t :=
  JsError.mk (match e with TypeError _ => "TypeError" | Error _ => "Error" end)
             (message e) JsError.NoCode None None.

(** What [extractBasicDetails] holds after the block that reads
    [Current_Application], before it turns to the score and to the CAIS
    holder details. *)
Definition applicationDetails (hostDateParse : string -> jsdate)
    (reportRoot : jsval) : result BasicDetails.t :=
  if truthy (prop reportRoot "Current_Application")
  then fromCurrentApplication hostDateParse
         (prop reportRoot "Current_Application") BasicDetails.empty
  else Ok BasicDetails.empty.

(** The values [gender] and [creditScore] can take. *)
Definition genderRange (g : option string) : Prop :=
  g = None \/ g = Some "Male" \/ g = Some "Female".
Definition scoreRange (c : option (option number)) : Prop :=
  match c with
  | Some (Some score) => Num.gtb score Num.zero = true
  | _ => True
  end.

(** How the later blocks of [extractBasicDetails] can change the details:
    a field that holds something is left alone, [gender] is set to one of
    its two names and [creditScore] within its range. *)
Definition follows (bd bd' : BasicDetails.t) : Prop :=
  (truthy (BasicDetails.name bd) = true ->
   BasicDetails.name bd' = BasicDetails.name bd) /\
  (falsyS (BasicDetails.pan bd) = false ->
   BasicDetails.pan bd' = BasicDetails.pan bd) /\
  (falsyS (BasicDetails.mobilePhone bd) = false ->
   BasicDetails.mobilePhone bd' = BasicDetails.mobilePhone bd) /\
  (falsyS (BasicDetails.address bd) = false ->
   BasicDetails.address bd' = BasicDetails.address bd) /\
  (BasicDetails.dateOfBirth bd <> None ->
   BasicDetails.dateOfBirth bd' = BasicDetails.dateOfBirth bd) /\
  BasicDetails.email bd' = BasicDetails.email bd /\
  (BasicDetails.gender bd' = BasicDetails.gender bd \/
   BasicDetails.gender bd' = Some "Male" \/
   BasicDetails.gender bd' = Some "Female") /\
  (BasicDetails.creditScore bd' = BasicDetails.creditScore bd \/
   scoreRange (BasicDetails.creditScore bd')).

(** A root with an applicant's name and a holder's name. *)
Definition twoNames : jsval :=
  JObj [("Current_Application",
         JObj [("Current_Application_Details",
                JObj [("Current_Applicant_Details",
                       JObj [("First_Name", JStr "Asha");
                             ("Last_Name", JStr "Rao")])])]);
        ("SCORE", JObj [("BureauScore", JStr "742")]);
        ("CAIS_Account",
         JObj [("CAIS_Account_DETAILS",
                JObj [("CAIS_Holder_Details",
                       JObj [("First_Name_Non_Normalized", JStr "A");
                             ("Surname_Non_Normalized", JStr "R");
                             ("Gender_Code", JStr "2")])])])].

(** What [countLegacyAccount] reads from one record of a legacy
    collection: status text, balance and type text. *)
Definition readLegacyAccount (account : jsval)
    : result (string * number * string) :=
  status <- extractText (nested2 account "Status" "AccountStatus") ;;
  balance <- extractNumber (nested2 account "CurrentBalance" "Balance") ;;
  accountType <- extractText (nested2 account "Type" "AccountType") ;;
  Ok (status, balance, accountType).

(** The status texts the legacy count takes for active and for closed. *)
Definition saysActive (status : string) : bool :=
  negb (Str.isEmpty status) &&
  (Str.includes (Str.toLowerCase status) "active" ||
   Str.includes (Str.toLowerCase status) "current").
Definition saysClosed (status : string) : bool :=
  negb (saysActive status) && negb (Str.isEmpty status) &&
  Str.includes (Str.toLowerCase status) "closed".

(** What [countLegacyAccount] does to the summary with one record's
    readings. *)
Definition legacyTally (s : ReportSummary.t) (r : string * number * string)
    : ReportSummary.t :=
  let '(status, balance, accountType) := r in
  let s :=
    if saysActive status
    then ReportSummary.setActiveAccounts
           (Num.incr (ReportSummary.activeAccounts s)) s
    else if saysClosed status
    then ReportSummary.setClosedAccounts
           (Num.incr (ReportSummary.closedAccounts s)) s
    else s in
  let s :=
    ReportSummary.setCurrentBalanceAmount
      (Num.add (ReportSummary.currentBalanceAmount s) balance) s in
  if negb (Str.isEmpty accountType) &&
     Str.includes (Str.toLowerCase accountType) "secured"
  then ReportSummary.setSecuredAmount
         (Num.add (ReportSummary.securedAmount s) balance) s
  else ReportSummary.setUnsecuredAmount
         (Num.add (ReportSummary.unsecuredAmount s) balance) s.

(** The legacy account and enquiry collections of a report root. *)
Definition legacyAccountsOf (root : jsval) : jsval :=
  findValueFromPaths root accountsPaths.
Definition legacyEnquiriesOf (root : jsval) : jsval :=
  findValueFromPaths root enquiriesPaths.

(** A legacy report with three accounts and two enquiries. *)
Definition legacyReport : jsval :=
  JObj [("Accounts",
         JArr [JObj [("Status", JStr "Active"); ("Balance", JStr "100");
                     ("Type", JStr "Secured")];
               JObj [("Status", JStr "Inactive"); ("Balance", JStr "50");
                     ("Type", JStr "Unsecured")];
               JObj [("Status", JStr "Closed"); ("Balance", JStr "0")]]);
        ("Enquiries",
         JArr [JObj [("Institution", JStr "First Bank");
                     ("Date", JStr "2024-01-15"); ("Amount", JStr "5000")];
               JObj [("BankName", JStr "Second Bank")]])].

(** A primary report whose CAIS summary counts five accounts while two
    records are listed. *)
Definition countedReport : jsval :=
  JObj [("CAIS_Account",
         JObj [("CAIS_Summary",
                JObj [("Credit_Account",
                       JObj [("CreditAccountTotal", JStr "5");
                             ("CreditAccountActive", JStr "4");
                             ("CreditAccountClosed", JStr "1")])]);
               ("CAIS_Account_DETAILS",
                JArr [JObj [("Account_Status", JStr "11");
                            ("Current_Balance", JStr "700")];
                      JObj [("Account_Status", JStr "13")]])])].

(** The numbers of an account are numbers: none is [NaN]. *)
Definition amountsAreNumbers (a : CreditAccount.t) : bool :=
  negb (Num.isNaN (CreditAccount.amountOverdue a)) &&
  negb (Num.isNaN (CreditAccount.currentBalance a)) &&
  negb (Num.isNaN (CreditAccount.sanctionedAmount a)).

(** The decimal digit [k], numerals of two and of four digits, the
    [YYYYMMDD] code of a day and its [YYYY-MM-DD] text. *)
Definition digitOf (k : Z) : ascii := ascii_of_N (Z.to_N (48 + k)).
Definition twoDigits (n : Z) : string :=
  String (digitOf (n / 10 mod 10)) (String (digitOf (n mod 10)) "").
Definition fourDigits (n : Z) : string :=
  String (digitOf (n / 1000 mod 10))
         (String (digitOf (n / 100 mod 10)) (twoDigits n)).
Definition dateCode (y m d : Z) : string :=
  fourDigits y ++ twoDigits m ++ twoDigits d.
Definition isoDate (y m d : Z) : string :=
  fourDigits y ++ "-" ++ twoDigits m ++ "-" ++ twoDigits d.

(** The day number (days since the epoch) of the day [d] of month [m] of
    year [y], as [DateTime.utc] counts it, and [DateTime.civil] on a day
    number. *)
Definition dayNumber (y m d : Z) : Z :=
  DateTime.dayFromYear y + DateTime.daysBefore y (Z.to_nat (m - 1)) + (d - 1).
Definition civilOfDay (day : Z) : Z * Z * Z :=
  let z := day + 719468 in
  let era := z / 146097 in
  let doe := z - era * 146097 in
  let yoe := (doe - doe / 1460 + doe / 36524 - doe / 146096) / 365 in
  let doy := doe - (365 * yoe + yoe / 4 - yoe / 100) in
  let mp := (5 * doy + 2) / 153 in
  let d := doy - (153 * mp + 2) / 5 + 1 in
  let m := if mp <? 10 then mp + 3 else mp - 9 in
  let y := yoe + era * 400 + (if m <=? 2 then 1 else 0) in
  (y, m - 1, d).

(** The same day counted from 1 March of year 0 in years that begin in
    March: [y] is the year in which the March-based year begins, [mp] the
    month counted from March, [dd] the day counted from 0. *)
Definition marchDay (y mp dd : Z) : Z :=
  146097 * (y / 400) +
  (365 * (y mod 400) + (y mod 400) / 4 - (y mod 400) / 100) +
  ((153 * mp + 2) / 5 + dd) - 719468.

(** The type texts the legacy summary files under secured. *)
Definition saysSecured (accountType : string) : bool :=
  negb (Str.isEmpty accountType) &&
  Str.includes (Str.toLowerCase accountType) "secured".
Definition securedInt (r : string * Z * string) : bool := saysSecured (snd r).

(** ** models/CreditReport.js *)

(** The [enum] of [type] in [CreditAccountSchema]. *)
Definition accountTypeEnum : list string :=
  ["Secured"; "Unsecured"; "Credit Card"; "Credit Card (Revolving)";
   "Personal Loan"; "Personal Loan (Installment)"; "Home Loan"; "Auto Loan";
   "Business Loan"; "Gold Loan"; "Loan Against Property"; "Two Wheeler Loan";
   "Other Loan"; "Loan"; "Other"].

(** The [enum] of [status] in [CreditAccountSchema]. *)
Definition accountStatusEnum : list string :=
  ["Active"; "Active - Regular"; "Active - Irregular"; "Closed";
   "Closed - Regular"; "Closed - Irregular"; "Settled"; "Written Off";
   "Restructured"; "Wilful Default"; "Sub-standard"; "Doubtful"; "Loss"].

(** * Properties *)

(** ** Integers are exact in binary64 *)

Section Binary64.

Import Num.

Lemma digits2_bits p : Z.pos (digits2_pos p) = bits p.
Proof.
  unfold bits. induction p; cbn [digits2_pos].
  - rewrite Pos2Z.inj_succ, IHp. unfold bits.
    change (Z.pos p~1) with (2 * Z.pos p + 1).
    rewrite Z.log2_succ_double by lia. lia.
  - rewrite Pos2Z.inj_succ, IHp.
    change (Z.pos p~0) with (2 * Z.pos p).
    rewrite Z.log2_double by lia. lia.
  - reflexivity.
Qed.

Lemma bits_shift n k m :
  0 <= k -> Z.pos m = Z.pos n * 2 ^ k -> bits m = bits n + k.
Proof.
  intros Hk Hm. unfold bits. rewrite Hm, Z.log2_mul_pow2 by lia. lia.
Qed.

Lemma bits_pos n : 1 <= bits n.
Proof. unfold bits. pose proof (Z.log2_nonneg (Z.pos n)). lia. Qed.

Lemma bits_le n : Z.pos n < 2 ^ prec -> bits n <= prec.
Proof.
  intros H. unfold bits.
  assert (Z.log2 (Z.pos n) < prec); [|lia].
  apply Z.log2_lt_pow2; [lia|exact H].
Qed.

Lemma iter_pos_nat {A} (f : A -> A) p x :
  iter_pos f p x = Nat.iter (Pos.to_nat p) f x.
Proof.
  revert x. induction p; intros x; cbn [iter_pos].
  - rewrite !IHp, Pos2Nat.inj_xI.
    replace (S (2 * Pos.to_nat p))
      with (Pos.to_nat p + (Pos.to_nat p + 1))%nat by lia.
    rewrite !Nat.iter_add. reflexivity.
  - rewrite !IHp, Pos2Nat.inj_xO.
    replace (2 * Pos.to_nat p)%nat
      with (Pos.to_nat p + Pos.to_nat p)%nat by lia.
    rewrite Nat.iter_add. reflexivity.
  - reflexivity.
Qed.

(** Shifting out zero bits loses nothing. *)
Lemma shr_nat j : forall m m',
  Z.pos m = Z.pos m' * 2 ^ Z.of_nat j ->
  Nat.iter j shr_1 (Build_shr_record (Z.pos m) false false) =
  Build_shr_record (Z.pos m') false false.
Proof.
  induction j; intros m m' H.
  - simpl in *. f_equal. lia.
  - rewrite Nat.iter_succ_r.
    rewrite Nat2Z.inj_succ, Z.pow_succ_r in H by lia.
    destruct m as [q|q|]; try lia.
    cbn [shr_1 orb]. apply IHj. lia.
Qed.

Lemma iter_xO (d : positive) m :
  Z.pos (Pos.iter xO m d) = Z.pos m * 2 ^ Z.pos d.
Proof.
  rewrite Pos2Nat.inj_iter, <- (positive_nat_Z d).
  induction (Pos.to_nat d); cbn [nat_rect].
  - simpl. lia.
  - rewrite Nat2Z.inj_succ, Z.pow_succ_r by lia.
    rewrite Pos2Z.inj_xO, IHn. lia.
Qed.

Lemma round_aux_canonical s m e :
  bits m = prec -> -1074 <= e <= 971 ->
  binary_round_aux prec emax s (Z.pos m) e loc_Exact = S754_finite s m e.
Proof.
  intros Hb He. unfold binary_round_aux, shr_fexp, fexp, emin.
  cbn [Zdigits2]. rewrite digits2_bits, Hb.
  unfold prec, emax in *.
  replace (Z.max (53 + e - 53) (3 - 1024 - 53) - e) with 0 by lia.
  cbn [shr shr_record_of_loc shr_m loc_of_shr_record round_nearest_even
       Zdigits2].
  rewrite digits2_bits, Hb.
  replace (Z.max (53 + e - 53) (3 - 1024 - 53) - e) with 0 by lia.
  cbn [shr shr_m]. change (1024 - 53) with 971.
  destruct (Z.leb_spec e 971); [reflexivity|lia].
Qed.

Lemma round_aux_shift s m m' e c :
  Z.pos m = Z.pos m' * 2 ^ Z.pos c -> bits m' = prec ->
  -1074 <= e + Z.pos c <= 971 ->
  binary_round_aux prec emax s (Z.pos m) e loc_Exact =
  S754_finite s m' (e + Z.pos c).
Proof.
  intros Hm Hb He.
  pose proof (bits_shift m' (Z.pos c) m ltac:(lia) Hm) as Hbm.
  unfold binary_round_aux, shr_fexp, fexp, emin.
  cbn [Zdigits2]. rewrite digits2_bits, Hbm, Hb.
  unfold prec, emax in *.
  replace (Z.max (53 + Z.pos c + e - 53) (3 - 1024 - 53) - e)
    with (Z.pos c) by lia.
  cbn [shr shr_record_of_loc]. rewrite iter_pos_nat.
  rewrite (shr_nat _ m m') by (rewrite positive_nat_Z; exact Hm).
  cbn [shr_m loc_of_shr_record round_nearest_even Zdigits2].
  rewrite digits2_bits, Hb.
  replace (Z.max (53 + (e + Z.pos c) - 53) (3 - 1024 - 53) - (e + Z.pos c))
    with 0 by lia.
  cbn [shr shr_m]. change (1024 - 53) with 971.
  destruct (Z.leb_spec (e + Z.pos c) 971); [reflexivity|lia].
Qed.

(** Rounding [n * 2^k / 2^k] for [n < 2^53] returns [n], canonically. *)
Lemma binary_round_exact s m n k :
  0 <= k -> Z.pos m = Z.pos n * 2 ^ k -> Z.pos n < 2 ^ prec ->
  binary_round prec emax s m (- k) = canon s n.
Proof.
  intros Hk Hm Hn.
  pose proof (bits_shift n k m Hk Hm) as Hbm.
  pose proof (bits_pos n) as Hb1. pose proof (bits_le n Hn) as Hb2.
  assert (Hpos : 0 < Z.pos n * 2 ^ (prec - bits n))
    by (apply Z.mul_pos_pos; [lia|apply Z.pow_pos_nonneg; lia]).
  unfold binary_round, shl_align, fexp, emin. rewrite digits2_bits, Hbm.
  unfold canon. unfold prec, emax in *.
  replace (Z.max (bits n + k + - k - 53) (3 - 1024 - 53))
    with (bits n - 53) by lia.
  destruct (bits n - 53 - - k) as [|c|c] eqn:Ec.
  - assert (k = 53 - bits n) by lia. subst k.
    rewrite <- Hm. cbn [Z.to_pos].
    replace (- (53 - bits n)) with (bits n - 53) by lia.
    apply round_aux_canonical; unfold prec; [|lia].
    rewrite Hbm. lia.
  - replace (bits n - 53) with (- k + Z.pos c) by lia.
    apply round_aux_shift; unfold prec; try lia.
    + rewrite Z2Pos.id by exact Hpos.
      rewrite Hm, <- Z.mul_assoc, <- Z.pow_add_r by lia.
      f_equal. f_equal. lia.
    + rewrite (bits_shift n (53 - bits n)); lia.
  - assert (Hz : Z.pos (Pos.iter xO m c) = Z.pos n * 2 ^ (53 - bits n)).
    { rewrite iter_xO, Hm, <- Z.mul_assoc, <- Z.pow_add_r by lia.
      f_equal. f_equal. lia. }
    rewrite <- Hz. cbn [Z.to_pos].
    apply round_aux_canonical; unfold prec; [|lia].
    rewrite (bits_shift n (53 - bits n)); lia.
Qed.

Lemma of_Z_pos n : Z.pos n < 2 ^ prec -> of_Z (Z.pos n) = canon false n.
Proof.
  intros H. unfold of_Z. cbn [binary_normalize].
  apply (binary_round_exact false n n 0); [lia| |exact H].
  rewrite Z.pow_0_r. lia.
Qed.

Lemma of_Z_neg n : Z.pos n < 2 ^ prec -> of_Z (Z.neg n) = canon true n.
Proof.
  intros H. unfold of_Z. cbn [binary_normalize].
  apply (binary_round_exact true n n 0); [lia| |exact H].
  rewrite Z.pow_0_r. lia.
Qed.

Lemma normalize_exact M k z :
  0 <= k -> M = z * 2 ^ k -> Z.abs z < 2 ^ prec ->
  binary_normalize prec emax M (- k) false = of_Z z.
Proof.
  intros Hk HM Hz.
  assert (H2 : 0 < 2 ^ k) by (apply Z.pow_pos_nonneg; lia).
  destruct z as [|n|n].
  - subst M. reflexivity.
  - change (Z.pos n < 2 ^ prec) in Hz.
    destruct M as [|m|m]; try nia.
    rewrite of_Z_pos by exact Hz.
    cbn [binary_normalize].
    apply binary_round_exact; [lia|exact HM|exact Hz].
  - change (Z.pos n < 2 ^ prec) in Hz.
    destruct M as [|m|m]; try nia.
    rewrite of_Z_neg by exact Hz.
    cbn [binary_normalize]. apply binary_round_exact; [lia| |exact Hz].
    rewrite <- !Pos2Z.opp_pos, Z.mul_opp_l in HM. lia.
Qed.

Lemma shl_align_fst mx ex ez :
  ez <= ex -> Z.pos (fst (shl_align mx ex ez)) = Z.pos mx * 2 ^ (ex - ez).
Proof.
  intros H. unfold shl_align.
  destruct (ez - ex) as [|d|d] eqn:E; cbn [fst].
  - replace (ex - ez) with 0 by lia. rewrite Z.pow_0_r. lia.
  - lia.
  - rewrite iter_xO. f_equal. f_equal. lia.
Qed.

Lemma add_canon sa a sb b :
  Z.pos a < 2 ^ prec -> Z.pos b < 2 ^ prec ->
  Z.abs (signed sa a + signed sb b) < 2 ^ prec ->
  add (canon sa a) (canon sb b) = of_Z (signed sa a + signed sb b).
Proof.
  intros Ha Hb Hab.
  pose proof (bits_pos a). pose proof (bits_le a Ha).
  pose proof (bits_pos b). pose proof (bits_le b Hb).
  unfold add, canon. cbn [SFadd].
  set (ez := Z.min (bits a - prec) (bits b - prec)).
  rewrite <- (Z.opp_involutive ez).
  assert (Hpa : 0 < Z.pos a * 2 ^ (prec - bits a))
    by (apply Z.mul_pos_pos; [lia|apply Z.pow_pos_nonneg; lia]).
  assert (Hpb : 0 < Z.pos b * 2 ^ (prec - bits b))
    by (apply Z.mul_pos_pos; [lia|apply Z.pow_pos_nonneg; lia]).
  apply normalize_exact; [unfold ez, prec in *; lia| |exact Hab].
  rewrite Z.opp_involutive.
  rewrite !shl_align_fst by (unfold ez; lia).
  rewrite !Z2Pos.id by assumption.
  rewrite <- !Z.mul_assoc, <- !Z.pow_add_r by (unfold ez, prec in *; lia).
  replace (prec - bits a + (bits a - prec - ez)) with (- ez) by lia.
  replace (prec - bits b + (bits b - prec - ez)) with (- ez) by lia.
  unfold signed. destruct sa, sb; cbn [cond_Zopp]; lia.
Qed.

Lemma of_Z_canon z :
  Z.abs z < 2 ^ prec -> z <> 0 ->
  exists s n, of_Z z = canon s n /\ signed s n = z /\ Z.pos n < 2 ^ prec.
Proof.
  intros Hz Hnz. destruct z as [|n|n]; [congruence| |].
  - change (Z.pos n < 2 ^ prec) in Hz.
    exists false, n. rewrite of_Z_pos by exact Hz. repeat split. exact Hz.
  - change (Z.pos n < 2 ^ prec) in Hz.
    exists true, n. rewrite of_Z_neg by exact Hz. repeat split. exact Hz.
Qed.

(** Adding two integers whose sum stays below [2^53] is exact. *)
Lemma add_of_Z a b :
  Z.abs a < 2 ^ prec -> Z.abs b < 2 ^ prec -> Z.abs (a + b) < 2 ^ prec ->
  add (of_Z a) (of_Z b) = of_Z (a + b).
Proof.
  intros Ha Hb Hab.
  destruct (Z.eq_dec a 0) as [->|Na].
  - destruct (Z.eq_dec b 0) as [->|Nb]; [reflexivity|].
    destruct (of_Z_canon b Hb Nb) as (s & n & E & V & _).
    cbn [Z.add]. rewrite E. reflexivity.
  - destruct (of_Z_canon a Ha Na) as (sa & na & Ea & Va & Ba).
    destruct (Z.eq_dec b 0) as [->|Nb].
    + rewrite Z.add_0_r, Ea. reflexivity.
    + destruct (of_Z_canon b Hb Nb) as (sb & nb & Eb & Vb & Bb).
      rewrite Ea, Eb, <- Va, <- Vb. apply add_canon; try assumption.
      rewrite Va, Vb. exact Hab.
Qed.

Lemma incr_of_Z k :
  0 <= k < 2 ^ prec - 1 -> incr (of_Z k) = of_Z (k + 1).
Proof.
  intros Hk. unfold incr, one. apply add_of_Z; unfold prec in *; lia.
Qed.

Lemma eqb_of_Z z : Z.abs z < 2 ^ prec -> eqb (of_Z z) (of_Z z) = true.
Proof.
  intros Hz. destruct (Z.eq_dec z 0) as [->|Nz]; [reflexivity|].
  destruct (of_Z_canon z Hz Nz) as (s & n & E & _ & _).
  rewrite E. unfold eqb, SFeqb, canon. cbn [SFcompare].
  rewrite Z.compare_refl, Pos.compare_cont_refl.
  destruct s; reflexivity.
Qed.

Lemma eqb_of_Z_zero z :
  Z.abs z < 2 ^ prec -> z <> 0 -> eqb (of_Z z) zero = false.
Proof.
  intros Hz Nz. destruct (of_Z_canon z Hz Nz) as (s & n & E & _ & _).
  rewrite E. unfold eqb, SFeqb, canon, zero. cbn [SFcompare].
  destruct s; reflexivity.
Qed.

End Binary64.

(** ** Decimal numerals *)

Lemma append_assoc' (a b c : string) : (a ++ b) ++ c = a ++ b ++ c.
Proof. induction a as [|x a IH]; cbn [append]; [reflexivity|]. now rewrite IH. Qed.

Lemma append_empty_r (a : string) : a ++ "" = a.
Proof. induction a as [|x a IH]; cbn [append]; [reflexivity|]. now rewrite IH. Qed.

Lemma uint_digits d :
  DateTime.allDigits (NilEmpty.string_of_uint d) = true.
Proof. induction d; [reflexivity|exact IHd..]. Qed.

Lemma of_N_digits n : DateTime.allDigits (Str.of_N n) = true.
Proof.
  unfold Str.of_N, NilZero.string_of_uint.
  destruct (N.to_uint n); try reflexivity; apply (uint_digits (_ _)).
Qed.

Lemma digits_acc d : forall acc,
  Z.pos (Pos.of_uint_acc d acc) =
  Str.digits_value (Z.pos acc) (NilEmpty.string_of_uint d).
Proof.
  induction d; intros acc;
    cbn [Pos.of_uint_acc NilEmpty.string_of_uint Str.digits_value];
    [reflexivity|rewrite IHd; f_equal;
     match goal with
     | |- _ = 10 * _ + Str.digit_val ?c =>
         change (Str.digit_val c) with
           (ltac:(let v := eval vm_compute in (Str.digit_val c) in exact v))
     end; lia..].
Qed.

Lemma digits_of_uint d :
  Z.of_N (Pos.of_uint d) = Str.digits_value 0 (NilEmpty.string_of_uint d).
Proof.
  induction d; cbn [Pos.of_uint NilEmpty.string_of_uint Str.digits_value];
    [reflexivity|exact IHd|cbn [Z.of_N]; rewrite digits_acc; reflexivity..].
Qed.

Lemma digits_of_N n : Str.digits_value 0 (Str.of_N n) = Z.of_N n.
Proof.
  unfold Str.of_N, NilZero.string_of_uint.
  rewrite <- (DecimalN.Unsigned.of_to n) at 2. unfold N.of_uint.
  destruct (N.to_uint n); try reflexivity;
    symmetry; apply (digits_of_uint (_ _)).
Qed.

Lemma allDigits_cons c s :
  DateTime.allDigits (String c s) = true ->
  Str.is_digit c = true /\ DateTime.allDigits s = true.
Proof.
  unfold DateTime.allDigits. cbn [Str.filter].
  destruct (Str.is_digit c); cbn [negb]; [tauto|discriminate].
Qed.

(** ** Number::toString on whole numbers *)

Lemma order_up_spec N q : 0 < q -> forall fuel s,
  10 ^ (s - 1) <= N -> 1 <= s -> N < 10 ^ (s + Z.of_nat fuel - 1) ->
  (0 < fuel)%nat ->
  let r := Num.order_up fuel (N * q) q s in
  s <= r /\ 10 ^ (r - 1) <= N < 10 ^ r.
Proof.
  intros Hq. induction fuel as [|f IH]; intros s L Hs U F; [lia|].
  cbn [Num.order_up].
  destruct (Z.ltb_spec (N * q) (q * 10 ^ s)) as [H|H].
  - cbv zeta. split; [lia|]. split; [exact L|]. nia.
  - assert (L' : 10 ^ (s + 1 - 1) <= N).
    { replace (s + 1 - 1) with s by lia. nia. }
    destruct f as [|f'].
    + exfalso. replace (s + Z.of_nat 1 - 1) with s in U by lia. nia.
    + destruct (IH (s + 1) L' ltac:(lia)) as (A & B); [|lia|].
      * replace (s + 1 + Z.of_nat (Datatypes.S f') - 1)
          with (s + Z.of_nat (Datatypes.S (Datatypes.S f')) - 1) by lia.
        exact U.
      * cbv zeta. split; [lia|exact B].
Qed.

Lemma decimal_order_spec N q :
  0 < q -> 1 <= N < 10 ^ 15 ->
  let n0 := Num.decimal_order (N * q) q in
  1 <= n0 <= 15 /\ 10 ^ (n0 - 1) <= N < 10 ^ n0.
Proof.
  intros Hq [L U]. unfold Num.decimal_order.
  destruct (Z.leb_spec q (N * q)) as [H|H]; [|nia].
  destruct (order_up_spec N q Hq 400 1) as (A & B & C);
    [cbn; lia|lia|cbn -[Z.pow]; change (1 + 400 - 1) with 400;
     apply Z.lt_le_trans with (10 ^ 15); [exact U|];
     apply Z.pow_le_mono_r; lia|lia|].
  cbv zeta. split; [|split; assumption].
  split; [exact A|].
  destruct (Z.le_gt_cases (Num.decimal_order (N * q) q) 15) as [X|X].
  - unfold Num.decimal_order in X.
    destruct (q <=? N * q) eqn:E; [exact X|].
    apply Z.leb_gt in E. lia.
  - exfalso. unfold Num.decimal_order in X.
    destruct (q <=? N * q) eqn:E; [|apply Z.leb_gt in E; lia].
    assert (10 ^ 15 <= 10 ^ (Num.order_up 400 (N * q) q 1 - 1))
      by (apply Z.pow_le_mono_r; lia).
    lia.
Qed.

Lemma canon_same a b :
  Z.pos a < 2 ^ Num.prec -> Z.pos b < 2 ^ Num.prec ->
  match canon false a, canon false b with
  | S754_finite _ m e, S754_finite _ m' e' => Pos.eqb m m' && (e =? e')
  | _, _ => false
  end = true ->
  a = b.
Proof.
  intros Ha Hb. unfold canon. intros H.
  apply andb_true_iff in H as [Hm He].
  apply Pos.eqb_eq in Hm. apply Z.eqb_eq in He.
  pose proof (bits_pos a). pose proof (bits_le a Ha).
  pose proof (bits_pos b). pose proof (bits_le b Hb).
  assert (Eb : bits a = bits b) by lia. rewrite Eb in Hm.
  assert (P : 0 < 2 ^ (Num.prec - bits b)) by (apply Z.pow_pos_nonneg; lia).
  apply Z2Pos.inj in Hm; [|nia|nia].
  assert (Z.pos a = Z.pos b) by nia. congruence.
Qed.

(** Whether the decimal [s * 10^t] reads back as the whole number [n]. *)
Lemma reads_back n s t :
  Z.pos n < 2 ^ Num.prec -> 0 <= t -> 0 <= s -> s * 10 ^ t < 2 ^ Num.prec ->
  match canon false n, Num.of_decimal false s t with
  | S754_finite _ m e, S754_finite _ m' e' => Pos.eqb m m' && (e =? e')
  | _, _ => false
  end = true <-> s * 10 ^ t = Z.pos n.
Proof.
  intros Hn Ht Hs Hv. unfold Num.of_decimal.
  destruct (Z.eqb_spec s 0) as [->|Ns].
  { cbn [Z.mul]. split; [discriminate|lia]. }
  destruct (Z.leb_spec 0 t) as [_|]; [|lia].
  change (binary_normalize Num.prec Num.emax
            ((if false then -1 else 1) * (s * 10 ^ t)) 0 false)
    with (Num.of_Z (1 * (s * 10 ^ t))).
  rewrite Z.mul_1_l.
  assert (P : 0 < s * 10 ^ t)
    by (apply Z.mul_pos_pos; [lia|apply Z.pow_pos_nonneg; lia]).
  destruct (s * 10 ^ t) as [|v|v] eqn:V; try lia.
  change (binary_normalize Num.prec Num.emax (Z.pos v) 0 false)
    with (Num.of_Z (Z.pos v)).
  rewrite of_Z_pos by exact Hv. split.
  - intros H. f_equal. symmetry. apply canon_same; assumption.
  - intros E. injection E as ->. unfold canon.
    rewrite Pos.eqb_refl, Z.eqb_refl. reflexivity.
Qed.

Lemma candidates_spec n q n0 k :
  Z.pos n < 10 ^ 15 -> 0 < q ->
  10 ^ (n0 - 1) <= Z.pos n < 10 ^ n0 -> 1 <= k <= n0 ->
  match Num.candidates (canon false n) (Z.pos n * q) q n0 k with
  | Some (s, t) => s * 10 ^ t = Z.pos n /\ 0 < s /\ 0 <= t
  | None => k < n0
  end.
Proof.
  intros Hn Hq [L U] [K1 K2].
  assert (B53 : 2 * 10 ^ 15 < 2 ^ Num.prec) by (unfold Num.prec; lia).
  unfold Num.candidates. cbv zeta.
  set (t := n0 - k).
  assert (Ht : 0 <= t) by (subst t; lia).
  destruct (Z.leb_spec 0 t) as [_|]; [|lia].
  assert (P10 : 0 < 10 ^ t) by (apply Z.pow_pos_nonneg; lia).
  assert (Lt : 10 ^ t <= Z.pos n).
  { apply Z.le_trans with (10 ^ (n0 - 1)); [|exact L].
    apply Z.pow_le_mono_r; subst t; lia. }
  assert (Elo : Z.pos n * q / (q * 10 ^ t) = Z.pos n / 10 ^ t).
  { rewrite (Z.mul_comm (Z.pos n) q). apply Z.div_mul_cancel_l; lia. }
  rewrite Elo.
  set (lo := Z.pos n / 10 ^ t).
  assert (Hlo : lo * 10 ^ t <= Z.pos n < (lo + 1) * 10 ^ t).
  { subst lo. pose proof (Z.div_mod (Z.pos n) (10 ^ t) ltac:(lia)).
    pose proof (Z.mod_pos_bound (Z.pos n) (10 ^ t) P10). nia. }
  assert (Plo : 0 < lo).
  { subst lo. apply Z.div_str_pos. lia. }
  pose proof (reads_back n lo t ltac:(lia) Ht ltac:(lia) ltac:(nia)) as Rlo.
  pose proof (reads_back n (lo + 1) t ltac:(lia) Ht ltac:(lia) ltac:(nia))
    as Rhi.
  destruct (match canon false n, Num.of_decimal false lo t with
            | S754_finite _ m e, S754_finite _ m' e' =>
                Pos.eqb m m' && (e =? e')
            | _, _ => false
            end) eqn:Olo;
  destruct (match canon false n, Num.of_decimal false (lo + 1) t with
            | S754_finite _ m e, S754_finite _ m' e' =>
                Pos.eqb m m' && (e =? e')
            | _, _ => false
            end) eqn:Ohi.
  - exfalso. pose proof (proj1 Rlo eq_refl). pose proof (proj1 Rhi eq_refl).
    nia.
  - split; [exact (proj1 Rlo eq_refl)|lia].
  - split; [exact (proj1 Rhi eq_refl)|lia].
  - destruct (Z.eq_dec k n0) as [->|]; [|lia].
    exfalso. assert (T0 : t = 0) by (subst t; lia).
    assert (E : lo * 10 ^ t = Z.pos n).
    { subst lo. rewrite T0. cbn [Z.pow]. rewrite Z.div_1_r. lia. }
    pose proof (proj2 Rlo E) as X. congruence.
Qed.

Lemma shortest_spec n q n0 :
  Z.pos n < 10 ^ 15 -> 0 < q ->
  10 ^ (n0 - 1) <= Z.pos n < 10 ^ n0 ->
  forall fuel k, 1 <= k <= n0 -> n0 - k < Z.of_nat fuel ->
  let r := Num.shortest fuel (canon false n) (Z.pos n * q) q n0 k in
  fst r * 10 ^ snd r = Z.pos n /\ 0 < fst r /\ 0 <= snd r.
Proof.
  intros Hn Hq B. induction fuel as [|f IH]; intros k K F; [lia|].
  cbn [Num.shortest].
  pose proof (candidates_spec n q n0 k Hn Hq B K) as C.
  destruct (Num.candidates (canon false n) (Z.pos n * q) q n0 k)
    as [[s t]|].
  - exact C.
  - apply IH; lia.
Qed.

Lemma strip_zeros_spec fuel : forall s t,
  0 < s -> 0 <= t ->
  let r := Num.strip_zeros fuel s t in
  fst r * 10 ^ snd r = s * 10 ^ t /\ 0 < fst r /\ 0 <= snd r.
Proof.
  induction fuel as [|f IH]; intros s t Hs Ht; [cbn; lia|].
  cbn [Num.strip_zeros].
  destruct (Z.eqb_spec (s mod 10) 0) as [M|M]; cbn [andb];
    [|cbn; lia].
  destruct (Z.eqb_spec s 0) as [|_]; [lia|]. cbn [negb].
  pose proof (Z.div_mod s 10 ltac:(lia)) as D. rewrite M in D.
  destruct (IH (s / 10) (t + 1) ltac:(lia) ltac:(lia)) as (A & B & C).
  cbv zeta. split; [|split; assumption].
  rewrite A, Z.pow_add_r by lia. cbn [Z.pow Z.pow_pos Pos.iter Z.mul].
  nia.
Qed.

Lemma layout_whole ds t :
  0 <= t -> Z.of_nat (String.length ds) + t <= 21 ->
  Num.layout ds (Z.of_nat (String.length ds) + t) =
  ds ++ Str.repeat "0"%char (Z.to_nat t).
Proof.
  intros Ht B. unfold Num.layout. cbv zeta.
  destruct (Z.leb_spec (Z.of_nat (String.length ds))
                       (Z.of_nat (String.length ds) + t)) as [_|]; [|lia].
  destruct (Z.leb_spec (Z.of_nat (String.length ds) + t) 21) as [_|]; [|lia].
  cbn [andb]. do 2 f_equal. lia.
Qed.

(** *** Decimal numerals *)

Lemma string_of_revapp d : forall acc,
  NilEmpty.string_of_uint (Decimal.revapp d acc) =
  NilEmpty.string_of_uint (Decimal.revapp d Decimal.Nil) ++
  NilEmpty.string_of_uint acc.
Proof.
  assert (A : forall a b c : string, (a ++ b) ++ c = a ++ (b ++ c))
    by (intros a b c; induction a as [|x a IH]; cbn; [|rewrite IH]; reflexivity).
  assert (E : forall a : string, a ++ "" = a)
    by (intros a; induction a as [|x a IH]; cbn; [|rewrite IH]; reflexivity).
  induction d; intros acc; cbn [Decimal.revapp];
    [cbn; reflexivity|
     rewrite IHd, (IHd (_ Decimal.Nil)), A; reflexivity..].
Qed.

Lemma string_of_nonnil d :
  d <> Decimal.Nil -> NilZero.string_of_uint d = NilEmpty.string_of_uint d.
Proof. destruct d; [contradiction|reflexivity..]. Qed.

Lemma of_N_tenfold p :
  Str.of_N (10 * N.pos p) = Str.of_N (N.pos p) ++ "0".
Proof.
  unfold Str.of_N.
  change (10 * N.pos p)%N with (N.pos (10 * p)). cbn [N.to_uint].
  rewrite !string_of_nonnil by apply DecimalPos.Unsigned.to_uint_nonnil.
  pose proof (DecimalPos.Unsigned.to_ldec_tenfold p) as T.
  change (10 * N.pos p)%N with (N.pos (10 * p)) in T.
  cbn [DecimalPos.Unsigned.to_lu] in T.
  unfold Pos.to_uint, Decimal.rev. rewrite T. cbn [Decimal.revapp].
  rewrite string_of_revapp. reflexivity.
Qed.

Lemma repeat_snoc c n : Str.repeat c (S n) = Str.repeat c n ++ String c "".
Proof. induction n as [|n IH]; [reflexivity|]. cbn [Str.repeat append] in *.
  rewrite <- IH. reflexivity. Qed.

Lemma of_N_shift s : 0 < s -> forall t : nat,
  Str.of_N (Z.to_N (s * 10 ^ Z.of_nat t)) =
  Str.of_N (Z.to_N s) ++ Str.repeat "0"%char t.
Proof.
  intros Hs. induction t as [|t IH].
  - cbn [Z.of_nat Z.pow Str.repeat]. rewrite Z.mul_1_r, append_empty_r.
    reflexivity.
  - rewrite Nat2Z.inj_succ, Z.pow_succ_r by lia.
    assert (P : 0 < s * 10 ^ Z.of_nat t)
      by (apply Z.mul_pos_pos; [lia|apply Z.pow_pos_nonneg; lia]).
    replace (s * (10 * 10 ^ Z.of_nat t)) with (10 * (s * 10 ^ Z.of_nat t))
      by lia.
    rewrite Z2N.inj_mul by lia. change (Z.to_N 10) with 10%N.
    destruct (Z.to_N (s * 10 ^ Z.of_nat t)) as [|p] eqn:E; [lia|].
    rewrite of_N_tenfold, IH, repeat_snoc, append_assoc'. reflexivity.
Qed.

Lemma length_append (a b : string) :
  String.length (a ++ b) = (String.length a + String.length b)%nat.
Proof. induction a as [|x a IH]; cbn; [|rewrite IH]; reflexivity. Qed.

Lemma length_repeat c n : String.length (Str.repeat c n) = n.
Proof. induction n as [|n IH]; cbn; [|rewrite IH]; reflexivity. Qed.

(** The value of a run of digits is at least its first digit followed by
    zeros. *)
Lemma digits_value_lower s : forall acc,
  DateTime.allDigits s = true -> 0 <= acc ->
  acc * 10 ^ Z.of_nat (String.length s) <= Str.digits_value acc s.
Proof.
  induction s as [|c s IH]; intros acc D A.
  - cbn. lia.
  - apply allDigits_cons in D as [Dc Ds].
    cbn [Str.digits_value String.length]. rewrite Nat2Z.inj_succ.
    rewrite Z.pow_succ_r by lia.
    assert (V : 0 <= Str.digit_val c).
    { unfold Str.digit_val, Str.is_digit in *.
      apply andb_true_iff in Dc as [Dc _]. apply N.leb_le in Dc. lia. }
    pose proof (IH (10 * acc + Str.digit_val c) Ds ltac:(lia)) as H.
    assert (0 <= 10 ^ Z.of_nat (String.length s))
      by (apply Z.pow_nonneg; lia).
    nia.
Qed.

Lemma nzhead_head d :
  match Decimal.nzhead d with Decimal.D0 _ => False | _ => True end.
Proof. induction d; cbn; auto. Qed.

(** The numeral of a positive number starts with a digit that is not 0. *)
Lemma of_N_head p :
  exists c rest, Str.of_N (N.pos p) = String c rest /\ 1 <= Str.digit_val c.
Proof.
  unfold Str.of_N. cbn [N.to_uint].
  rewrite string_of_nonnil by apply DecimalPos.Unsigned.to_uint_nonnil.
  pose proof (DecimalN.Unsigned.to_of (N.to_uint (N.pos p))) as U.
  rewrite DecimalN.Unsigned.of_to in U. cbn [N.to_uint] in U.
  pose proof (DecimalPos.Unsigned.to_uint_nonzero p) as NZ.
  pose proof (nzhead_head (Pos.to_uint p)) as H.
  unfold Decimal.unorm in U.
  destruct (Decimal.nzhead (Pos.to_uint p)) eqn:E;
    try contradiction; try (symmetry in U; contradiction);
    rewrite U; cbn [NilEmpty.string_of_uint];
    eexists; eexists; (split; [reflexivity|]); vm_compute; discriminate.
Qed.

Lemma of_N_length n k :
  (1 <= k)%nat -> Z.of_N n < 10 ^ Z.of_nat k ->
  (String.length (Str.of_N n) <= k)%nat.
Proof.
  intros K B. destruct n as [|p]; [cbn; lia|].
  destruct (of_N_head p) as (c & rest & E & V).
  pose proof (digits_of_N (N.pos p)) as DV.
  pose proof (of_N_digits (N.pos p)) as AD.
  rewrite E in DV, AD. apply allDigits_cons in AD as [_ Dr].
  cbn [Str.digits_value] in DV.
  pose proof (digits_value_lower rest (10 * 0 + Str.digit_val c) Dr
                ltac:(lia)) as L.
  rewrite DV in L. rewrite E. cbn [String.length].
  assert (P : 0 < 10 ^ Z.of_nat (String.length rest))
    by (apply Z.pow_pos_nonneg; lia).
  assert (X : 10 ^ Z.of_nat (String.length rest) < 10 ^ Z.of_nat k) by nia.
  apply Z.pow_lt_mono_r_iff in X; lia.
Qed.

Lemma fraction_canon n :
  Z.pos n < 2 ^ Num.prec ->
  exists q, 0 < q /\
    Num.fraction_of
      (Z.to_pos (Z.pos n * 2 ^ (Num.prec - bits n))) (bits n - Num.prec) =
    (Z.pos n * q, q).
Proof.
  intros Hn. pose proof (bits_pos n). pose proof (bits_le n Hn).
  assert (P : 0 < 2 ^ (Num.prec - bits n))
    by (apply Z.pow_pos_nonneg; lia).
  unfold Num.fraction_of. rewrite Z2Pos.id by nia.
  destruct (Z.leb_spec 0 (bits n - Num.prec)) as [E|E].
  - exists 1. split; [lia|].
    replace (bits n - Num.prec) with 0 by lia.
    replace (Num.prec - bits n) with 0 by lia.
    cbn [Z.pow]. f_equal. lia.
  - exists (2 ^ (Num.prec - bits n)). split; [exact P|].
    f_equal. f_equal. lia.
Qed.

(** A whole number below [10^15] is printed as its decimal numeral. *)
Lemma toString_of_Z z :
  0 <= z < 10 ^ 15 -> Num.toString (Num.of_Z z) = Str.of_N (Z.to_N z).
Proof.
  intros [L U]. destruct z as [|n|n]; [reflexivity| |lia].
  assert (Hn : Z.pos n < 2 ^ Num.prec) by (unfold Num.prec; lia).
  rewrite of_Z_pos by exact Hn. unfold canon at 1. unfold Num.toString.
  destruct (fraction_canon n Hn) as (q & Hq & ->).
  fold (canon false n).
  destruct (decimal_order_spec (Z.pos n) q Hq ltac:(lia)) as ((A1 & A2) & B).
  set (n0 := Num.decimal_order (Z.pos n * q) q) in *.
  pose proof (shortest_spec n q n0 U Hq B 21 1 ltac:(lia) ltac:(cbn; lia))
    as S0. cbv zeta in S0.
  destruct (Num.shortest 21 (canon false n) (Z.pos n * q) q n0 1)
    as [s0 t0]. cbn [fst snd] in S0. destruct S0 as (V0 & P0 & T0).
  pose proof (strip_zeros_spec 400 s0 t0 P0 T0) as S1. cbv zeta in S1.
  destruct (Num.strip_zeros 400 s0 t0) as [s t]. cbn [fst snd] in S1.
  destruct S1 as (V & Ps & Pt). rewrite V0 in V.
  cbv zeta. cbn [append].
  pose proof (of_N_shift s Ps (Z.to_nat t)) as Sh.
  rewrite Z2Nat.id, V in Sh by exact Pt.
  pose proof (of_N_length (Z.to_N (Z.pos n)) 15 ltac:(lia)
                ltac:(rewrite Z2N.id by lia; exact U)) as Len.
  rewrite Sh, length_append, length_repeat in Len.
  rewrite layout_whole; [symmetry; exact Sh|exact Pt|lia].
Qed.

(** ** Code translation *)

Lemma plainKey_inherited k : plainKey k = true -> inherited k = JUndefined.
Proof.
  unfold plainKey. intros H.
  apply andb_true_iff in H as [H _]. apply andb_true_iff in H as [H _].
  destruct (inherited k); simpl in H; congruence.
Qed.

(** Under a plain key only an object has a member. *)
Lemma plainKey_prop v k :
  plainKey k = true -> (forall ps, v <> JObj ps) -> prop v k = JUndefined.
Proof.
  intros K N. pose proof (plainKey_inherited k K) as I.
  unfold plainKey in K.
  apply andb_true_iff in K as [K L]. apply andb_true_iff in K as [_ X].
  apply negb_true_iff in L. apply negb_true_iff in X.
  destruct v; cbn [prop]; rewrite ?X, ?L; try exact I.
  exfalso. exact (N _ eq_refl).
Qed.

(** The examples of the specification, and every code that is neither in
    the table nor the name of something inherited. *)
Lemma code_translation_plain :
  getAccountTypeString "10" "R" = JStr "Credit Card (Revolving)" /\
  getAccountTypeString "51" "I" = JStr "Personal Loan (Installment)" /\
  getAccountTypeString "99" "I" = JStr "Other (Installment)" /\
  getAccountStatus "11" = JStr "Active - Regular" /\
  getAccountStatus "13" = JStr "Closed - Regular" /\
  getAccountStatus "99" = JStr "Status 99" /\
  (forall code, plainKey code = true -> prop typeMap code = JUndefined ->
     getAccountTypeString code "I" = JStr "Other (Installment)") /\
  (forall code, plainKey code = true -> prop statusMap code = JUndefined ->
     getAccountStatus code = JStr ("Status " ++ code)).
Proof.
  repeat split; try reflexivity.
  - intros code _ H. unfold getAccountTypeString. rewrite H. reflexivity.
  - intros code _ H. unfold getAccountStatus. rewrite H. reflexivity.
Qed.

(** C5. Type and status codes are translated through two tables with a
    fallback for unmapped codes. The fallback is missed for a code that
    names a property every object inherits: the tables are object literals,
    so [typeMap["constructor"]] is the built-in [Object] function, which is
    truthy, and neither ["Other"] nor ["Status constructor"] is produced. *)
Theorem code_translation_inherited_name :
  prop typeMap "constructor" = JNative "Object" /\
  getAccountTypeString "constructor" "I" =
    JStr "function Object() { [native code] } (Installment)" /\
  getAccountTypeString "constructor" "I" <> JStr "Other (Installment)" /\
  getAccountStatus "constructor" = JNative "Object" /\
  getAccountStatus "constructor" <> JStr "Status constructor".
Proof. repeat split; try reflexivity; discriminate. Qed.

(** ** Parsed trees are closed under what the extractors do *)

Lemma lookup_In k ps x : lookup k ps = Some x -> In (k, x) ps.
Proof.
  induction ps as [|[k' v] ps IH]; cbn [lookup]; [discriminate|].
  destruct (String.eqb_spec k k') as [->|_].
  - intros [= ->]. left. reflexivity.
  - intros H. right. exact (IH H).
Qed.

Lemma parsedTree_obj ps :
  parsedTree (JObj ps) = true ->
  Forall (fun kv => parsedTree (snd kv) = true /\
                    (fst kv = "#text" -> isScalar (snd kv) = true)) ps.
Proof.
  cbn [parsedTree]. rewrite andb_true_iff. intros [H _]. revert H.
  induction ps as [|[k x] ps IH]; intros H; constructor.
  - apply andb_true_iff in H as [H _]. apply andb_true_iff in H as [H1 H2].
    split; [exact H1|]. cbn [fst snd]. intros ->.
    rewrite String.eqb_refl in H2. exact H2.
  - apply IH. apply andb_true_iff in H as [_ H]. exact H.
Qed.

Lemma parsedTree_arr l :
  parsedTree (JArr l) = true -> Forall (fun x => parsedTree x = true) l.
Proof.
  cbn [parsedTree]. induction l as [|x l IH]; intros H; constructor.
  - apply andb_true_iff in H as [H _]. exact H.
  - apply IH. apply andb_true_iff in H as [_ H]. exact H.
Qed.

Lemma lookup_parsed ps k x :
  parsedTree (JObj ps) = true -> lookup k ps = Some x ->
  parsedTree x = true /\ (k = "#text" -> isScalar x = true).
Proof.
  intros H L. apply parsedTree_obj in H. apply lookup_In in L.
  rewrite Forall_forall in H. exact (H _ L).
Qed.

Lemma parsedTree_node v : parsedTree v = true -> parsedNode v = true.
Proof. intros H. unfold parsedNode. rewrite H. apply orb_true_r. Qed.

Lemma parsedTree_not_nullish v : parsedTree v = true -> nullish v = false.
Proof. destruct v; cbn; congruence. Qed.

Lemma truthy_not_nullish v : truthy v = true -> nullish v = false.
Proof. destruct v; cbn; congruence. Qed.

Lemma truthy_parsed v :
  parsedNode v = true -> truthy v = true -> parsedTree v = true.
Proof.
  unfold parsedNode. intros H T. apply orb_true_iff in H as [H|H]; [|exact H].
  rewrite (truthy_not_nullish v T) in H. discriminate.
Qed.

Lemma prop_parsed v k :
  parsedNode v = true -> plainKey k = true -> parsedNode (prop v k) = true.
Proof.
  intros H K.
  destruct v as [| |b|n|s|l|ps|f];
    try (rewrite plainKey_prop; [reflexivity|exact K|discriminate]).
  apply plainKey_inherited in K. cbn [prop].
  destruct (lookup k ps) as [x|] eqn:L; [|rewrite K; reflexivity].
  apply parsedTree_node.
  unfold parsedNode in H. cbn [nullish orb] in H.
  exact (proj1 (lookup_parsed _ _ _ H L)).
Qed.

Lemma getopt_parsed v k :
  parsedNode v = true -> plainKey k = true -> parsedNode (getopt v k) = true.
Proof.
  intros H K. unfold getopt. destruct (nullish v); [reflexivity|].
  apply prop_parsed; assumption.
Qed.

Lemma or_parsed a b :
  parsedNode a = true -> parsedNode b = true -> parsedNode (or a b) = true.
Proof. intros. unfold or. destruct (truthy a); assumption. Qed.

Lemma first_parsed v : parsedNode v = true -> parsedNode (first v) = true.
Proof.
  intros H. destruct v; try reflexivity. destruct elems; [reflexivity|].
  cbn [first]. apply parsedTree_node.
  unfold parsedNode in H. cbn [nullish orb] in H.
  apply parsedTree_arr in H. inversion H. assumption.
Qed.

Lemma asArray_parsed v :
  parsedTree v = true -> Forall (fun x => parsedTree x = true) (asArray v).
Proof.
  intros H. destruct v; cbn [asArray];
    try (constructor; [exact H|constructor]).
  apply parsedTree_arr. exact H.
Qed.

Lemma getNestedValue_steps v ks :
  parsedNode v = true -> forallb plainKey ks = true ->
  parsedNode
    (fold_left
       (fun current key =>
          if truthy current && negb (isUndefined (prop current key))
          then prop current key else JUndefined) ks v) = true.
Proof.
  revert v. induction ks as [|k ks IH]; intros v H K; [exact H|].
  cbn [forallb] in K. apply andb_true_iff in K as [K1 K2].
  cbn [fold_left]. apply IH; [|exact K2].
  destruct (truthy v && negb (isUndefined (prop v k))); [|reflexivity].
  apply prop_parsed; assumption.
Qed.

Lemma getNestedValue_parsed v path :
  parsedNode v = true -> plainPath path = true ->
  parsedNode (getNestedValue v path) = true.
Proof. intros. apply getNestedValue_steps; assumption. Qed.

Lemma nested2_parsed v k1 k2 :
  parsedNode v = true -> plainPath k1 = true -> plainPath k2 = true ->
  parsedNode (nested2 v k1 k2) = true.
Proof.
  intros. apply or_parsed; apply getNestedValue_parsed; assumption.
Qed.

Lemma findValueFromPaths_parsed v paths :
  parsedNode v = true -> forallb plainPath paths = true ->
  parsedNode (findValueFromPaths v paths) = true.
Proof.
  intros H. induction paths as [|p paths IH]; intros K; [reflexivity|].
  cbn [forallb] in K. apply andb_true_iff in K as [K1 K2].
  cbn [findValueFromPaths].
  destruct (nullish (getNestedValue v p)); cbn [negb]; [exact (IH K2)|].
  apply getNestedValue_parsed; assumption.
Qed.

(** ** The extraction utilities return *)

Lemma returns_Ok {A} (a : A) : returns (Ok a).
Proof. exists a. reflexivity. Qed.

Lemma returns_bind {A B} (c : result A) (k : A -> result B) :
  returns c -> (forall a, c = Ok a -> returns (k a)) -> returns (bind c k).
Proof. intros [a ->] H. exact (H a eq_refl). Qed.

Lemma returns_mapM {A B} (f : A -> result B) (P : A -> Prop) l :
  (forall a, P a -> returns (f a)) -> Forall P l -> returns (mapM f l).
Proof.
  intros Hf. induction 1 as [|a l Ha _ IH]; cbn [mapM]; [apply returns_Ok|].
  destruct (Hf a Ha) as [b ->]. destruct IH as [bs ->]. apply returns_Ok.
Qed.

Lemma returns_foldM {A S} (f : S -> A -> result S) (P : A -> Prop) l :
  (forall s a, P a -> returns (f s a)) ->
  Forall P l -> forall s, returns (foldM f l s).
Proof.
  intros Hf. induction 1 as [|a l Ha _ IH]; intros s; cbn [foldM];
    [apply returns_Ok|].
  destruct (Hf s a Ha) as [s' ->]. apply IH.
Qed.

Lemma mapM_length {A B} (f : A -> result B) l : forall bs,
  mapM f l = Ok bs -> List.length bs = List.length l.
Proof.
  induction l as [|a l IH]; intros bs E.
  - injection E as <-. reflexivity.
  - cbn [mapM] in E. destruct (f a); [|discriminate E]. cbn [bind] in E.
    destruct (mapM f l) as [bs'|]; [|discriminate E].
    injection E as <-. cbn [List.length]. f_equal. apply IH. reflexivity.
Qed.

Lemma toStringCall_returns :
  forall t, nullish t = false -> hidesToString t = false ->
            returns (toStringCall t).
Proof.
  fix IH 1. intros [| |b|n|s|l|ps|f] N H; try discriminate N;
    try (cbn; apply returns_Ok).
  - cbn [toStringCall]. cbn [hidesToString] in H. clear N.
    revert l H. fix IHl 1. intros [|x rest] H; [apply returns_Ok|].
    apply orb_false_iff in H as [Hx Hr].
    assert (X : returns (if nullish x then Ok "" else toStringCall x)).
    { destruct (nullish x) eqn:Nx; [apply returns_Ok|].
      apply IH; assumption. }
    destruct X as [sx ->]. cbn [bind].
    pose proof (IHl rest Hr) as [sr Er].
    destruct rest as [|y rest]; [apply returns_Ok|].
    rewrite Er. apply returns_Ok.
  - cbn [toStringCall]. cbn [hidesToString] in H.
    destruct (lookup "toString" ps); [discriminate H|apply returns_Ok].
Qed.

Lemma scalar_shows v : isScalar v = true -> hidesToString v = false.
Proof. destruct v; cbn; congruence. Qed.

Lemma extractText_returns_text node :
  textNode node = true -> returns (extractText node).
Proof.
  unfold textNode. intros H. apply negb_true_iff in H.
  unfold extractText.
  destruct (truthy node) eqn:T; cbn [negb]; [|apply returns_Ok].
  destruct node as [| |b|n|s|l|ps|f]; try discriminate;
    try (cbn; apply returns_Ok); cbv zeta;
    match goal with
    | |- context [truthy (prop ?v "#text")] =>
        destruct (truthy (prop v "#text")) eqn:Tt;
          [destruct (toStringCall_returns _ (truthy_not_nullish _ Tt) H)
             as [s ->]|];
          apply returns_Ok
    end.
Qed.

Lemma parsedNode_textNode node : parsedNode node = true -> textNode node = true.
Proof.
  intros H. destruct node as [| |b|n|s|l|ps|f]; try reflexivity.
  unfold textNode. cbn [prop].
  destruct (lookup "#text" ps) as [t|] eqn:L; [|reflexivity].
  unfold parsedNode in H. cbn [nullish orb] in H.
  rewrite (scalar_shows t (proj2 (lookup_parsed _ _ _ H L) eq_refl)).
  reflexivity.
Qed.

Lemma extractText_returns node :
  parsedNode node = true -> returns (extractText node).
Proof. intros H. apply extractText_returns_text, parsedNode_textNode, H. Qed.

Lemma extractNumber_returns node :
  parsedNode node = true -> returns (extractNumber node).
Proof.
  intros H. unfold extractNumber.
  destruct (extractText_returns node H) as [s ->]. apply returns_Ok.
Qed.

Lemma extractDate_returns host node :
  parsedNode node = true -> returns (extractDate host node).
Proof.
  intros H. unfold extractDate.
  destruct (extractText_returns node H) as [s ->]. cbn [bind].
  destruct (Str.isEmpty s); [apply returns_Ok|].
  destruct (newDate host s); apply returns_Ok.
Qed.

(** Beyond these nodes [extractText] can raise: an object whose ['#text']
    member is itself an object with a member named [toString] makes it call
    a string as a function. No XML text builds such a node: the parser
    puts text, and nothing else, under ['#text']. *)
Lemma extractText_hidden_toString :
  textNode (JObj [("#text", JObj [("toString", JStr "x")])]) = false /\
  extractText (JObj [("#text", JObj [("toString", JStr "x")])]) =
    Throw (TypeError "toString is not a function").
Proof. split; reflexivity. Qed.

(** C9. The nodes handed to the extraction utilities are those of a parsed
    tree, and a missing member. On each of them, and on every other node
    whose text can be read (every string, number, boolean and array, [null],
    [undefined], every object without a ['#text'] member, and every object
    whose ['#text'] member keeps the inherited [toString]), [extractText],
    [extractNumber] and [extractDate] return; [extractText] answers the
    empty string on [undefined] and [null], [extractNumber] answers 0 when
    the stripped text is not a number, and [extractDate] answers [null]
    when the text is empty or is not a date. *)
Theorem extraction_utilities_total :
  forall (hostDateParse : string -> jsdate) (node : jsval),
    (parsedNode node = true -> textNode node = true) /\
    (isBlock node = false -> textNode node = true) /\
    (forall ps, node = JObj ps -> lookup "#text" ps = None ->
                textNode node = true) /\
    (textNode node = true ->
     returns (extractText node) /\
     returns (extractNumber node) /\
     returns (extractDate hostDateParse node) /\
     (nullish node = true -> extractText node = Ok "") /\
     (forall text, extractText node = Ok text ->
        Num.isNaN (Num.parseFloat (Str.filter keepNumeric text)) = true ->
        extractNumber node = Ok Num.zero) /\
     (forall text, extractText node = Ok text ->
        text = "" \/ newDate hostDateParse text = InvalidDate ->
        extractDate hostDateParse node = Ok None)).
Proof.
  intros host node.
  split; [apply parsedNode_textNode|].
  split; [destruct node; try reflexivity; discriminate|].
  split; [intros ps -> L; unfold textNode; cbn [prop]; rewrite L; reflexivity|].
  intros H.
  destruct (extractText_returns_text node H) as [s Es].
  split; [exists s; exact Es|].
  split; [unfold extractNumber; rewrite Es; apply returns_Ok|].
  split.
  { unfold extractDate. rewrite Es. cbn [bind].
    destruct (Str.isEmpty s); [apply returns_Ok|].
    destruct (newDate host s); apply returns_Ok. }
  split; [destruct node; cbn; congruence|].
  split.
  - intros text E N. unfold extractNumber. rewrite E. cbn [bind].
    rewrite N. reflexivity.
  - intros text E [->|D]; unfold extractDate; rewrite E; cbn [bind].
    + reflexivity.
    + destruct (Str.isEmpty text); [reflexivity|]. rewrite D. reflexivity.
Qed.

(** C9 at a text-bearing node with an attribute, and at a node whose text
    member is a list. *)
Lemma extraction_utilities_total_witness :
  (extractText
     (JObj [("#text", JNum (Num.of_Z 750)); ("@_unit", JStr "pts")]) =
     Ok "750" /\
   returns (extractNumber
              (JObj [("#text", JNum (Num.of_Z 750)); ("@_unit", JStr "pts")])) /\
   returns (extractDate noHostDates
              (JObj [("#text", JNum (Num.of_Z 750)); ("@_unit", JStr "pts")]))) /\
  (extractText (JObj [("#text", JArr [JNum Num.one; JStr "b"])]) = Ok "1,b" /\
   returns (extractNumber (JObj [("#text", JArr [JNum Num.one; JStr "b"])]))).
Proof.
  split.
  - destruct (extraction_utilities_total noHostDates
                (JObj [("#text", JNum (Num.of_Z 750)); ("@_unit", JStr "pts")]))
      as (P & _ & _ & H).
    destruct (H (P eq_refl)) as (_ & H2 & H3 & _).
    split; [reflexivity|]. split; assumption.
  - destruct (extraction_utilities_total noHostDates
                (JObj [("#text", JArr [JNum Num.one; JStr "b"])]))
      as (_ & _ & _ & H).
    destruct (H eq_refl) as (_ & H2 & _).
    split; [reflexivity|exact H2].
Defined.

(** ** The extractors return on a parsed tree *)

Lemma getp_parsed v k : parsedTree v = true -> getp v k = Ok (prop v k).
Proof.
  intros H. unfold getp. rewrite (parsedTree_not_nullish v H). reflexivity.
Qed.

Ltac parsed :=
  repeat first
    [ assumption
    | reflexivity
    | apply prop_parsed
    | apply getopt_parsed
    | apply nested2_parsed
    | apply getNestedValue_parsed
    | apply or_parsed
    | apply findValueFromPaths_parsed
    | apply first_parsed
    | apply parsedTree_node; assumption ].

Tactic Notation "case_if" ident(H) :=
  match goal with
  | |- returns (if ?c then _ else _) => destruct c eqn:H
  end.

Ltac returning :=
  repeat first
    [ apply returns_Ok
    | apply returns_bind; [|intros ? ?]
    | apply extractText_returns; parsed
    | apply extractNumber_returns; parsed
    | apply extractDate_returns; parsed
    | match goal with
      | |- returns (if ?c then _ else _) => destruct c eqn:?
      | |- returns (match ?x with _ => _ end) => destruct x eqn:?
      | |- returns (let _ := _ in _) => cbv zeta
      end ].

Section Returns.

Variable hostDateParse : string -> jsdate.

Lemma extractTexts_returns a ks :
  parsedNode a = true -> forallb plainKey ks = true ->
  returns (extractTexts a ks).
Proof.
  intros H K. unfold extractTexts.
  apply (returns_mapM _ (fun k => plainKey k = true)).
  - intros k Hk. apply extractText_returns. parsed.
  - apply Forall_forall. intros k Hk.
    rewrite forallb_forall in K. exact (K k Hk).
Qed.

Lemma fullName_returns a k1 k2 :
  parsedNode a = true -> plainKey k1 = true -> plainKey k2 = true ->
  returns (fullName a k1 k2).
Proof. intros. unfold fullName. returning. Qed.

Lemma textOr_returns a k1 k2 :
  parsedNode a = true -> plainKey k1 = true -> plainKey k2 = true ->
  returns (textOr a k1 k2).
Proof. intros. unfold textOr. returning. Qed.

Lemma fromApplicantDetails_returns a bd :
  parsedNode a = true -> returns (fromApplicantDetails hostDateParse a bd).
Proof.
  intros. unfold fromApplicantDetails.
  apply returns_bind; [apply fullName_returns; parsed|intros ? ?].
  apply returns_bind; [apply textOr_returns; parsed|intros ? ?].
  returning.
Qed.

Lemma fromCurrentApplication_returns a bd :
  parsedNode a = true -> returns (fromCurrentApplication hostDateParse a bd).
Proof.
  intros. unfold fromCurrentApplication. cbv zeta.
  apply returns_bind.
  - case_if T; [|apply returns_Ok].
    apply fromApplicantDetails_returns. parsed.
  - intros ? ?. case_if T; [|apply returns_Ok].
    apply returns_bind; [apply extractTexts_returns; parsed|intros ? ?].
    apply returns_Ok.
Qed.

Lemma fromHolderDetails_returns a bd :
  parsedNode a = true -> returns (fromHolderDetails hostDateParse a bd).
Proof.
  intros. unfold fromHolderDetails.
  apply returns_bind.
  { case_if T; [|apply returns_Ok].
    apply returns_bind; [apply fullName_returns; parsed|intros ? ?].
    apply returns_Ok. }
  intros ? ?. returning.
Qed.

Lemma fromAccountDetails_returns a bd :
  parsedNode a = true -> returns (fromAccountDetails hostDateParse a bd).
Proof.
  intros. unfold fromAccountDetails. cbv zeta.
  assert (parsedNode (if isArray a then first a else a) = true)
    by (destruct (isArray a); parsed).
  apply returns_bind.
  { case_if T; [|apply returns_Ok].
    apply fromHolderDetails_returns. parsed. }
  intros ? ?. apply returns_bind.
  { case_if T; [|apply returns_Ok].
    apply returns_bind; [apply textOr_returns; parsed|intros ? ?].
    apply returns_Ok. }
  intros ? ?. case_if T; [|apply returns_Ok].
  apply returns_bind; [apply extractTexts_returns; parsed|intros ? ?].
  apply returns_Ok.
Qed.

Lemma extractBasicDetails_returns root :
  parsedTree root = true -> returns (extractBasicDetails hostDateParse root).
Proof.
  intros H. pose proof (parsedTree_node _ H) as N.
  unfold extractBasicDetails. cbv zeta. rewrite !getp_parsed by exact H.
  cbn [bind].
  apply returns_bind.
  { case_if T; [|apply returns_Ok].
    apply fromCurrentApplication_returns. parsed. }
  intros ? ?. apply returns_bind.
  { case_if T; [|apply returns_Ok]. returning. }
  intros ? ?. apply returns_bind.
  { case_if T; [|apply returns_Ok].
    apply fromAccountDetails_returns. parsed. }
  intros ? ?. returning.
Qed.

Lemma countAccount_returns s account :
  parsedTree account = true -> returns (countAccount s account).
Proof.
  intros H. pose proof (parsedTree_node _ H) as N.
  unfold countAccount. rewrite getp_parsed by exact H. cbn [bind].
  returning.
Qed.

Lemma countLegacyAccount_returns s account :
  parsedNode account = true -> returns (countLegacyAccount s account).
Proof. intros. unfold countLegacyAccount. fold (nested2 account "Status" "AccountStatus"). returning. Qed.

Lemma fromCaisSummary_returns a s :
  parsedNode a = true -> returns (fromCaisSummary a s).
Proof. intros. unfold fromCaisSummary. returning. Qed.

Lemma legacySummary_returns root s :
  parsedNode root = true -> returns (legacySummary root s).
Proof.
  intros. unfold legacySummary. cbv zeta.
  apply returns_bind; [|intros ? ?; returning].
  case_if T; [|apply returns_Ok].
  apply (returns_foldM _ (fun x => parsedTree x = true)).
  - intros. apply countLegacyAccount_returns. parsed.
  - apply asArray_parsed. apply truthy_parsed; [parsed|exact T].
Qed.

Lemma extractReportSummary_returns root :
  parsedTree root = true -> returns (extractReportSummary root).
Proof.
  intros H. pose proof (parsedTree_node _ H) as N.
  unfold extractReportSummary. cbv zeta. rewrite !getp_parsed by exact H.
  cbn [bind].
  apply returns_bind.
  { case_if T; [|apply returns_Ok].
    apply fromCaisSummary_returns. parsed. }
  intros ? ?. apply returns_bind.
  { case_if T; [|apply returns_Ok].
    case_if E; [|apply returns_Ok].
    apply (returns_foldM _ (fun x => parsedTree x = true)).
    - intros. apply countAccount_returns. assumption.
    - apply asArray_parsed. apply truthy_parsed; [parsed|exact T]. }
  intros ? ?. apply returns_bind.
  { case_if T; [|apply returns_Ok]. returning. }
  intros ? ?. case_if E; [|apply returns_Ok].
  apply legacySummary_returns. exact N.
Qed.

Lemma mapAccount_returns account :
  parsedTree account = true -> returns (mapAccount hostDateParse account).
Proof.
  intros H. pose proof (parsedTree_node _ H) as N.
  unfold mapAccount. rewrite getp_parsed by exact H. cbn [bind].
  returning.
Qed.

Lemma mapLegacyAccount_returns account :
  parsedNode account = true ->
  returns (mapLegacyAccount hostDateParse account).
Proof. intros. unfold mapLegacyAccount. returning. Qed.

Lemma extractCreditAccounts_returns root :
  parsedTree root = true ->
  returns (extractCreditAccounts hostDateParse root).
Proof.
  intros H. pose proof (parsedTree_node _ H) as N.
  unfold extractCreditAccounts. cbv zeta. rewrite getp_parsed by exact H.
  cbn [bind].
  apply returns_bind.
  { case_if T; [|apply returns_Ok].
    apply (returns_mapM _ (fun x => parsedTree x = true)).
    - intros. apply mapAccount_returns. assumption.
    - apply asArray_parsed. apply truthy_parsed; [parsed|exact T]. }
  intros ? ?. case_if E; [|apply returns_Ok].
  case_if T; [|apply returns_Ok].
  apply (returns_mapM _ (fun x => parsedTree x = true)).
  - intros. apply mapLegacyAccount_returns. parsed.
  - apply asArray_parsed. apply truthy_parsed; [parsed|exact T].
Qed.

Lemma fromCapsSummary_returns a w :
  parsedNode a = true -> returns (fromCapsSummary a w).
Proof. intros. unfold fromCapsSummary. returning. Qed.

Lemma mapLegacyEnquiry_returns enquiry :
  parsedNode enquiry = true ->
  returns (mapLegacyEnquiry hostDateParse enquiry).
Proof. intros. unfold mapLegacyEnquiry. returning. Qed.

Lemma extractEnquiries_returns root w :
  parsedTree root = true ->
  returns (extractEnquiries hostDateParse root w).
Proof.
  intros H. pose proof (parsedTree_node _ H) as N.
  unfold extractEnquiries. cbv zeta. rewrite getp_parsed by exact H.
  cbn [bind].
  apply returns_bind.
  { case_if T; [|apply returns_Ok].
    case_if T'; [|apply returns_Ok].
    apply fromCapsSummary_returns. parsed. }
  intros [enquiries w'] _. case_if E; [|apply returns_Ok].
  case_if T; [|apply returns_Ok].
  apply returns_bind; [|intros ? ?; apply returns_Ok].
  apply (returns_mapM _ (fun x => parsedTree x = true)).
  - intros. apply mapLegacyEnquiry_returns. parsed.
  - apply asArray_parsed. apply truthy_parsed; [parsed|exact T].
Qed.

End Returns.

(** ** Root location *)

Lemma firstTruthyPath_parsed v paths r :
  parsedNode v = true -> forallb plainPath paths = true ->
  firstTruthyPath v paths = Some r -> parsedNode r = true /\ truthy r = true.
Proof.
  intros H. induction paths as [|p paths IH]; intros K E; [discriminate|].
  cbn [forallb] in K. apply andb_true_iff in K as [K1 K2].
  cbn [firstTruthyPath] in E.
  destruct (truthy (getNestedValue v p)) eqn:T.
  - injection E as <-. split; [|exact T].
    apply getNestedValue_parsed; assumption.
  - exact (IH K2 E).
Qed.

Lemma lookup_key ps k : In k (map fst ps) -> exists x, lookup k ps = Some x.
Proof.
  induction ps as [|[k' v] ps IH]; cbn [map fst In lookup]; [tauto|].
  intros [->|H].
  - rewrite String.eqb_refl. eauto.
  - destruct (String.eqb k k'); eauto.
Qed.

Lemma firstObjectValue_parsed ps ks r :
  parsedTree (JObj ps) = true -> incl ks (map fst ps) ->
  firstObjectValue (JObj ps) ks = Some r ->
  parsedTree r = true /\ truthy r = true.
Proof.
  intros H. induction ks as [|k ks IH]; intros I E; [discriminate|].
  cbn [firstObjectValue] in E.
  destruct (isObjectType (prop (JObj ps) k)) eqn:T.
  - injection E as <-.
    destruct (lookup_key ps k (I k (or_introl eq_refl))) as [x L].
    cbn [prop] in *. rewrite L in *. split.
    + exact (proj1 (lookup_parsed _ _ _ H L)).
    + destruct x; cbn in T; try discriminate; reflexivity.
  - apply IH; [|exact E]. intros k' Hk'. apply I. right. exact Hk'.
Qed.

Lemma firstTruthyPath_find obj paths :
  firstTruthyPath obj paths = find truthy (map (getNestedValue obj) paths).
Proof.
  induction paths as [|p paths IH]; [reflexivity|].
  cbn [firstTruthyPath map find]. rewrite IH. reflexivity.
Qed.

Lemma distinct_lookup ps :
  distinct (map fst ps) = true ->
  forall k v, In (k, v) ps -> lookup k ps = Some v.
Proof.
  induction ps as [|[k' v'] ps IH]; intros D k v H; [destruct H|].
  cbn [map fst distinct] in D. apply andb_true_iff in D as [D1 D2].
  cbn [lookup]. destruct H as [H|H].
  - injection H as -> ->. rewrite String.eqb_refl. reflexivity.
  - destruct (String.eqb_spec k k') as [->|N]; [|exact (IH D2 k v H)].
    exfalso. apply negb_true_iff in D1.
    assert (X : existsb (String.eqb k') (map fst ps) = true).
    { apply existsb_exists. exists k'. split; [|apply String.eqb_refl].
      exact (in_map fst _ _ H). }
    congruence.
Qed.

Lemma firstObjectValue_find full : forall ps,
  (forall k v, In (k, v) ps -> lookup k full = Some v) ->
  firstObjectValue (JObj full) (map fst ps) = find isObjectType (values ps).
Proof.
  induction ps as [|[k v] ps IH]; intros H; [reflexivity|].
  cbn [map fst firstObjectValue values snd find prop].
  rewrite (H k v (or_introl eq_refl)).
  destruct (isObjectType v); [reflexivity|].
  apply IH. intros k' v' H'. apply H. right. exact H'.
Qed.

(** On a parsed document [findReportRoot] returns the root the three
    strategies locate, which is a parsed tree, or [null] when they locate
    none. *)
Lemma findReportRoot_located doc :
  parsedDocument doc = true ->
  match locatedRoot doc with
  | Some root =>
      findReportRoot doc = Ok root /\ truthy root = true /\
      parsedTree root = true
  | None => findReportRoot doc = Ok JNull
  end.
Proof.
  intros D. destruct doc as [| |b|n|s|l|ps|f]; try discriminate.
  cbn [parsedDocument] in D. pose proof (parsedTree_node _ D) as N.
  unfold locatedRoot, findReportRoot.
  rewrite getp_parsed by exact D. cbn [bind find].
  destruct (truthy (prop (JObj ps) "INProfileResponse")) eqn:T.
  { split; [reflexivity|]. split; [exact T|].
    apply truthy_parsed; [parsed|exact T]. }
  change ["CreditReport"; "CREDITREPORT"; "ExpCreditReport"; "Report";
          "XMLResponse.CreditReport"; "XMLResponse.Response.CreditReport"]
    with possibleRoots.
  rewrite <- firstTruthyPath_find.
  destruct (firstTruthyPath (JObj ps) possibleRoots) as [r|] eqn:F.
  { destruct (firstTruthyPath_parsed (JObj ps) possibleRoots r N eq_refl F)
      as [P Tr].
    split; [reflexivity|]. split; [exact Tr|].
    apply truthy_parsed; assumption. }
  assert (Dk : distinct (map fst ps) = true).
  { cbn [parsedTree] in D. apply andb_true_iff in D as [_ D]. exact D. }
  cbn [keys].
  rewrite (firstObjectValue_find ps ps (distinct_lookup ps Dk)).
  destruct (find isObjectType (values ps)) as [r|] eqn:O; [|reflexivity].
  split; [reflexivity|].
  rewrite <- (firstObjectValue_find ps ps (distinct_lookup ps Dk)) in O.
  destruct (firstObjectValue_parsed ps _ r D (incl_refl _) O) as [P Tr].
  split; assumption.
Qed.

Section OnRoot.

Variable hostDateParse : string -> jsdate.

(** With a root, the transformation returns what the four extractors
    return on it. *)
Lemma transform_on_root doc root w :
  findReportRoot doc = Ok root -> truthy root = true ->
  parsedTree root = true ->
  exists bd rs accounts enquiries w',
    extractBasicDetails hostDateParse root = Ok bd /\
    extractReportSummary root = Ok rs /\
    extractCreditAccounts hostDateParse root = Ok accounts /\
    extractEnquiries hostDateParse root w = Ok (enquiries, w') /\
    transformCreditReportData hostDateParse doc w =
    Ok ({| TransformedReport.basicDetails := bd;
           TransformedReport.reportSummary := rs;
           TransformedReport.creditAccounts := accounts;
           TransformedReport.enquiries := enquiries;
           TransformedReport.reportDate := fst (newDateNow w') |},
        snd (newDateNow w')).
Proof.
  intros F T P.
  destruct (extractBasicDetails_returns hostDateParse root P) as [bd Ebd].
  destruct (extractReportSummary_returns root P) as [rs Ers].
  destruct (extractCreditAccounts_returns hostDateParse root P) as [ca Eca].
  destruct (extractEnquiries_returns hostDateParse root w P)
    as [[enq w'] Eenq].
  exists bd, rs, ca, enq, w'. repeat split; try assumption.
  unfold transformCreditReportData, transformBody.
  rewrite F. cbn [bind]. rewrite T. cbn [negb].
  rewrite Ebd, Ers, Eca, Eenq. reflexivity.
Qed.

Lemma transform_without_root doc w :
  findReportRoot doc = Ok JNull ->
  transformCreditReportData hostDateParse doc w =
  Throw (Error
    "Data transformation failed: Could not find credit report data in XML").
Proof.
  intros F. unfold transformCreditReportData, transformBody.
  rewrite F. reflexivity.
Qed.

End OnRoot.

(** ** Defaults *)

Lemma fold_undefined ks :
  fold_left
    (fun current key =>
       if truthy current && negb (isUndefined (prop current key))
       then prop current key else JUndefined) ks JUndefined = JUndefined.
Proof. induction ks as [|k ks IH]; [reflexivity|exact IH]. Qed.

Lemma getNestedValue_absent v path k rest :
  Str.split "."%char path = k :: rest -> prop v k = JUndefined ->
  getNestedValue v path = JUndefined.
Proof.
  intros S P. unfold getNestedValue. rewrite S. cbn [fold_left].
  rewrite P. cbn [isUndefined negb]. rewrite andb_false_r.
  apply fold_undefined.
Qed.

Ltac absent B :=
  repeat match goal with
  | |- context [getNestedValue ?v ?p] =>
      rewrite (getNestedValue_absent v p _ _ eq_refl)
        by (apply B; cbn; tauto)
  end.

Section Defaults.

Variable hostDateParse : string -> jsdate.





End Defaults.

(** *** Group by group *)



Lemma falsy_not_block v : truthy v = false -> isBlock v = false.
Proof. destruct v; cbn; congruence. Qed.



Section GroupDefaults.

Variable hostDateParse : string -> jsdate.












(** A root with none of the sections offers nothing to any group. *)
Lemma bare_offers_nothing root :
  bare root ->
  noIdentity root /\ noSummary root /\ noAccounts root /\ noEnquiries root.
Proof.
  intros B.
  assert (A : forall k, In k rootSections -> prop root k = JUndefined)
    by exact B.
  unfold noIdentity, noSummary, noAccounts, noEnquiries, firstRecord,
    accountDetailsOf, caisSummaryOf.
  rewrite !A by (cbn; tauto).
  cbn -[getNestedValue]. absent B.
  repeat split; reflexivity.
Qed.

End GroupDefaults.

(** ** Failure semantics *)



(** ** Root not found *)

Lemma In_lookup k ps x : lookup k ps = Some x -> In k (map fst ps).
Proof. intros L. apply lookup_In in L. exact (in_map fst _ _ L). Qed.

Lemma no_indicator_key ps n :
  hasExperianRoot (map fst ps) = false ->
  hasExperianRoot [n] = true ->
  prop (JObj ps) n = inherited n.
Proof.
  intros H Hn. cbn [prop]. destruct (lookup n ps) as [x|] eqn:L; [|reflexivity].
  exfalso. apply In_lookup in L.
  cbn [hasExperianRoot existsb] in Hn. rewrite orb_false_r in Hn.
  unfold hasExperianRoot in H.
  assert (E : existsb
                (fun key =>
                   existsb
                     (fun indicator =>
                        Str.includes (Str.toLowerCase key)
                                     (Str.toLowerCase indicator))
                     experianIndicators) (map fst ps) = true).
  { apply existsb_exists. exists n. split; assumption. }
  congruence.
Qed.

Lemma firstObjectValue_none ps ks :
  forallb (fun kv => negb (isObjectType (snd kv))) ps = true ->
  incl ks (map fst ps) ->
  firstObjectValue (JObj ps) ks = None.
Proof.
  intros H. induction ks as [|k ks IH]; intros I; [reflexivity|].
  cbn [firstObjectValue prop].
  destruct (lookup_key ps k (I k (or_introl eq_refl))) as [x L].
  rewrite L. apply lookup_In in L. rewrite forallb_forall in H.
  specialize (H _ L). cbn [snd] in H.
  apply negb_true_iff in H. rewrite H.
  apply IH. intros k' Hk'. apply I. right. exact Hk'.
Qed.

(** Without an indicator among its keys a document has neither the
    primary root nor any of the fallback paths. *)
Lemma no_indicator_named ps :
  hasExperianRoot (map fst ps) = false ->
  find truthy
    (prop (JObj ps) "INProfileResponse" ::
     map (getNestedValue (JObj ps))
         ["CreditReport"; "CREDITREPORT"; "ExpCreditReport"; "Report";
          "XMLResponse.CreditReport"; "XMLResponse.Response.CreditReport"])
  = None.
Proof.
  intros H. cbn [map find].
  rewrite (no_indicator_key ps "INProfileResponse" H eq_refl).
  rewrite (getNestedValue_absent _ "CreditReport" "CreditReport" []),
    (getNestedValue_absent _ "CREDITREPORT" "CREDITREPORT" []),
    (getNestedValue_absent _ "ExpCreditReport" "ExpCreditReport" []),
    (getNestedValue_absent _ "Report" "Report" []),
    (getNestedValue_absent _ "XMLResponse.CreditReport" "XMLResponse"
       ["CreditReport"]),
    (getNestedValue_absent _ "XMLResponse.Response.CreditReport"
       "XMLResponse" ["Response"; "CreditReport"]);
    try reflexivity;
    try (match goal with
         | |- prop _ ?n = _ => rewrite (no_indicator_key ps n H eq_refl)
         end; reflexivity).
Qed.

(** C2, as stated, fails: the keys of [{ Foo: {} }] contain no indicator,
    yet the object under [Foo] is taken as the report root and the
    transformation returns. *)
Lemma root_not_found_counterexample :
  ~ (forall (hostDateParse : string -> jsdate) (doc : jsval) (w : world),
       parsedDocument doc = true ->
       hasExperianRoot (keys doc) = false ->
       exists e, transformCreditReportData hostDateParse doc w = Throw e).
Proof.
  intros H.
  destruct (H noHostDates (JObj [("Foo", JObj [])]) sampleWorld
              eq_refl eq_refl) as [e E].
  vm_compute in E. discriminate E.
Qed.

(** C2, amended. Take a document none of whose top-level keys contains an
    indicator. When none of its top-level members is an object or an array
    it has no report root, and [transformCreditReportData] raises the
    not-found error. When one is, and the document is a parsed one, the
    first such member is taken as the report root and the transformation
    returns the report the four extractors build from it. *)
Theorem root_not_found :
  forall (hostDateParse : string -> jsdate)
         (props : list (string * jsval)) (w : world),
    hasExperianRoot (keys (JObj props)) = false ->
    (forallb (fun kv => negb (isObjectType (snd kv))) props = true ->
     findReportRoot (JObj props) = Ok JNull /\
     transformCreditReportData hostDateParse (JObj props) w =
     Throw (Error
       "Data transformation failed: Could not find credit report data in XML"))
    /\
    (forall root : jsval,
       parsedDocument (JObj props) = true ->
       find isObjectType (values props) = Some root ->
       findReportRoot (JObj props) = Ok root /\
       exists (report : TransformedReport.t) (w1 w' : world),
         transformCreditReportData hostDateParse (JObj props) w =
           Ok (report, w') /\
         extractBasicDetails hostDateParse root =
           Ok (TransformedReport.basicDetails report) /\
         extractReportSummary root =
           Ok (TransformedReport.reportSummary report) /\
         extractCreditAccounts hostDateParse root =
           Ok (TransformedReport.creditAccounts report) /\
         extractEnquiries hostDateParse root w =
           Ok (TransformedReport.enquiries report, w1)).
Proof.
  intros host ps w H. cbn [keys] in H. split.
  - intros O.
    assert (F : findReportRoot (JObj ps) = Ok JNull).
    { unfold findReportRoot, getp. cbn [nullish bind].
      pose proof (no_indicator_named ps H) as Nn. cbn [find] in Nn.
      destruct (truthy (prop (JObj ps) "INProfileResponse"));
        [discriminate Nn|].
      rewrite firstTruthyPath_find. unfold possibleRoots. rewrite Nn.
      cbn [keys].
      rewrite (firstObjectValue_none ps _ O (incl_refl _)). reflexivity. }
    split; [exact F|]. apply transform_without_root, F.
  - intros root D O.
    pose proof (findReportRoot_located (JObj ps) D) as L.
    unfold locatedRoot in L. rewrite (no_indicator_named ps H), O in L.
    destruct L as (F & T & P).
    split; [exact F|].
    destruct (transform_on_root host (JObj ps) root w F T P)
      as (bd & rs & ca & enq & w1 & Ebd & Ers & Eca & Eenq & E).
    eexists. exists w1. eexists. split; [exact E|].
    repeat split; assumption.
Qed.

(** C2, amended, at [{ Foo: "x", Bar: 1 }], which has no root, and at
    [{ Foo: "x", Bar: {} }], whose root is the empty object under
    [Bar]. *)
Lemma root_not_found_witness :
  transformCreditReportData noHostDates
    (JObj [("Foo", JStr "x"); ("Bar", JNum Num.one)]) sampleWorld =
  Throw (Error
    "Data transformation failed: Could not find credit report data in XML") /\
  findReportRoot (JObj [("Foo", JStr "x"); ("Bar", JObj [])]) = Ok (JObj []) /\
  returns (transformCreditReportData noHostDates
             (JObj [("Foo", JStr "x"); ("Bar", JObj [])]) sampleWorld).
Proof.
  split.
  - exact (proj2 (proj1 (root_not_found noHostDates
                           [("Foo", JStr "x"); ("Bar", JNum Num.one)]
                           sampleWorld eq_refl) eq_refl)).
  - destruct (proj2 (root_not_found noHostDates
                       [("Foo", JStr "x"); ("Bar", JObj [])]
                       sampleWorld eq_refl) (JObj []) eq_refl eq_refl)
      as (F & report & w1 & w' & E & _).
    split; [exact F|]. exists (report, w'). exact E.
Defined.

(** ** Enquiries *)

Lemma falsy_member v k :
  truthy v = false -> plainKey k = true -> truthy (prop v k) = false.
Proof.
  intros T K. rewrite plainKey_prop; [reflexivity|exact K|].
  intros ps ->. discriminate T.
Qed.

Lemma falsy_prop v k :
  truthy v = false -> plainKey k = true -> getopt v k = JUndefined.
Proof.
  intros T K. unfold getopt. destruct (nullish v); [reflexivity|].
  apply plainKey_prop; [exact K|]. intros ps ->. discriminate T.
Qed.

Lemma falsy_counters v :
  truthy v = false ->
  extractNumber (prop v "CAPSLast90Days") = Ok Num.zero /\
  extractNumber (prop v "CAPSLast30Days") = Ok Num.zero /\
  extractNumber (prop v "CAPSLast7Days") = Ok Num.zero.
Proof.
  intros T. destruct v; cbn in T; try discriminate; repeat split; reflexivity.
Qed.

(** What [extractEnquiries] returns, by the 90-day counter. *)
Lemma extractEnquiries_cases hostDateParse root w n90 n30 n7 :
  parsedTree root = true ->
  capsCounters root = Ok (n90, n30, n7) ->
  extractEnquiries hostDateParse root w =
  if Num.gtb n90 Num.zero
  then Ok ([ {| Enquiry.institution := "Various Institutions";
                Enquiry.date := Some (fst (newDateNow w));
                Enquiry.amount := Num.zero;
                Enquiry.purpose := purposeText n90 n30 n7 |} ],
           snd (newDateNow w))
  else
    if truthy (findValueFromPaths root enquiriesPaths)
    then mapped <- mapM (mapLegacyEnquiry hostDateParse)
                        (asArray (findValueFromPaths root enquiriesPaths)) ;;
         Ok (mapped, w)
    else Ok ([], w).
Proof.
  intros P E. pose proof (parsedTree_node _ P) as N.
  unfold capsCounters in E. cbv zeta in E.
  set (caps := prop root "CAPS") in *.
  set (capsSummary := getopt caps "CAPS_Summary") in *.
  destruct (extractNumber (prop capsSummary "CAPSLast90Days")) as [x90|] eqn:E90;
    [|discriminate E]. cbn [bind] in E.
  destruct (extractNumber (prop capsSummary "CAPSLast30Days")) as [x30|] eqn:E30;
    [|discriminate E]. cbn [bind] in E.
  destruct (extractNumber (prop capsSummary "CAPSLast7Days")) as [x7|] eqn:E7;
    [|discriminate E]. cbn [bind] in E.
  injection E as <- <- <-.
  unfold extractEnquiries.
  rewrite getp_parsed by exact P. cbn [bind]. fold caps.
  destruct (truthy caps) eqn:Tc.
  - assert (Sm : capsSummary = prop caps "CAPS_Summary").
    { subst capsSummary. unfold getopt.
      rewrite (truthy_not_nullish _ Tc). reflexivity. }
    rewrite <- Sm. destruct (truthy capsSummary) eqn:Ts.
    + unfold fromCapsSummary. rewrite E90, E30, E7. cbn [bind].
      destruct (Num.gtb (Num.or_zero x90) Num.zero); reflexivity.
    + destruct (falsy_counters capsSummary Ts) as (Z90 & _ & _).
      rewrite Z90 in E90. injection E90 as <-. reflexivity.
  - assert (Sm : capsSummary = JUndefined)
      by (subst capsSummary; apply falsy_prop; [exact Tc|reflexivity]).
    rewrite Sm in E90. cbn in E90. injection E90 as <-. reflexivity.
Qed.

Lemma capsCounters_returns root :
  parsedTree root = true -> returns (capsCounters root).
Proof.
  intros P. pose proof (parsedTree_node _ P) as N.
  unfold capsCounters. returning.
Qed.

Lemma gtb_of_Z a :
  0 < a < 2 ^ Num.prec -> Num.gtb (Num.of_Z a) Num.zero = true.
Proof.
  intros [L U]. destruct a as [|p|p]; try lia.
  rewrite of_Z_pos by exact U. reflexivity.
Qed.

(** C8. The three CAPS counters of a parsed report root are read without
    raising; a missing block reads as zeros. When the 90-day counter is
    positive, [extractEnquiries] returns exactly one enquiry: institution
    "Various Institutions", the clock reading as date, amount 0, and as
    purpose the three counters written into "N enquiries in last 90 days
    (N in last 30 days, N in last 7 days)", as their decimal numerals when
    they are whole numbers (below [10^15]). When it is zero or absent, the
    collection at the first of the paths [Enquiries], [CreditEnquiries] and
    [InquiryInfo] that holds a value is mapped entry by entry, a bare node
    as one entry, and there are no enquiries when it is missing or empty;
    the clock is not read then. For the counters "2", "1" and "0" the
    purpose is "2 enquiries in last 90 days (1 in last 30 days, 0 in last
    7 days)". *)
Theorem enquiry_synthesis :
  forall (hostDateParse : string -> jsdate) (root : jsval) (w : world),
    parsedTree root = true ->
    exists n90 n30 n7,
      capsCounters root = Ok (n90, n30, n7) /\
      (Num.gtb n90 Num.zero = true ->
       extractEnquiries hostDateParse root w =
       Ok ([ {| Enquiry.institution := "Various Institutions";
                Enquiry.date := Some (fst (newDateNow w));
                Enquiry.amount := Num.zero;
                Enquiry.purpose :=
                  Num.toString n90 ++ " enquiries in last 90 days (" ++
                  Num.toString n30 ++ " in last 30 days, " ++
                  Num.toString n7 ++ " in last 7 days)" |} ],
           snd (newDateNow w))) /\
      (Num.gtb n90 Num.zero = false ->
       forall data,
         data = findValueFromPaths root
                  ["Enquiries"; "CreditEnquiries"; "InquiryInfo"] ->
         (truthy data = true ->
          exists mapped,
            mapM (mapLegacyEnquiry hostDateParse) (asArray data) = Ok mapped /\
            List.length mapped = List.length (asArray data) /\
            extractEnquiries hostDateParse root w = Ok (mapped, w)) /\
         (truthy data = false ->
          extractEnquiries hostDateParse root w = Ok ([], w))) /\
      (forall a b c : Z,
         n90 = Num.of_Z a -> n30 = Num.of_Z b -> n7 = Num.of_Z c ->
         0 < a < 10 ^ 15 -> 0 <= b < 10 ^ 15 -> 0 <= c < 10 ^ 15 ->
         extractEnquiries hostDateParse root w =
         Ok ([ {| Enquiry.institution := "Various Institutions";
                  Enquiry.date := Some (fst (newDateNow w));
                  Enquiry.amount := Num.zero;
                  Enquiry.purpose :=
                    Str.of_N (Z.to_N a) ++ " enquiries in last 90 days (" ++
                    Str.of_N (Z.to_N b) ++ " in last 30 days, " ++
                    Str.of_N (Z.to_N c) ++ " in last 7 days)" |} ],
             snd (newDateNow w))) /\
      (root = prop capsExample "INProfileResponse" ->
       Num.gtb n90 Num.zero = true /\
       Num.toString n90 ++ " enquiries in last 90 days (" ++
       Num.toString n30 ++ " in last 30 days, " ++
       Num.toString n7 ++ " in last 7 days)" =
         "2 enquiries in last 90 days (1 in last 30 days, 0 in last 7 days)" /\
       Str.includes
         (Num.toString n90 ++ " enquiries in last 90 days (" ++
          Num.toString n30 ++ " in last 30 days, " ++
          Num.toString n7 ++ " in last 7 days)")
         "2 enquiries in last 90 days" = true).
Proof.
  intros host root w P.
  destruct (capsCounters_returns root P) as [[[n90 n30] n7] Ec].
  exists n90, n30, n7. split; [exact Ec|].
  pose proof (extractEnquiries_cases host root w n90 n30 n7 P Ec) as X.
  split; [|split; [|split]].
  - intros G. rewrite X, G. reflexivity.
  - intros G data ->. rewrite G in X.
    change enquiriesPaths with ["Enquiries"; "CreditEnquiries"; "InquiryInfo"]
      in X.
    split; intros T; rewrite T in X; [|exact X].
    destruct (mapM (mapLegacyEnquiry host)
                (asArray (findValueFromPaths root
                            ["Enquiries"; "CreditEnquiries"; "InquiryInfo"])))
      as [mapped|e] eqn:Em.
    + exists mapped. split; [reflexivity|].
      split; [exact (mapM_length _ _ _ Em)|exact X].
    + exfalso.
      destruct (extractEnquiries_returns host root w P) as [r Er].
      rewrite Er in X. discriminate X.
  - intros a b c -> -> -> Ha Hb Hc.
    rewrite X, gtb_of_Z by (unfold Num.prec; lia).
    unfold purposeText. rewrite !toString_of_Z by lia. reflexivity.
  - intros ->. vm_compute in Ec. injection Ec as <- <- <-.
    repeat split; vm_compute; reflexivity.
Qed.

(** C8 at the report root of the example document, and at a legacy root
    with one enquiry. *)
Lemma enquiry_synthesis_witness :
  extractEnquiries noHostDates (prop capsExample "INProfileResponse")
    sampleWorld =
  Ok ([ {| Enquiry.institution := "Various Institutions";
           Enquiry.date := Some (DateAt 0);
           Enquiry.amount := Num.zero;
           Enquiry.purpose :=
             "2 enquiries in last 90 days (1 in last 30 days, 0 in last 7 days)"
        |} ],
      snd (newDateNow sampleWorld)) /\
  extractEnquiries noHostDates legacyEnquiryRoot sampleWorld =
  Ok ([ {| Enquiry.institution := "HDFC Bank";
           Enquiry.date := None;
           Enquiry.amount := Num.of_Z 50000;
           Enquiry.purpose := "Home loan" |} ], sampleWorld).
Proof.
  split.
  - destruct (enquiry_synthesis noHostDates
                (prop capsExample "INProfileResponse") sampleWorld eq_refl)
      as (n90 & n30 & n7 & _ & S & _ & _ & X).
    destruct (X eq_refl) as (G & Ep & _).
    rewrite (S G), Ep. reflexivity.
  - destruct (enquiry_synthesis noHostDates legacyEnquiryRoot sampleWorld
                eq_refl) as (n90 & n30 & n7 & Ec & _ & L & _).
    assert (G : Num.gtb n90 Num.zero = false)
      by (vm_compute in Ec; injection Ec as <- _ _; reflexivity).
    destruct (L G _ eq_refl) as (Lt & _).
    destruct (Lt eq_refl) as (mapped & Em & _ & E).
    rewrite E. vm_compute in Em. injection Em as <-. reflexivity.
Defined.

(** ** Idempotence *)

Section Idempotence.

Variable hostDateParse : string -> jsdate.

(** Two runs of [extractEnquiries] under different clocks agree, or both
    return the synthesized enquiry, each with its own clock reading. *)
Lemma extractEnquiries_clock root w w' :
  (forall e, extractEnquiries hostDateParse root w = Throw e ->
             extractEnquiries hostDateParse root w' = Throw e) /\
  (forall l w1, extractEnquiries hostDateParse root w = Ok (l, w1) ->
     exists l' w2,
       extractEnquiries hostDateParse root w' = Ok (l', w2) /\
       ((l' = l /\ w1 = w /\ w2 = w') \/
        exists p, l = [synthesized (fst (newDateNow w)) p] /\
                  l' = [synthesized (fst (newDateNow w')) p] /\
                  w1 = snd (newDateNow w) /\ w2 = snd (newDateNow w'))).
Proof.
  unfold extractEnquiries.
  destruct (getp root "CAPS") as [caps|e0]; cbn [bind];
    [|split; [intros e H; exact H|intros l w1 H; discriminate H]].
  assert (L : forall v : world,
            (let enquiriesData := findValueFromPaths root enquiriesPaths in
             if truthy enquiriesData
             then mapped <- mapM (mapLegacyEnquiry hostDateParse)
                              (asArray enquiriesData) ;; Ok (mapped, v)
             else Ok ([], v)) =
            (l <- legacyEnquiries hostDateParse root ;; Ok (l, v))).
  { intros v. unfold legacyEnquiries. cbv zeta.
    destruct (truthy (findValueFromPaths root enquiriesPaths)); reflexivity. }
  assert (Legacy :
    (forall e, (l <- legacyEnquiries hostDateParse root ;; Ok (l, w)) = Throw e ->
               (l <- legacyEnquiries hostDateParse root ;; Ok (l, w')) = Throw e) /\
    (forall l w1, (l <- legacyEnquiries hostDateParse root ;; Ok (l, w)) = Ok (l, w1) ->
       exists l' w2,
         (l <- legacyEnquiries hostDateParse root ;; Ok (l, w')) = Ok (l', w2) /\
         ((l' = l /\ w1 = w /\ w2 = w') \/
          exists p, l = [synthesized (fst (newDateNow w)) p] /\
                    l' = [synthesized (fst (newDateNow w')) p] /\
                    w1 = snd (newDateNow w) /\ w2 = snd (newDateNow w')))).
  { destruct (legacyEnquiries hostDateParse root) as [l0|e0]; cbn [bind]; split.
    - intros e H. discriminate H.
    - intros l w1 [= <- <-]. exists l0, w'. split; [reflexivity|].
      left. repeat split.
    - intros e H. exact H.
    - intros l w1 H. discriminate H. }
  assert (Empty : forall v : world,
    (let '(enquiries, w0) := (@nil Enquiry.t, v) in
     if (List.length enquiries =? 0)%nat
     then
       let enquiriesData := findValueFromPaths root enquiriesPaths in
       if truthy enquiriesData
       then mapped <- mapM (mapLegacyEnquiry hostDateParse)
                        (asArray enquiriesData) ;; Ok (mapped, w0)
       else Ok (enquiries, w0)
     else Ok (enquiries, w0)) =
    (l <- legacyEnquiries hostDateParse root ;; Ok (l, v))).
  { intros v. cbn [List.length Nat.eqb]. apply L. }
  destruct (truthy caps); cbn [bind];
    [|rewrite !Empty; exact Legacy].
  destruct (truthy (prop caps "CAPS_Summary")); cbn [bind];
    [|rewrite !Empty; exact Legacy].
  unfold fromCapsSummary.
  destruct (extractNumber (prop (prop caps "CAPS_Summary") "CAPSLast90Days"))
    as [n90|e0]; cbn [bind];
    [|split; [intros e H; exact H|intros l w1 H; discriminate H]].
  destruct (extractNumber (prop (prop caps "CAPS_Summary") "CAPSLast30Days"))
    as [n30|e0]; cbn [bind];
    [|split; [intros e H; exact H|intros l w1 H; discriminate H]].
  destruct (extractNumber (prop (prop caps "CAPS_Summary") "CAPSLast7Days"))
    as [n7|e0]; cbn [bind];
    [|split; [intros e H; exact H|intros l w1 H; discriminate H]].
  destruct (Num.gtb (Num.or_zero n90) Num.zero); cbn [bind];
    [|rewrite !Empty; exact Legacy].
  split; [intros e H; discriminate H|].
  intros l w1 H. cbn in H. injection H as <- <-.
  eexists. eexists. split; [reflexivity|]. right.
  eexists. repeat split.
Qed.

(** C7, amended. Two calls on the same document under any two clocks
    raise the same error, or return results with identical basicDetails,
    reportSummary and creditAccounts, and with enquiries that are identical
    or are, in both, the one synthesized enquiry carrying the clock reading
    of its own call as date. *)
Theorem transform_idempotent_up_to_clock :
  forall (doc : jsval) (w w' : world),
    (forall e, transformCreditReportData hostDateParse doc w = Throw e ->
               transformCreditReportData hostDateParse doc w' = Throw e) /\
    (forall r1 w1,
       transformCreditReportData hostDateParse doc w = Ok (r1, w1) ->
       exists r2 w2,
         transformCreditReportData hostDateParse doc w' = Ok (r2, w2) /\
         TransformedReport.basicDetails r2 = TransformedReport.basicDetails r1 /\
         TransformedReport.reportSummary r2 = TransformedReport.reportSummary r1 /\
         TransformedReport.creditAccounts r2 = TransformedReport.creditAccounts r1 /\
         (TransformedReport.enquiries r2 = TransformedReport.enquiries r1 \/
          exists p,
            TransformedReport.enquiries r1 = [synthesized (fst (newDateNow w)) p] /\
            TransformedReport.enquiries r2 = [synthesized (fst (newDateNow w')) p])).
Proof.
  intros doc w w'. unfold transformCreditReportData, transformBody.
  destruct (findReportRoot doc) as [root|e0]; cbn [bind];
    [|split; [intros e H; exact H|intros r1 w1 H; discriminate H]].
  destruct (negb (truthy root));
    [split; [intros e H; exact H|intros r1 w1 H; discriminate H]|].
  destruct (extractBasicDetails hostDateParse root) as [bd|e0]; cbn [bind];
    [|split; [intros e H; exact H|intros r1 w1 H; discriminate H]].
  destruct (extractReportSummary root) as [rs|e0]; cbn [bind];
    [|split; [intros e H; exact H|intros r1 w1 H; discriminate H]].
  destruct (extractCreditAccounts hostDateParse root) as [ca|e0]; cbn [bind];
    [|split; [intros e H; exact H|intros r1 w1 H; discriminate H]].
  destruct (extractEnquiries_clock root w w') as [HT HO].
  destruct (extractEnquiries hostDateParse root w) as [[l v]|e0] eqn:E;
    cbn [bind].
  - destruct (HO l v eq_refl) as (l' & v' & E' & R). rewrite E'. cbn [bind].
    split; [intros e H; discriminate H|].
    intros r1 w1 H. cbn in H. injection H as <- <-.
    eexists. eexists. split; [reflexivity|]. cbn.
    repeat split.
    destruct R as [(-> & _)|(p & -> & -> & _)]; [left; reflexivity|].
    right. exists p. split; reflexivity.
  - rewrite (HT e0 eq_refl). cbn [bind].
    split; [intros e H; exact H|intros r1 w1 H; discriminate H].
Qed.

End Idempotence.

(** C7, as stated, fails: the synthesized enquiry is dated by the clock, so
    a second call on the example document returns a different enquiry. *)
Lemma transform_idempotent_counterexample :
  ~ (forall (hostDateParse : string -> jsdate) (doc : jsval)
            (w w1 w2 : world) (r1 r2 : TransformedReport.t),
       transformCreditReportData hostDateParse doc w = Ok (r1, w1) ->
       transformCreditReportData hostDateParse doc w1 = Ok (r2, w2) ->
       TransformedReport.basicDetails r1 = TransformedReport.basicDetails r2 /\
       TransformedReport.reportSummary r1 = TransformedReport.reportSummary r2 /\
       TransformedReport.creditAccounts r1 = TransformedReport.creditAccounts r2 /\
       TransformedReport.enquiries r1 = TransformedReport.enquiries r2).
Proof.
  intros H.
  destruct (transformCreditReportData noHostDates capsExample sampleWorld)
    as [[r1 w1]|e] eqn:E1; [|vm_compute in E1; discriminate E1].
  destruct (transformCreditReportData noHostDates capsExample w1)
    as [[r2 w2]|e] eqn:E2.
  - destruct (H _ _ _ _ _ _ _ E1 E2) as (_ & _ & _ & He).
    vm_compute in E1. injection E1 as <- <-.
    vm_compute in E2. injection E2 as <- _.
    cbn in He. discriminate He.
  - vm_compute in E1. injection E1 as <- <-.
    vm_compute in E2. discriminate E2.
Qed.

(** C7, amended, on the example document read at two different times. *)
Lemma transform_idempotent_up_to_clock_witness :
  exists r1 w1 r2 w2,
    transformCreditReportData noHostDates capsExample sampleWorld = Ok (r1, w1) /\
    transformCreditReportData noHostDates capsExample w1 = Ok (r2, w2) /\
    TransformedReport.reportSummary r2 = TransformedReport.reportSummary r1.
Proof.
  destruct (transformCreditReportData noHostDates capsExample sampleWorld)
    as [[r1 w1]|e] eqn:E1; [|vm_compute in E1; discriminate E1].
  destruct (proj2 (transform_idempotent_up_to_clock noHostDates capsExample
                     sampleWorld w1) r1 w1 E1)
    as (r2 & w2 & E2 & _ & S & _).
  exists r1, w1, r2, w2. repeat split; assumption.
Defined.

(** ** Singular and plural collections *)

Lemma wrapEq_truthy a b : wrapEq a b -> truthy b = truthy a.
Proof. intros [->|(-> & T & _)]; [reflexivity|]. rewrite T. reflexivity. Qed.

Lemma wrapEq_asArray a b : wrapEq a b -> asArray b = asArray a.
Proof.
  intros [->|(-> & _ & A)]; [reflexivity|].
  destruct a; cbn in A; try discriminate; reflexivity.
Qed.

Lemma wrapEq_first a b :
  wrapEq a b ->
  (if isArray b then first b else b) = (if isArray a then first a else a).
Proof.
  intros [->|(-> & _ & A)]; [reflexivity|]. rewrite A. reflexivity.
Qed.

Section Congruence.

Variable hostDateParse : string -> jsdate.
Variables r r' : jsval.
Hypothesis S : sameCollections r r'.

Lemma same_getp k :
  In k ["Current_Application"; "SCORE"; "CAPS"] -> getp r' k = getp r k.
Proof.
  destruct S as (N & N' & P & _). intros K. unfold getp.
  rewrite N, N', (P k K). reflexivity.
Qed.

Lemma same_basicDetails :
  extractBasicDetails hostDateParse r' = extractBasicDetails hostDateParse r.
Proof.
  pose proof S as (N & N' & P & NP & CS & CD & _).
  unfold extractBasicDetails.
  rewrite (same_getp "Current_Application"), (same_getp "SCORE")
    by (cbn; tauto).
  unfold getp at 3 6. rewrite N, N'. cbn [bind].
  unfold fromAccountDetails.
  rewrite (wrapEq_truthy _ _ CD), (wrapEq_first _ _ CD).
  unfold namePaths, findValueFromPaths.
  rewrite !NP by (cbn; tauto). reflexivity.
Qed.

Lemma same_reportSummary : extractReportSummary r' = extractReportSummary r.
Proof.
  pose proof S as (N & N' & P & NP & CS & CD & LA & LE).
  unfold extractReportSummary.
  rewrite (same_getp "CAPS") by (cbn; tauto).
  unfold getp at 1 3. rewrite N, N'. cbn [bind].
  unfold legacySummary.
  rewrite CS, (wrapEq_truthy _ _ CD), (wrapEq_asArray _ _ CD),
    (wrapEq_truthy _ _ LA), (wrapEq_asArray _ _ LA),
    (wrapEq_truthy _ _ LE), (wrapEq_asArray _ _ LE).
  reflexivity.
Qed.

Lemma same_creditAccounts :
  extractCreditAccounts hostDateParse r' = extractCreditAccounts hostDateParse r.
Proof.
  pose proof S as (N & N' & P & NP & CS & CD & LA & LE).
  unfold extractCreditAccounts, getp. rewrite N, N'. cbn [bind].
  rewrite (wrapEq_truthy _ _ CD), (wrapEq_asArray _ _ CD),
    (wrapEq_truthy _ _ LA), (wrapEq_asArray _ _ LA).
  reflexivity.
Qed.

Lemma same_enquiries w :
  extractEnquiries hostDateParse r' w = extractEnquiries hostDateParse r w.
Proof.
  pose proof S as (N & N' & P & NP & CS & CD & LA & LE).
  unfold extractEnquiries.
  rewrite (same_getp "CAPS") by (cbn; tauto).
  rewrite (wrapEq_truthy _ _ LE), (wrapEq_asArray _ _ LE).
  reflexivity.
Qed.

End Congruence.

Lemma lookup_replaceAt h f ps k :
  lookup k (map (replaceAt h f) ps) =
  if String.eqb k f then option_map h (lookup k ps) else lookup k ps.
Proof.
  induction ps as [|[k' v] ps IH]; cbn [map lookup].
  - destruct (String.eqb k f); reflexivity.
  - unfold replaceAt at 1. cbn [fst snd].
    destruct (String.eqb_spec f k') as [Ef|Nf]; cbn [lookup fst snd];
      destruct (String.eqb_spec k k') as [Ek|Nk]; try exact IH.
    + rewrite Ek, <- Ef, String.eqb_refl. reflexivity.
    + destruct (String.eqb_spec k f) as [E|_]; [congruence|reflexivity].
Qed.

Lemma prop_updateAt_other h f rest ps k :
  String.eqb k f = false ->
  prop (updateAt h (f :: rest) (JObj ps)) k = prop (JObj ps) k.
Proof.
  intros N. cbn [updateAt prop].
  change (map _ ps) with (map (replaceAt (updateAt h rest) f) ps).
  rewrite lookup_replaceAt, N. reflexivity.
Qed.

Lemma prop_updateAt_same h f rest ps v :
  lookup f ps = Some v ->
  prop (updateAt h (f :: rest) (JObj ps)) f = updateAt h rest v.
Proof.
  intros L. cbn [updateAt prop].
  change (map _ ps) with (map (replaceAt (updateAt h rest) f) ps).
  rewrite lookup_replaceAt, String.eqb_refl, L. reflexivity.
Qed.

Lemma getNestedValue_congr a b path k rest :
  Str.split "."%char path = k :: rest ->
  truthy b = truthy a -> prop b k = prop a k ->
  getNestedValue b path = getNestedValue a path.
Proof.
  intros Sp T P. unfold getNestedValue. rewrite Sp. cbn [fold_left].
  rewrite T, P. reflexivity.
Qed.

Lemma getNestedValue_single a path :
  Str.split "."%char path = [path] -> truthy a = true ->
  getNestedValue a path = prop a path.
Proof.
  intros Sp T. unfold getNestedValue. rewrite Sp. cbn [fold_left].
  rewrite T. destruct (prop a path); reflexivity.
Qed.

Lemma wrapEq_nullish a b : wrapEq a b -> nullish b = nullish a.
Proof.
  intros [->|(-> & T & _)]; [reflexivity|].
  rewrite (truthy_not_nullish _ T). reflexivity.
Qed.

Lemma find_wrapEq a b ks :
  truthy a = true -> truthy b = true ->
  Forall (fun k => Str.split "."%char k = [k] /\ wrapEq (prop a k) (prop b k))
         ks ->
  wrapEq (findValueFromPaths a ks) (findValueFromPaths b ks).
Proof.
  intros Ta Tb. induction 1 as [|k ks [Sp W] _ IH]; [left; reflexivity|].
  cbn [findValueFromPaths].
  rewrite !getNestedValue_single by assumption.
  rewrite (wrapEq_nullish _ _ W).
  destruct (nullish (prop a k)); cbn [negb]; assumption.
Qed.

Lemma wrap_field_same f root x :
  existsb (String.eqb f) otherSections = false ->
  Str.split "."%char f = [f] ->
  valueAt [f] root = Some x -> truthy x = true -> isArray x = false ->
  sameCollections root (wrapAt [f] root).
Proof.
  intros Other Single V T A.
  destruct root as [| |b|n|s|l|ps|g]; try discriminate V.
  cbn [valueAt] in V. destruct (lookup f ps) as [v|] eqn:L; [|discriminate V].
  injection V as ->. unfold wrapAt.
  assert (Ne : forall k, In k otherSections -> String.eqb k f = false).
  { intros k K. destruct (String.eqb_spec k f) as [->|]; [|reflexivity].
    assert (existsb (String.eqb f) otherSections = true); [|congruence].
    apply existsb_exists. exists f. split; [exact K|apply String.eqb_refl]. }
  assert (W : forall k, Str.split "."%char k = [k] ->
                        Str.split "."%char k = [k] /\
                        wrapEq (prop (JObj ps) k)
                               (prop (updateAt (fun y => JArr [y]) [f] (JObj ps)) k)).
  { intros k Sk. split; [exact Sk|].
    destruct (String.eqb_spec k f) as [->|Nk].
    - right. rewrite (prop_updateAt_same _ _ _ _ _ L).
      cbn [prop updateAt]. rewrite L. repeat split; assumption.
    - left. apply prop_updateAt_other. apply String.eqb_neq. exact Nk. }
  repeat split.
  - intros k K. apply prop_updateAt_other, Ne.
    unfold otherSections. cbn in *. tauto.
  - intros p K. unfold namePaths in K. cbn [In] in K.
    destruct K as [<-|[<-|[<-|[<-|[<-|[]]]]]];
      (eapply getNestedValue_congr;
       [reflexivity|reflexivity|apply prop_updateAt_other, Ne; cbn; tauto]).
  - rewrite prop_updateAt_other by (apply Ne; cbn; tauto). reflexivity.
  - left. rewrite prop_updateAt_other by (apply Ne; cbn; tauto). reflexivity.
  - apply find_wrapEq; try reflexivity.
    unfold accountsPaths.
    repeat (apply Forall_cons; [apply W; reflexivity|]). apply Forall_nil.
  - apply find_wrapEq; try reflexivity.
    unfold enquiriesPaths.
    repeat (apply Forall_cons; [apply W; reflexivity|]). apply Forall_nil.
Qed.

Lemma wrap_details_same root x :
  valueAt ["CAIS_Account"; "CAIS_Account_DETAILS"] root = Some x ->
  truthy x = true -> isArray x = false ->
  sameCollections root
    (wrapAt ["CAIS_Account"; "CAIS_Account_DETAILS"] root).
Proof.
  intros V T A.
  destruct root as [| |b|n|s|l|ps|g]; try discriminate V.
  cbn [valueAt] in V.
  destruct (lookup "CAIS_Account" ps) as [ca|] eqn:L; [|discriminate V].
  destruct ca as [| |b|n|s|l|qs|g]; try discriminate V.
  destruct (lookup "CAIS_Account_DETAILS" qs) as [v|] eqn:L'; [|discriminate V].
  injection V as ->. unfold wrapAt.
  assert (C : prop (updateAt (fun y => JArr [y])
                      ["CAIS_Account"; "CAIS_Account_DETAILS"] (JObj ps))
                   "CAIS_Account" =
              updateAt (fun y => JArr [y]) ["CAIS_Account_DETAILS"] (JObj qs))
    by (apply prop_updateAt_same; exact L).
  assert (C0 : prop (JObj ps) "CAIS_Account" = JObj qs)
    by (cbn [prop]; rewrite L; reflexivity).
  assert (W : forall k, String.eqb k "CAIS_Account" = false ->
                        Str.split "."%char k = [k] ->
                        Str.split "."%char k = [k] /\
                        wrapEq (prop (JObj ps) k)
                               (prop (updateAt (fun y => JArr [y])
                                        ["CAIS_Account"; "CAIS_Account_DETAILS"]
                                        (JObj ps)) k)).
  { intros k Nk Sk. split; [exact Sk|]. left.
    apply prop_updateAt_other. exact Nk. }
  repeat split.
  - intros k K. apply prop_updateAt_other.
    cbn [In] in K. destruct K as [<-|[<-|[<-|[]]]]; reflexivity.
  - intros p K. unfold namePaths in K. cbn [In] in K.
    destruct K as [<-|[<-|[<-|[<-|[<-|[]]]]]];
      (eapply getNestedValue_congr;
       [reflexivity|reflexivity|apply prop_updateAt_other; reflexivity]).
  - rewrite C, C0. unfold getopt.
    replace (nullish (updateAt _ _ _)) with false by reflexivity.
    cbn [nullish]. apply prop_updateAt_other. reflexivity.
  - rewrite C, C0. unfold getopt.
    replace (nullish (updateAt _ _ _)) with false by reflexivity.
    cbn [nullish]. right.
    rewrite (prop_updateAt_same _ _ _ _ _ L').
    cbn [prop updateAt]. rewrite L'. repeat split; assumption.
  - apply find_wrapEq; try reflexivity.
    unfold accountsPaths.
    repeat (apply Forall_cons; [apply W; reflexivity|]). apply Forall_nil.
  - apply find_wrapEq; try reflexivity.
    unfold enquiriesPaths.
    repeat (apply Forall_cons; [apply W; reflexivity|]). apply Forall_nil.
Qed.

Lemma wrapAt_sameCollections path root x :
  In path collectionFields -> valueAt path root = Some x ->
  truthy x = true -> isArray x = false ->
  sameCollections root (wrapAt path root).
Proof.
  intros I V T A. unfold collectionFields in I. cbn [In] in I.
  destruct I as [<-|[<-|[<-|[<-|[<-|[<-|[<-|[<-|[]]]]]]]]];
    first [ exact (wrap_details_same root x V T A)
          | apply (wrap_field_same _ root x); [reflexivity|reflexivity| | |];
            assumption ].
Qed.

(** C3, as stated, fails: an empty account-detail element is the bare
    node [""], which is falsy, so no account is extracted from it, while
    the one-element array [[""]] is truthy and yields one account. *)
Lemma singular_plural_counterexample :
  ~ (forall (hostDateParse : string -> jsdate) (root : jsval)
            (path : list string) (x : jsval),
       In path collectionFields -> valueAt path root = Some x ->
       isArray x = false ->
       extractCreditAccounts hostDateParse (wrapAt path root) =
       extractCreditAccounts hostDateParse root /\
       extractReportSummary (wrapAt path root) = extractReportSummary root).
Proof.
  intros H.
  destruct (H noHostDates emptyDetailsRoot
              ["CAIS_Account"; "CAIS_Account_DETAILS"] (JStr "")
              (or_introl eq_refl) eq_refl eq_refl) as [E _].
  vm_compute in E. discriminate E.
Qed.

(** C3, amended. When a collection field of the report root (the
    account-detail field or one of the legacy account or enquiry fields)
    holds a bare node that is truthy and not an array, wrapping that node
    in a one-element array changes nothing: creditAccounts, enquiries,
    reportSummary and basicDetails are the same, and so is the whole
    result of [transformCreditReportData] for two documents whose roots
    differ only by the wrapping. A bare account-detail node gives exactly
    the one account mapped from it. *)
Theorem singular_plural_equivalence :
  forall (hostDateParse : string -> jsdate) (root : jsval)
         (path : list string) (x : jsval),
    In path collectionFields -> valueAt path root = Some x ->
    isArray x = false -> truthy x = true ->
    extractCreditAccounts hostDateParse (wrapAt path root) =
      extractCreditAccounts hostDateParse root /\
    (forall w, extractEnquiries hostDateParse (wrapAt path root) w =
               extractEnquiries hostDateParse root w) /\
    extractReportSummary (wrapAt path root) = extractReportSummary root /\
    extractBasicDetails hostDateParse (wrapAt path root) =
      extractBasicDetails hostDateParse root /\
    (forall doc doc' w,
       findReportRoot doc = Ok root ->
       findReportRoot doc' = Ok (wrapAt path root) ->
       transformCreditReportData hostDateParse doc' w =
       transformCreditReportData hostDateParse doc w) /\
    (path = ["CAIS_Account"; "CAIS_Account_DETAILS"] ->
     extractCreditAccounts hostDateParse root =
     (a <- mapAccount hostDateParse x ;; Ok [a])).
Proof.
  intros host root path x I V A T.
  pose proof (wrapAt_sameCollections path root x I V T A) as S.
  pose proof (same_creditAccounts host _ _ S) as Eca.
  pose proof (same_enquiries host _ _ S) as Eenq.
  pose proof (same_reportSummary _ _ S) as Ers.
  pose proof (same_basicDetails host _ _ S) as Ebd.
  repeat split; try assumption.
  - intros doc doc' w F F'.
    unfold transformCreditReportData, transformBody.
    rewrite F, F'. cbn [bind].
    destruct S as (N & N' & _).
    assert (Tr : truthy (wrapAt path root) = truthy root).
    { destruct path as [|f rest]; [cbn in I; intuition discriminate|].
      destruct root; try reflexivity; discriminate V. }
    rewrite Tr, Ebd, Ers, Eca, Eenq. reflexivity.
  - intros ->.
    destruct root as [| |b|n|s|l|ps|g]; try discriminate V.
    cbn [valueAt] in V.
    destruct (lookup "CAIS_Account" ps) as [ca|] eqn:L; [|discriminate V].
    destruct ca as [| |b|n|s|l|qs|g]; try discriminate V.
    destruct (lookup "CAIS_Account_DETAILS" qs) as [v|] eqn:L';
      [|discriminate V].
    injection V as ->.
    unfold extractCreditAccounts, getp. cbn [nullish bind prop].
    rewrite L. unfold getopt. cbn [nullish prop]. rewrite L', T.
    replace (asArray x) with [x]
      by (destruct x; cbn in A; try discriminate; reflexivity).
    cbn [mapM]. destruct (mapAccount host x); reflexivity.
Qed.

(** C3, amended, at a root whose account-detail field is one record. *)
Lemma singular_plural_equivalence_witness :
  let record := JObj [("Account_Type", JStr "10"); ("Portfolio_Type", JStr "R");
                      ("Account_Status", JStr "11");
                      ("Current_Balance", JStr "30000")] in
  let root := JObj [("CAIS_Account", JObj [("CAIS_Account_DETAILS", record)])] in
  let path := ["CAIS_Account"; "CAIS_Account_DETAILS"] in
  valueAt path root = Some record /\
  extractCreditAccounts noHostDates (wrapAt path root) =
  extractCreditAccounts noHostDates root.
Proof.
  cbv zeta. split; [reflexivity|].
  exact (proj1 (singular_plural_equivalence noHostDates
                  (JObj [("CAIS_Account",
                          JObj [("CAIS_Account_DETAILS",
                                 JObj [("Account_Type", JStr "10");
                                       ("Portfolio_Type", JStr "R");
                                       ("Account_Status", JStr "11");
                                       ("Current_Balance", JStr "30000")])])])
                  ["CAIS_Account"; "CAIS_Account_DETAILS"]
                  (JObj [("Account_Type", JStr "10");
                         ("Portfolio_Type", JStr "R");
                         ("Account_Status", JStr "11");
                         ("Current_Balance", JStr "30000")])
                  (or_introl eq_refl) eq_refl eq_refl eq_refl)).
Defined.

(** ** Summary recomputed from the account records *)

Lemma countAccount_tally s account :
  nullish account = false ->
  countAccount s account = (r <- readAccount account ;; Ok (tally s r)).
Proof.
  intros N. unfold countAccount, readAccount, getp. rewrite N. cbn [bind].
  destruct (extractText (prop account "Account_Status")) as [status|e];
    [|reflexivity].
  cbn [bind].
  destruct (extractNumber (prop account "Current_Balance")) as [balance|e];
    [|reflexivity].
  cbn [bind].
  destruct (extractText (prop account "Portfolio_Type")) as [pt|e];
    [|reflexivity].
  cbn [bind tally]. unfold isActiveCode.
  destruct (String.eqb pt "R"); reflexivity.
Qed.

Lemma foldM_tally records : forall s,
  Forall (fun a => nullish a = false) records ->
  foldM countAccount records s =
  (rs <- mapM readAccount records ;; Ok (fold_left tally rs s)).
Proof.
  induction records as [|a records IH]; intros s F; [reflexivity|].
  inversion F as [|? ? Na Fr]; subst.
  cbn [foldM mapM]. rewrite (countAccount_tally s a Na).
  destruct (readAccount a) as [r|e]; [|reflexivity]. cbn [bind].
  rewrite (IH _ Fr).
  destruct (mapM readAccount records) as [rs|e]; reflexivity.
Qed.

Lemma tally_total rs : forall s,
  ReportSummary.totalAccounts (fold_left tally rs s) =
  ReportSummary.totalAccounts s.
Proof.
  induction rs as [|[[st b] pt] rs IH]; intros s; [reflexivity|].
  cbn [fold_left]. rewrite IH. unfold tally.
  destruct (isActiveCode st), (String.eqb st "13"), (String.eqb pt "R");
    reflexivity.
Qed.

Lemma tally_active_iter rs : forall s,
  ReportSummary.activeAccounts (fold_left tally rs s) =
  Nat.iter (countIf (fun r => isActiveCode (statusOf r)) rs) Num.incr
           (ReportSummary.activeAccounts s).
Proof.
  induction rs as [|[[st b] pt] rs IH]; intros s; [reflexivity|].
  cbn [fold_left]. rewrite IH. unfold countIf. cbn [List.filter statusOf fst].
  unfold tally.
  destruct (isActiveCode st); cbn [List.length].
  - rewrite Nat.iter_succ_r.
    destruct (String.eqb pt "R"); reflexivity.
  - destruct (String.eqb st "13"), (String.eqb pt "R"); reflexivity.
Qed.

Lemma tally_closed_iter rs : forall s,
  ReportSummary.closedAccounts (fold_left tally rs s) =
  Nat.iter (countIf (fun r => String.eqb (statusOf r) "13") rs) Num.incr
           (ReportSummary.closedAccounts s).
Proof.
  induction rs as [|[[st b] pt] rs IH]; intros s; [reflexivity|].
  cbn [fold_left]. rewrite IH. unfold countIf. cbn [List.filter statusOf fst].
  unfold tally.
  destruct (String.eqb_spec st "13") as [->|N].
  - cbn [isActiveCode String.eqb Ascii.eqb Bool.eqb orb List.length].
    rewrite Nat.iter_succ_r.
    destruct (String.eqb pt "R"); reflexivity.
  - destruct (isActiveCode st), (String.eqb pt "R"); reflexivity.
Qed.

Lemma iter_incr_of_Z n : forall z,
  0 <= z -> z + Z.of_nat n < 2 ^ Num.prec ->
  Nat.iter n Num.incr (Num.of_Z z) = Num.of_Z (z + Z.of_nat n).
Proof.
  induction n as [|n IH]; intros z Hz B.
  - cbn. now rewrite Z.add_0_r.
  - rewrite Nat2Z.inj_succ in B. rewrite Nat.iter_succ.
    rewrite IH by lia. rewrite incr_of_Z by lia.
    f_equal. lia.
Qed.

Lemma countIf_le {A} (p : A -> bool) l : (countIf p l <= List.length l)%nat.
Proof. apply filter_length_le. Qed.

Lemma readAccount_returns account :
  parsedNode account = true -> returns (readAccount account).
Proof. intros. unfold readAccount. returning. Qed.

Lemma caisSummary_without_counters cs :
  parsedNode cs = true ->
  truthy (prop cs "Credit_Account") = false ->
  exists s0,
    (if truthy cs then fromCaisSummary cs ReportSummary.zero
     else Ok ReportSummary.zero) = Ok s0 /\
    ReportSummary.totalAccounts s0 = Num.zero /\
    ReportSummary.activeAccounts s0 = Num.zero /\
    ReportSummary.closedAccounts s0 = Num.zero /\
    (truthy cs = false -> s0 = ReportSummary.zero).
Proof.
  intros P C. destruct (truthy cs) eqn:T.
  - unfold fromCaisSummary. rewrite C. cbn [bind].
    destruct (truthy (prop cs "Total_Outstanding_Balance")).
    + destruct (extractNumber_returns
                  (prop (prop cs "Total_Outstanding_Balance")
                        "Outstanding_Balance_Secured")) as [a ->]; [parsed|].
      destruct (extractNumber_returns
                  (prop (prop cs "Total_Outstanding_Balance")
                        "Outstanding_Balance_UnSecured")) as [b ->]; [parsed|].
      destruct (extractNumber_returns
                  (prop (prop cs "Total_Outstanding_Balance")
                        "Outstanding_Balance_All")) as [c ->]; [parsed|].
      cbn [bind]. eexists. split; [reflexivity|].
      repeat split; try reflexivity. discriminate.
    + eexists. split; [reflexivity|]. repeat split; try reflexivity.
  - eexists. split; [reflexivity|]. repeat split; reflexivity.
Qed.

(** The summary of a root without CAIS counters and with account-detail
    records: the records' tally over the initial summary, then the CAPS
    counter. *)
Lemma fallback_shape root :
  parsedTree root = true ->
  truthy (prop (caisSummaryOf root) "Credit_Account") = false ->
  truthy (accountDetailsOf root) = true ->
  asArray (accountDetailsOf root) <> [] ->
  Z.of_nat (List.length (asArray (accountDetailsOf root))) < 2 ^ Num.prec ->
  exists s0 rs q,
    (truthy (caisSummaryOf root) = false -> s0 = ReportSummary.zero) /\
    ReportSummary.totalAccounts s0 = Num.zero /\
    ReportSummary.activeAccounts s0 = Num.zero /\
    ReportSummary.closedAccounts s0 = Num.zero /\
    mapM readAccount (asArray (accountDetailsOf root)) = Ok rs /\
    extractReportSummary root =
    Ok (ReportSummary.setRecentEnquiries q
          (fold_left tally rs
             (ReportSummary.setTotalAccounts
                (Num.of_nat (List.length (asArray (accountDetailsOf root))))
                s0))).
Proof.
  intros P C T NE B. pose proof (parsedTree_node _ P) as N.
  assert (PD : parsedTree (accountDetailsOf root) = true)
    by (apply truthy_parsed; [unfold accountDetailsOf; parsed|exact T]).
  pose proof (asArray_parsed _ PD) as PA.
  destruct (caisSummary_without_counters (caisSummaryOf root))
    as (s0 & E0 & Zt & Za & Zc & Zz);
    [unfold caisSummaryOf; parsed|exact C|].
  destruct (returns_mapM readAccount (fun x => parsedTree x = true)
              (asArray (accountDetailsOf root))) as [rs Ers];
    [intros a Ha; apply readAccount_returns, parsedTree_node, Ha|exact PA|].
  assert (Len : Num.eqb
                  (Num.of_nat (List.length (asArray (accountDetailsOf root))))
                  Num.zero = false).
  { apply eqb_of_Z_zero; [lia|].
    destruct (asArray (accountDetailsOf root)); [congruence|].
    cbn [List.length]. lia. }
  unfold extractReportSummary. cbv zeta.
  rewrite !getp_parsed by exact P. cbn [bind].
  fold (caisSummaryOf root). fold (accountDetailsOf root).
  rewrite E0. cbn [bind]. rewrite T, Zt.
  change (Num.eqb Num.zero Num.zero) with true. cbv iota.
  rewrite foldM_tally
    by (eapply Forall_impl; [|exact PA];
        intros a Ha; apply parsedTree_not_nullish, Ha).
  rewrite Ers. cbn [bind].
  destruct (truthy (getopt (prop root "CAPS") "CAPS_Summary")).
  - destruct (extractNumber_returns
                (prop (getopt (prop root "CAPS") "CAPS_Summary")
                      "CAPSLast90Days")) as [n ->]; [parsed|].
    cbn [bind]. cbn [ReportSummary.totalAccounts ReportSummary.setRecentEnquiries].
    rewrite tally_total. cbn [ReportSummary.totalAccounts ReportSummary.setTotalAccounts].
    rewrite Len.
    exists s0, rs, (Num.or_zero n). repeat split; assumption.
  - cbn [bind]. rewrite tally_total.
    cbn [ReportSummary.totalAccounts ReportSummary.setTotalAccounts].
    rewrite Len.
    exists s0, rs,
      (ReportSummary.recentEnquiries
         (fold_left tally rs
            (ReportSummary.setTotalAccounts
               (Num.of_nat (List.length (asArray (accountDetailsOf root))))
               s0))).
    repeat split; try assumption.
    destruct (fold_left tally rs _); reflexivity.
Qed.

(** What the CAIS block leaves in the summary: the three counters. *)
Lemma caisSummary_counters root :
  parsedTree root = true ->
  exists total active closed s0,
    caisCounters root = Ok (total, active, closed) /\
    (if truthy (caisSummaryOf root)
     then fromCaisSummary (caisSummaryOf root) ReportSummary.zero
     else Ok ReportSummary.zero) = Ok s0 /\
    ReportSummary.totalAccounts s0 = total /\
    ReportSummary.activeAccounts s0 = active /\
    ReportSummary.closedAccounts s0 = closed /\
    (truthy (prop (caisSummaryOf root) "Credit_Account") = false ->
     total = Num.zero /\ active = Num.zero /\ closed = Num.zero).
Proof.
  intros P. pose proof (parsedTree_node _ P) as N.
  assert (PC : parsedNode (caisSummaryOf root) = true)
    by (unfold caisSummaryOf; parsed).
  unfold caisCounters. cbv zeta.
  set (cs := caisSummaryOf root) in *.
  destruct (truthy (prop cs "Credit_Account")) eqn:C.
  - assert (T : truthy cs = true).
    { destruct (truthy cs) eqn:T; [reflexivity|].
      rewrite (falsy_member cs "Credit_Account" T eq_refl) in C. discriminate. }
    rewrite T. unfold fromCaisSummary. rewrite C.
    destruct (extractNumber_returns
                (prop (prop cs "Credit_Account") "CreditAccountTotal"))
      as [t ->]; [parsed|].
    destruct (extractNumber_returns
                (prop (prop cs "Credit_Account") "CreditAccountActive"))
      as [a ->]; [parsed|].
    destruct (extractNumber_returns
                (prop (prop cs "Credit_Account") "CreditAccountClosed"))
      as [c ->]; [parsed|].
    cbn [bind].
    exists (Num.or_zero t), (Num.or_zero a), (Num.or_zero c).
    destruct (truthy (prop cs "Total_Outstanding_Balance")).
    + destruct (extractNumber_returns
                  (prop (prop cs "Total_Outstanding_Balance")
                        "Outstanding_Balance_Secured")) as [x ->]; [parsed|].
      destruct (extractNumber_returns
                  (prop (prop cs "Total_Outstanding_Balance")
                        "Outstanding_Balance_UnSecured")) as [y ->]; [parsed|].
      destruct (extractNumber_returns
                  (prop (prop cs "Total_Outstanding_Balance")
                        "Outstanding_Balance_All")) as [z ->]; [parsed|].
      cbn [bind]. eexists. split; [reflexivity|]. split; [reflexivity|].
      repeat split; discriminate.
    + eexists. split; [reflexivity|]. split; [reflexivity|].
      repeat split; discriminate.
  - rewrite !(plainKey_prop (prop cs "Credit_Account")); try reflexivity;
      try (intros ps E; rewrite E in C; discriminate C).
    cbn [extractNumber extractText truthy negb bind].
    exists Num.zero, Num.zero, Num.zero.
    destruct (caisSummary_without_counters cs PC C)
      as (s0 & E0 & Zt & Za & Zc & _).
    exists s0. split; [reflexivity|]. split; [exact E0|].
    repeat split; assumption.
Qed.

(** The summary of a root whose computed total is 0 and that has
    account-detail records: the records' tally over what the CAIS block
    left, then the CAPS counter. *)
Lemma recount_shape root :
  parsedTree root = true ->
  truthy (accountDetailsOf root) = true ->
  asArray (accountDetailsOf root) <> [] ->
  Z.of_nat (List.length (asArray (accountDetailsOf root))) < 2 ^ Num.prec ->
  exists total active closed s0 rs,
    caisCounters root = Ok (total, active, closed) /\
    ReportSummary.activeAccounts s0 = active /\
    ReportSummary.closedAccounts s0 = closed /\
    (truthy (prop (caisSummaryOf root) "Credit_Account") = false ->
     total = Num.zero /\ active = Num.zero /\ closed = Num.zero) /\
    mapM readAccount (asArray (accountDetailsOf root)) = Ok rs /\
    (Num.eqb total Num.zero = true ->
     exists q,
       extractReportSummary root =
       Ok (ReportSummary.setRecentEnquiries q
             (fold_left tally rs
                (ReportSummary.setTotalAccounts
                   (Num.of_nat (List.length (asArray (accountDetailsOf root))))
                   s0)))).
Proof.
  intros P T NE B. pose proof (parsedTree_node _ P) as N.
  assert (PD : parsedTree (accountDetailsOf root) = true)
    by (apply truthy_parsed; [unfold accountDetailsOf; parsed|exact T]).
  pose proof (asArray_parsed _ PD) as PA.
  destruct (caisSummary_counters root P)
    as (total & active & closed & s0 & Ec & E0 & Ht & Ha & Hc & Hz).
  destruct (returns_mapM readAccount (fun x => parsedTree x = true)
              (asArray (accountDetailsOf root))) as [rs Ers];
    [intros a Ha'; apply readAccount_returns, parsedTree_node, Ha'|exact PA|].
  exists total, active, closed, s0, rs.
  split; [exact Ec|]. split; [exact Ha|]. split; [exact Hc|].
  split; [exact Hz|]. split; [exact Ers|].
  intros Z0.
  assert (Len : Num.eqb
                  (Num.of_nat (List.length (asArray (accountDetailsOf root))))
                  Num.zero = false).
  { apply eqb_of_Z_zero; [lia|].
    destruct (asArray (accountDetailsOf root)); [congruence|].
    cbn [List.length]. lia. }
  unfold extractReportSummary. cbv zeta.
  rewrite !getp_parsed by exact P. cbn [bind].
  fold (caisSummaryOf root). fold (accountDetailsOf root).
  rewrite E0. cbn [bind]. rewrite T, Ht, Z0.
  rewrite foldM_tally
    by (eapply Forall_impl; [|exact PA];
        intros a Ha'; apply parsedTree_not_nullish, Ha').
  rewrite Ers. cbn [bind].
  destruct (truthy (getopt (prop root "CAPS") "CAPS_Summary")).
  - destruct (extractNumber_returns
                (prop (getopt (prop root "CAPS") "CAPS_Summary")
                      "CAPSLast90Days")) as [n ->]; [parsed|].
    cbn [bind]. cbn [ReportSummary.totalAccounts ReportSummary.setRecentEnquiries].
    rewrite tally_total. cbn [ReportSummary.totalAccounts ReportSummary.setTotalAccounts].
    rewrite Len. exists (Num.or_zero n). reflexivity.
  - cbn [bind]. rewrite tally_total.
    cbn [ReportSummary.totalAccounts ReportSummary.setTotalAccounts].
    rewrite Len.
    exists (ReportSummary.recentEnquiries
              (fold_left tally rs
                 (ReportSummary.setTotalAccounts
                    (Num.of_nat (List.length (asArray (accountDetailsOf root))))
                    s0))).
    destruct (fold_left tally rs _); reflexivity.
Qed.

(** C6, as stated, fails: the recount starts from what the CAIS summary
    states. With a stated total of 0 beside four active accounts and one
    closed account, two records with statuses "11" and "13" give 2 accounts,
    5 active and 2 closed, not 2, 1 and 1. *)
Lemma summary_fallback_counterexample :
  ~ (forall (root : jsval) (total active closed : number)
            (readings : list (string * number * string))
            (summary : ReportSummary.t),
       parsedTree root = true ->
       caisCounters root = Ok (total, active, closed) ->
       Num.eqb total Num.zero = true ->
       truthy (accountDetailsOf root) = true ->
       mapM readAccount (asArray (accountDetailsOf root)) = Ok readings ->
       extractReportSummary root = Ok summary ->
       ReportSummary.totalAccounts summary =
         Num.of_nat (List.length readings) /\
       ReportSummary.activeAccounts summary =
         Num.of_nat (countIf (fun r => isActiveCode (statusOf r)) readings) /\
       ReportSummary.closedAccounts summary =
         Num.of_nat (countIf (fun r => String.eqb (statusOf r) "13") readings)).
Proof.
  intros H.
  destruct (caisCounters statedZeroTotal) as [[[t a] c]|e] eqn:Ec;
    [|vm_compute in Ec; discriminate Ec].
  destruct (mapM readAccount (asArray (accountDetailsOf statedZeroTotal)))
    as [rs|e] eqn:Ers; [|vm_compute in Ers; discriminate Ers].
  destruct (extractReportSummary statedZeroTotal) as [summary|e] eqn:E;
    [|vm_compute in E; discriminate E].
  assert (Z0 : Num.eqb t Num.zero = true)
    by (vm_compute in Ec; injection Ec as <- _ _; reflexivity).
  destruct (H statedZeroTotal t a c rs summary eq_refl Ec Z0 eq_refl Ers E)
    as (_ & Ha & _).
  vm_compute in Ers. injection Ers as <-.
  vm_compute in E. injection E as <-.
  vm_compute in Ha. discriminate Ha.
Qed.

(** C6, amended. For a parsed report root with account-detail records
    (fewer than [2^32], as every array has) whose CAIS summary gives a
    computed total of 0, totalAccounts is the number of records, and
    activeAccounts and closedAccounts are the active and closed counters of
    the CAIS summary, each increased by one for every record with status
    "11", "53" or "71", respectively "13". For whole-number counters these
    are the counter plus the number of such records, and when the summary
    has no counter block they are exactly those numbers. *)
Theorem summary_fallback_counts :
  forall (root : jsval),
    parsedTree root = true ->
    truthy (accountDetailsOf root) = true ->
    asArray (accountDetailsOf root) <> [] ->
    Z.of_nat (List.length (asArray (accountDetailsOf root))) < 2 ^ 32 ->
    exists total active closed readings,
      caisCounters root = Ok (total, active, closed) /\
      mapM readAccount (asArray (accountDetailsOf root)) = Ok readings /\
      (Num.eqb total Num.zero = true ->
       exists summary,
         extractReportSummary root = Ok summary /\
         ReportSummary.totalAccounts summary =
           Num.of_nat (List.length (asArray (accountDetailsOf root))) /\
         ReportSummary.activeAccounts summary =
           Nat.iter (countIf (fun r => isActiveCode (statusOf r)) readings)
                    Num.incr active /\
         ReportSummary.closedAccounts summary =
           Nat.iter (countIf (fun r => String.eqb (statusOf r) "13") readings)
                    Num.incr closed /\
         (forall a : Z, active = Num.of_Z a -> 0 <= a < 2 ^ 52 ->
            ReportSummary.activeAccounts summary =
              Num.of_Z (a + Z.of_nat (countIf (fun r => isActiveCode (statusOf r))
                                              readings))) /\
         (forall c : Z, closed = Num.of_Z c -> 0 <= c < 2 ^ 52 ->
            ReportSummary.closedAccounts summary =
              Num.of_Z (c + Z.of_nat (countIf (fun r => String.eqb (statusOf r) "13")
                                              readings)))) /\
      (truthy (prop (caisSummaryOf root) "Credit_Account") = false ->
       exists summary,
         extractReportSummary root = Ok summary /\
         ReportSummary.totalAccounts summary =
           Num.of_nat (List.length (asArray (accountDetailsOf root))) /\
         ReportSummary.activeAccounts summary =
           Num.of_nat (countIf (fun r => isActiveCode (statusOf r)) readings) /\
         ReportSummary.closedAccounts summary =
           Num.of_nat (countIf (fun r => String.eqb (statusOf r) "13") readings)).
Proof.
  intros root P T NE B.
  assert (B' : Z.of_nat (List.length (asArray (accountDetailsOf root)))
               < 2 ^ Num.prec) by (unfold Num.prec; lia).
  destruct (recount_shape root P T NE B')
    as (total & active & closed & s0 & rs & Ec & Ha & Hc & Hz & Ers & E).
  assert (Lrs : List.length rs = List.length (asArray (accountDetailsOf root)))
    by exact (mapM_length _ _ _ Ers).
  pose proof (countIf_le (fun r => isActiveCode (statusOf r)) rs) as La.
  pose proof (countIf_le (fun r => String.eqb (statusOf r) "13") rs) as Lc.
  exists total, active, closed, rs.
  split; [exact Ec|]. split; [exact Ers|].
  assert (G : Num.eqb total Num.zero = true ->
              exists summary,
                extractReportSummary root = Ok summary /\
                ReportSummary.totalAccounts summary =
                  Num.of_nat (List.length (asArray (accountDetailsOf root))) /\
                ReportSummary.activeAccounts summary =
                  Nat.iter (countIf (fun r => isActiveCode (statusOf r)) rs)
                           Num.incr active /\
                ReportSummary.closedAccounts summary =
                  Nat.iter (countIf (fun r => String.eqb (statusOf r) "13") rs)
                           Num.incr closed).
  { intros Z0. destruct (E Z0) as [q Eq]. eexists. split; [exact Eq|].
    cbn [ReportSummary.totalAccounts ReportSummary.activeAccounts
         ReportSummary.closedAccounts ReportSummary.setRecentEnquiries].
    rewrite tally_total, tally_active_iter, tally_closed_iter.
    cbn [ReportSummary.totalAccounts ReportSummary.activeAccounts
         ReportSummary.closedAccounts ReportSummary.setTotalAccounts].
    rewrite Ha, Hc. repeat split. }
  split.
  - intros Z0. destruct (G Z0) as (summary & Es & Gt & Ga & Gc).
    exists summary. split; [exact Es|]. split; [exact Gt|].
    split; [exact Ga|]. split; [exact Gc|]. split.
    + intros a -> Ba. rewrite Ga. apply iter_incr_of_Z; [lia|].
      unfold Num.prec. lia.
    + intros c -> Bc. rewrite Gc. apply iter_incr_of_Z; [lia|].
      unfold Num.prec. lia.
  - intros C. destruct (Hz C) as (-> & -> & ->).
    destruct (G eq_refl) as (summary & Es & Gt & Ga & Gc).
    exists summary. split; [exact Es|]. split; [exact Gt|].
    rewrite Ga, Gc. split.
    + change Num.zero with (Num.of_Z 0). rewrite iter_incr_of_Z;
        [reflexivity|lia|unfold Num.prec; lia].
    + change Num.zero with (Num.of_Z 0). rewrite iter_incr_of_Z;
        [reflexivity|lia|unfold Num.prec; lia].
Qed.

(** C6, amended: the three records with statuses "11", "11" and "71" give
    three accounts, all three active; a stated total of 0 beside 4 active
    and 1 closed over records "11" and "13" gives 2, 5 and 2. *)
Lemma summary_fallback_counts_witness :
  (exists summary,
     extractReportSummary threeAccounts = Ok summary /\
     ReportSummary.totalAccounts summary = Num.of_Z 3 /\
     ReportSummary.activeAccounts summary = Num.of_Z 3 /\
     ReportSummary.closedAccounts summary = Num.of_Z 0) /\
  (exists summary,
     extractReportSummary statedZeroTotal = Ok summary /\
     ReportSummary.totalAccounts summary = Num.of_Z 2 /\
     ReportSummary.activeAccounts summary = Num.of_Z 5 /\
     ReportSummary.closedAccounts summary = Num.of_Z 2).
Proof.
  split.
  - destruct (summary_fallback_counts threeAccounts eq_refl eq_refl
                ltac:(discriminate) ltac:(vm_compute; reflexivity))
      as (t & a & c & rs & _ & Ers & _ & H).
    destruct (H eq_refl) as (summary & E & Ht & Ha & Hc).
    exists summary. split; [exact E|].
    vm_compute in Ers. injection Ers as <-.
    repeat split; assumption.
  - destruct (summary_fallback_counts statedZeroTotal eq_refl eq_refl
                ltac:(discriminate) ltac:(vm_compute; reflexivity))
      as (t & a & c & rs & Ec & Ers & H & _).
    vm_compute in Ec. injection Ec as <- <- <-.
    destruct (H eq_refl) as (summary & E & Ht & _ & _ & Ha & Hc).
    exists summary. split; [exact E|].
    vm_compute in Ers. injection Ers as <-.
    split; [exact Ht|]. split.
    + apply (Ha 4); [reflexivity|lia].
    + apply (Hc 1); [reflexivity|lia].
Defined.

(** ** The balance buckets *)

Lemma sumAbs_nonneg l : 0 <= sumAbs l.
Proof.
  unfold sumAbs, sumZ. induction l as [|r l IH]; cbn [map fold_right]; lia.
Qed.

Lemma sumOf_abs l : Z.abs (sumOf l) <= sumAbs l.
Proof.
  unfold sumOf, sumAbs, sumZ.
  induction l as [|r l IH]; cbn [map fold_right]; lia.
Qed.

Lemma sumAbs_filter p l : sumAbs (List.filter p l) <= sumAbs l.
Proof.
  unfold sumAbs, sumZ. induction l as [|r l IH]; cbn [List.filter]; [lia|].
  destruct (p r); cbn [map fold_right]; lia.
Qed.

Lemma sumOf_split l :
  sumOf l =
  sumOf (List.filter (fun r => negb (revolvingInt r)) l) +
  sumOf (List.filter revolvingInt l).
Proof.
  unfold sumOf, sumZ. induction l as [|r l IH]; [reflexivity|].
  cbn [List.filter]. destruct (revolvingInt r); cbn [negb map fold_right]; lia.
Qed.

Lemma tally_balances ints : forall s c u v,
  ReportSummary.currentBalanceAmount s = Num.of_Z c ->
  ReportSummary.unsecuredAmount s = Num.of_Z u ->
  ReportSummary.securedAmount s = Num.of_Z v ->
  Z.abs c + sumAbs ints < 2 ^ Num.prec ->
  Z.abs u + sumAbs ints < 2 ^ Num.prec ->
  Z.abs v + sumAbs ints < 2 ^ Num.prec ->
  let s' := fold_left tally (map intReading ints) s in
  ReportSummary.currentBalanceAmount s' = Num.of_Z (c + sumOf ints) /\
  ReportSummary.unsecuredAmount s' =
    Num.of_Z (u + sumOf (List.filter revolvingInt ints)) /\
  ReportSummary.securedAmount s' =
    Num.of_Z (v + sumOf (List.filter (fun r => negb (revolvingInt r)) ints)).
Proof.
  induction ints as [|[[st z] pt] ints IH]; intros s c u v Ec Eu Ev Bc Bu Bv.
  - cbn. rewrite !Z.add_0_r. repeat split; assumption.
  - pose proof (sumAbs_nonneg ints) as Hs.
    assert (Hz : sumAbs ((st, z, pt) :: ints) = Z.abs z + sumAbs ints)
      by reflexivity.
    rewrite Hz in Bc, Bu, Bv.
    cbv zeta. cbn [map fold_left intReading fst snd List.filter].
    change (revolvingInt (st, z, pt)) with (String.eqb pt "R").
    change (intReading (st, z, pt)) with (st, Num.of_Z z, pt).
    destruct (String.eqb pt "R") eqn:R; cbn [negb].
    + destruct (IH (tally s (st, Num.of_Z z, pt)) (c + z) (u + z) v)
        as (Hc & Hu & Hv); try lia.
      * unfold tally. rewrite R.
        destruct (isActiveCode st), (String.eqb st "13"); cbn; rewrite Ec;
          apply add_of_Z; lia.
      * unfold tally. rewrite R.
        destruct (isActiveCode st), (String.eqb st "13"); cbn; rewrite Eu;
          apply add_of_Z; lia.
      * unfold tally. rewrite R.
        destruct (isActiveCode st), (String.eqb st "13"); cbn; exact Ev.
      * cbv zeta in Hc, Hu, Hv. rewrite Hc, Hu, Hv.
        unfold sumOf, sumZ. cbn [map fold_right amountOf fst snd].
        repeat split; f_equal; lia.
    + destruct (IH (tally s (st, Num.of_Z z, pt)) (c + z) u (v + z))
        as (Hc & Hu & Hv); try lia.
      * unfold tally. rewrite R.
        destruct (isActiveCode st), (String.eqb st "13"); cbn; rewrite Ec;
          apply add_of_Z; lia.
      * unfold tally. rewrite R.
        destruct (isActiveCode st), (String.eqb st "13"); cbn; exact Eu.
      * unfold tally. rewrite R.
        destruct (isActiveCode st), (String.eqb st "13"); cbn; rewrite Ev;
          apply add_of_Z; lia.
      * cbv zeta in Hc, Hu, Hv. rewrite Hc, Hu, Hv.
        unfold sumOf, sumZ. cbn [map fold_right amountOf fst snd].
        repeat split; f_equal; lia.
Qed.

Lemma tally_sums rs : forall s,
  ReportSummary.currentBalanceAmount (fold_left tally rs s) =
    fold_left Num.add (map balanceOf rs) (ReportSummary.currentBalanceAmount s) /\
  ReportSummary.unsecuredAmount (fold_left tally rs s) =
    fold_left Num.add (map balanceOf (List.filter revolving rs))
              (ReportSummary.unsecuredAmount s) /\
  ReportSummary.securedAmount (fold_left tally rs s) =
    fold_left Num.add
              (map balanceOf (List.filter (fun r => negb (revolving r)) rs))
              (ReportSummary.securedAmount s).
Proof.
  induction rs as [|[[st b] pt] rs IH]; intros s; [repeat split|].
  cbn [fold_left List.filter].
  change (revolving (st, b, pt)) with (String.eqb pt "R").
  destruct (IH (tally s (st, b, pt))) as (Hc & Hu & Hv).
  rewrite Hc, Hu, Hv. unfold tally.
  destruct (String.eqb pt "R"), (isActiveCode st), (String.eqb st "13");
    repeat split; reflexivity.
Qed.

(** C10, as stated, fails: balances add up in floating point. With 0.1
    revolving and 0.2 and 0.3 otherwise, the running total is
    (0.1 + 0.2) + 0.3 = 0.6000000000000001 while the buckets give
    (0.2 + 0.3) + 0.1 = 0.6. *)
Lemma balance_buckets_counterexample :
  ~ (forall (root : jsval) (summary : ReportSummary.t),
       parsedTree root = true ->
       truthy (caisSummaryOf root) = false ->
       truthy (accountDetailsOf root) = true ->
       extractReportSummary root = Ok summary ->
       Num.eqb (ReportSummary.currentBalanceAmount summary)
               (Num.add (ReportSummary.securedAmount summary)
                        (ReportSummary.unsecuredAmount summary)) = true).
Proof.
  intros H.
  destruct (extractReportSummary fractionalBalances) as [summary|e] eqn:E;
    [|vm_compute in E; discriminate E].
  pose proof (H fractionalBalances summary eq_refl eq_refl eq_refl E) as X.
  vm_compute in E. injection E as <-.
  vm_compute in X. discriminate X.
Qed.

(** C10, amended. For a parsed report root without CAIS summary and with
    account-detail records, each record's current balance is added once to
    currentBalanceAmount and once to exactly one bucket: the three totals
    are the balances of all records, of the records of portfolio type "R"
    (unsecuredAmount) and of the other records (securedAmount), each added
    up from 0 in the order of the records. When the balances are whole
    numbers with absolute values adding up to less than [2^53], every
    addition is exact, the totals are the integer sums, and
    currentBalanceAmount == securedAmount + unsecuredAmount. *)
Theorem balance_buckets_exact :
  forall (root : jsval),
    parsedTree root = true ->
    truthy (caisSummaryOf root) = false ->
    truthy (accountDetailsOf root) = true ->
    asArray (accountDetailsOf root) <> [] ->
    Z.of_nat (List.length (asArray (accountDetailsOf root))) < 2 ^ 32 ->
    exists readings summary,
      mapM readAccount (asArray (accountDetailsOf root)) = Ok readings /\
      extractReportSummary root = Ok summary /\
      ReportSummary.currentBalanceAmount summary =
        addAll (map balanceOf readings) /\
      ReportSummary.unsecuredAmount summary =
        addAll (map balanceOf (List.filter revolving readings)) /\
      ReportSummary.securedAmount summary =
        addAll (map balanceOf
                  (List.filter (fun r => negb (revolving r)) readings)) /\
      (forall ints : list (string * Z * string),
         readings = map intReading ints ->
         sumAbs ints < 2 ^ 53 ->
         ReportSummary.currentBalanceAmount summary = Num.of_Z (sumOf ints) /\
         ReportSummary.unsecuredAmount summary =
           Num.of_Z (sumOf (List.filter revolvingInt ints)) /\
         ReportSummary.securedAmount summary =
           Num.of_Z
             (sumOf (List.filter (fun r => negb (revolvingInt r)) ints)) /\
         Num.eqb (ReportSummary.currentBalanceAmount summary)
                 (Num.add (ReportSummary.securedAmount summary)
                          (ReportSummary.unsecuredAmount summary)) = true).
Proof.
  intros root P C T NE B.
  assert (B' : Z.of_nat (List.length (asArray (accountDetailsOf root)))
               < 2 ^ Num.prec) by (unfold Num.prec; lia).
  destruct (fallback_shape root P
              (falsy_member (caisSummaryOf root) "Credit_Account" C eq_refl)
              T NE B')
    as (s0 & rs & q & Z0 & _ & _ & _ & Ers & E).
  rewrite (Z0 C) in E.
  exists rs. eexists. split; [exact Ers|]. split; [exact E|].
  cbn [ReportSummary.currentBalanceAmount ReportSummary.unsecuredAmount
       ReportSummary.securedAmount ReportSummary.setRecentEnquiries].
  destruct (tally_sums rs
              (ReportSummary.setTotalAccounts
                 (Num.of_nat (List.length (asArray (accountDetailsOf root))))
                 ReportSummary.zero)) as (Sc & Su & Sv).
  split; [exact Sc|]. split; [exact Su|]. split; [exact Sv|].
  intros ints -> Bound.
  pose proof (sumAbs_nonneg ints) as Hs.
  destruct (tally_balances ints
              (ReportSummary.setTotalAccounts
                 (Num.of_nat (List.length (asArray (accountDetailsOf root))))
                 ReportSummary.zero) 0 0 0)
    as (Hc & Hu & Hv); try reflexivity; try (unfold Num.prec; cbn [Z.abs]; lia).
  cbv zeta in Hc, Hu, Hv. cbn [Z.add] in Hc, Hu, Hv.
  rewrite Hc, Hu, Hv. repeat split.
  pose proof (sumOf_abs ints).
  pose proof (sumOf_abs (List.filter revolvingInt ints)).
  pose proof (sumOf_abs (List.filter (fun r => negb (revolvingInt r)) ints)).
  pose proof (sumAbs_filter revolvingInt ints).
  pose proof (sumAbs_filter (fun r => negb (revolvingInt r)) ints).
  rewrite add_of_Z; try (unfold Num.prec; lia).
  - rewrite <- sumOf_split. apply eqb_of_Z. unfold Num.prec. lia.
  - rewrite <- sumOf_split. unfold Num.prec. lia.
Qed.

(** C10, amended, on the three records with balances 10000 (revolving),
    20000 and 0 (revolving). *)
Lemma balance_buckets_exact_witness :
  exists summary,
    extractReportSummary threeAccounts = Ok summary /\
    ReportSummary.currentBalanceAmount summary = Num.of_Z 30000 /\
    ReportSummary.unsecuredAmount summary = Num.of_Z 10000 /\
    ReportSummary.securedAmount summary = Num.of_Z 20000 /\
    Num.eqb (ReportSummary.currentBalanceAmount summary)
            (Num.add (ReportSummary.securedAmount summary)
                     (ReportSummary.unsecuredAmount summary)) = true.
Proof.
  destruct (balance_buckets_exact threeAccounts
              eq_refl eq_refl eq_refl ltac:(discriminate)
              ltac:(vm_compute; reflexivity))
    as (readings & summary & Ers & E & _ & _ & _ & I).
  exists summary. split; [exact E|].
  apply (I [("11", 10000, "R"); ("11", 20000, "I"); ("71", 0, "R")]).
  - vm_compute in Ers. injection Ers as <-. reflexivity.
  - vm_compute. reflexivity.
Defined.

(** ** Date codes *)

Ltac peel H :=
  repeat match type of H with
  | bind ?c _ = Ok _ =>
      let E := fresh "E" in
      destruct c eqn:E; cbn [bind] in H; [|discriminate H]
  | (if ?c then _ else _) = Ok _ =>
      let E := fresh "E" in destruct c eqn:E
  | (match ?x with _ => _ end) = Ok _ =>
      let E := fresh "E" in destruct x eqn:E
  end.

Section DateCodes.

Variable hostDateParse : string -> jsdate.

Lemma convertDate_length s :
  String.length s <> 8%nat -> convertDate hostDateParse s = None.
Proof.
  intros H. unfold convertDate.
  destruct (Nat.eqb_spec (String.length s) 8); [contradiction|].
  cbn [negb]. rewrite orb_true_r. reflexivity.
Qed.

Lemma primary_sentinel applicantDetails bd bd' dob :
  fromApplicantDetails hostDateParse applicantDetails bd = Ok bd' ->
  extractText (prop applicantDetails "Date_Of_Birth_Applicant") = Ok dob ->
  dob = "00010201" \/ Str.substring 0 4 dob = "0001" ->
  BasicDetails.dateOfBirth bd' = BasicDetails.dateOfBirth bd.
Proof.
  intros H E S. unfold fromApplicantDetails in H.
  destruct (fullName applicantDetails "First_Name" "Last_Name");
    cbn [bind] in H; [|discriminate H].
  destruct (textOr applicantDetails "MobilePhoneNumber"
              "Telephone_Number_Applicant_1st");
    cbn [bind] in H; [|discriminate H].
  destruct (extractText (prop applicantDetails "IncomeTaxPan"));
    cbn [bind] in H; [|discriminate H].
  destruct (extractText (prop applicantDetails "EMailId"));
    cbn [bind] in H; [|discriminate H].
  rewrite E in H. cbn [bind] in H.
  destruct S as [->|S].
  - cbn in H. injection H as <-. reflexivity.
  - rewrite S in H. cbn [String.eqb Ascii.eqb Bool.eqb negb andb] in H.
    destruct (negb (Str.isEmpty dob) && negb (String.eqb dob "00010201"));
      injection H as <-; reflexivity.
Qed.

Lemma holder_length holderDetails bd bd' dob :
  fromHolderDetails hostDateParse holderDetails bd = Ok bd' ->
  extractText (prop holderDetails "Date_of_birth") = Ok dob ->
  String.length dob <> 8%nat ->
  BasicDetails.dateOfBirth bd' = BasicDetails.dateOfBirth bd.
Proof.
  intros H E L. unfold fromHolderDetails in H.
  assert (L' : (String.length dob =? 8)%nat = false)
    by (apply Nat.eqb_neq; exact L).
  rewrite E in H. cbn [bind] in H. rewrite L', andb_false_r in H.
  cbn [bind] in H.
  destruct (if negb (truthy (BasicDetails.name bd))
            then nm <- fullName holderDetails "First_Name_Non_Normalized"
                         "Surname_Non_Normalized" ;;
                 Ok (BasicDetails.setName nm bd)
            else Ok bd) as [b0|] eqn:E0; cbn [bind] in H; [|discriminate H].
  assert (D0 : BasicDetails.dateOfBirth b0 = BasicDetails.dateOfBirth bd).
  { peel E0; try discriminate E0; injection E0 as <-; reflexivity. }
  destruct (if falsyS (BasicDetails.pan b0)
            then p <- extractText (prop holderDetails "Income_TAX_PAN") ;;
                 Ok (BasicDetails.setPan (orS p "") b0)
            else Ok b0) as [b1|] eqn:E1; cbn [bind] in H; [|discriminate H].
  assert (D1 : BasicDetails.dateOfBirth b1 = BasicDetails.dateOfBirth b0).
  { peel E1; try discriminate E1; injection E1 as <-; reflexivity. }
  assert (D2 : forall b2,
            match BasicDetails.dateOfBirth b1 with
            | Some _ => Ok b1
            | None =>
                if truthy (prop holderDetails "Date_of_birth")
                then Ok b1 else Ok b1
            end = Ok b2 -> b2 = b1).
  { intros b2 X. destruct (BasicDetails.dateOfBirth b1);
      [|destruct (truthy (prop holderDetails "Date_of_birth"))];
      injection X as <-; reflexivity. }
  peel H; try discriminate H; injection H as <-;
    match goal with
    | D : forall b2, Ok ?a = Ok b2 -> _ |- _ => rewrite (D a eq_refl)
    end;
    cbn; congruence.
Qed.

End DateCodes.

(** C4, as stated, fails: [convertDate], which decodes the open, closed
    and last-reported dates, tests the length only, so the 8-character
    code "00010201" is decoded as a day of year 1. *)
Lemma date_decoding_counterexample :
  ~ (forall (hostDateParse : string -> jsdate) (code : string),
       String.length code = 8%nat -> Str.substring 0 4 code = "0001" ->
       convertDate hostDateParse code = None).
Proof.
  intros H. specialize (H noHostDates "00010201" eq_refl eq_refl).
  vm_compute in H. discriminate H.
Qed.

(** C4, amended. The code "19900515" decodes to midnight UTC of 15 May
    1990 (year 1990, month index 4, day 15) on the primary date-of-birth
    path, on the holder fallback path and for account dates. On the
    primary path the sentinel "00010201" and every code whose first four
    characters are "0001" leave the date of birth absent. On the holder
    path and for account dates every string that is not exactly 8
    characters long yields absent, and for account dates an 8-character
    code starting with "0001" is decoded like any other. *)
Theorem date_decoding :
  forall (hostDateParse : string -> jsdate),
    (DateTime.getUTCFullYear 642729600000 = 1990 /\
     DateTime.getUTCMonth 642729600000 = 4 /\
     DateTime.getUTCDate 642729600000 = 15) /\
    (forall bd,
       option_map BasicDetails.dateOfBirth
         (match fromApplicantDetails hostDateParse (applicantBorn "19900515") bd
          with Ok b => Some b | Throw _ => None end) =
       Some (Some (DateAt 642729600000))) /\
    (option_map BasicDetails.dateOfBirth
       (match fromHolderDetails hostDateParse (holderBorn "19900515")
                BasicDetails.empty
        with Ok b => Some b | Throw _ => None end) =
     Some (Some (DateAt 642729600000))) /\
    convertDate hostDateParse "19900515" = Some (DateAt 642729600000) /\
    (forall applicantDetails bd bd' dob,
       fromApplicantDetails hostDateParse applicantDetails bd = Ok bd' ->
       extractText (prop applicantDetails "Date_Of_Birth_Applicant") = Ok dob ->
       dob = "00010201" \/ Str.substring 0 4 dob = "0001" ->
       BasicDetails.dateOfBirth bd' = BasicDetails.dateOfBirth bd) /\
    (forall holderDetails bd bd' dob,
       fromHolderDetails hostDateParse holderDetails bd = Ok bd' ->
       extractText (prop holderDetails "Date_of_birth") = Ok dob ->
       String.length dob <> 8%nat ->
       BasicDetails.dateOfBirth bd' = BasicDetails.dateOfBirth bd) /\
    (forall s, String.length s <> 8%nat ->
               convertDate hostDateParse s = None) /\
    convertDate hostDateParse "00010201" = Some (DateAt (-62132918400000)).
Proof.
  intros host.
  split; [repeat split|].
  split; [intros bd; reflexivity|].
  split; [reflexivity|].
  split; [reflexivity|].
  split; [exact (primary_sentinel host)|].
  split; [exact (holder_length host)|].
  split; [exact (convertDate_length host)|reflexivity].
Qed.

(** * Further properties *)

(** ** Path resolution *)

Lemma split_on_app sep p : forall cur q,
  Str.split_on sep cur (p ++ String sep q) =
  (Str.split_on sep cur p ++ Str.split_on sep EmptyString q)%list.
Proof.
  induction p as [|c p IH]; intros cur q; cbn [append Str.split_on].
  - rewrite Ascii.eqb_refl. reflexivity.
  - destruct (Ascii.eqb c sep).
    + cbn [app]. f_equal. apply IH.
    + apply IH.
Qed.

Lemma split_on_cons sep s : forall cur,
  exists k ks, Str.split_on sep cur s = k :: ks.
Proof.
  induction s as [|c s IH]; intros cur; cbn [Str.split_on].
  - eexists. eexists. reflexivity.
  - destruct (Ascii.eqb c sep); [eexists; eexists; reflexivity|apply IH].
Qed.

Lemma getNestedValue_join obj p q :
  getNestedValue obj (p ++ "." ++ q) =
  getNestedValue (getNestedValue obj p) q.
Proof.
  unfold getNestedValue, Str.split.
  change (p ++ "." ++ q) with (p ++ String "."%char q).
  rewrite split_on_app, fold_left_app. reflexivity.
Qed.

Lemma getNestedValue_falsy v path :
  truthy v = false -> getNestedValue v path = JUndefined.
Proof.
  intros T. unfold getNestedValue, Str.split.
  destruct (split_on_cons "."%char path EmptyString) as (k & ks & ->).
  cbn [fold_left]. rewrite T. apply fold_undefined.
Qed.

(** X1. A dotted path resolves segment by segment: resolving [p.q] from
    [obj] is resolving [q] from what [p] resolves to. *)
Theorem getNestedValue_composes :
  forall (obj : jsval) (p q : string),
    getNestedValue obj (p ++ "." ++ q) =
    getNestedValue (getNestedValue obj p) q.
Proof. exact getNestedValue_join. Qed.

(** X2. Once a prefix of the path resolves to a falsy value (a missing
    member, [null], an empty element, 0 or false), every longer path
    resolves to [undefined]; nothing is raised. *)
Theorem getNestedValue_stops_at_falsy :
  forall (obj : jsval) (p q : string),
    truthy (getNestedValue obj p) = false ->
    getNestedValue obj (p ++ "." ++ q) = JUndefined.
Proof.
  intros obj p q T. rewrite getNestedValue_join.
  apply getNestedValue_falsy, T.
Qed.

Lemma getNestedValue_stops_at_falsy_witness :
  getNestedValue (JObj [("Header", JStr "")]) ("Header" ++ "." ++ "SubjectName")
  = JUndefined.
Proof.
  apply (getNestedValue_stops_at_falsy (JObj [("Header", JStr "")])
           "Header" "SubjectName").
  reflexivity.
Defined.

Lemma findValueFromPaths_defined obj paths :
  findValueFromPaths obj paths <> JUndefined.
Proof.
  induction paths as [|p paths IH]; cbn [findValueFromPaths]; [discriminate|].
  destruct (getNestedValue obj p); cbn [nullish negb];
    try discriminate; exact IH.
Qed.

(** X3. [findValueFromPaths] never answers [undefined]; it answers [null]
    exactly when every path resolves to [undefined] or [null], and the
    paths are tried in order: a later list of paths is consulted only when
    the earlier one finds nothing. *)
Theorem findValueFromPaths_first_match :
  forall (obj : jsval) (paths more : list string),
    findValueFromPaths obj paths <> JUndefined /\
    (findValueFromPaths obj paths = JNull <->
     forall p, In p paths -> nullish (getNestedValue obj p) = true) /\
    findValueFromPaths obj (paths ++ more)%list =
      (if nullish (findValueFromPaths obj paths)
       then findValueFromPaths obj more
       else findValueFromPaths obj paths).
Proof.
  intros obj paths more. split; [apply findValueFromPaths_defined|]. split.
  - induction paths as [|p paths IH]; cbn [findValueFromPaths].
    + split; [intros _ q []|reflexivity].
    + destruct (nullish (getNestedValue obj p)) eqn:N; cbn [negb].
      * rewrite IH. split.
        -- intros H q [<-|Hq]; [exact N|apply H, Hq].
        -- intros H q Hq. apply H. right. exact Hq.
      * split.
        -- intros E. rewrite E in N. discriminate N.
        -- intros H. rewrite (H p (or_introl eq_refl)) in N. discriminate N.
  - induction paths as [|p paths IH]; cbn [findValueFromPaths app].
    + reflexivity.
    + destruct (nullish (getNestedValue obj p)) eqn:N; cbn [negb].
      * exact IH.
      * rewrite N. reflexivity.
Qed.

(** ** The validator *)

Lemma prefix_append a b : prefix a (a ++ b) = true.
Proof.
  induction a as [|x a IH]; cbn [append prefix]; [destruct b; reflexivity|].
  destruct (ascii_dec x x); [exact IH|congruence].
Qed.

Lemma prefix_split a : forall s, prefix a s = true -> exists b, s = a ++ b.
Proof.
  induction a as [|x a IH]; intros s H.
  - exists s. reflexivity.
  - destruct s as [|y s]; [discriminate H|]. cbn [prefix] in H.
    destruct (ascii_dec x y) as [<-|]; [|discriminate H].
    destruct (IH s H) as [b ->]. exists b. reflexivity.
Qed.

Lemma includes_split s sub :
  Str.includes s sub = true <-> exists a b, s = a ++ sub ++ b.
Proof.
  split.
  - induction s as [|c s IH]; cbn [Str.includes]; intros H.
    + rewrite orb_false_r in H. destruct (prefix_split _ _ H) as [b E].
      exists "", b. exact E.
    + apply orb_true_iff in H as [H|H].
      * destruct (prefix_split _ _ H) as [b E]. exists "", b. exact E.
      * destruct (IH H) as (a & b & ->). exists (String c a), b. reflexivity.
  - intros (a & b & ->). induction a as [|c a IH].
    + cbn [append]. destruct (sub ++ b) eqn:E; cbn [Str.includes];
        rewrite <- E, prefix_append; reflexivity.
    + cbn [append Str.includes]. rewrite IH. apply orb_true_r.
Qed.

Lemma includes_part s a sub b :
  Str.includes s (a ++ sub ++ b) = true -> Str.includes s sub = true.
Proof.
  intros H. apply includes_split in H as (x & y & ->).
  apply includes_split. exists (x ++ a), (b ++ y).
  rewrite !append_assoc'. reflexivity.
Qed.

Lemma indicators_reduce key :
  existsb
    (fun indicator =>
       Str.includes (Str.toLowerCase key) (Str.toLowerCase indicator))
    experianIndicators =
  mentions key "report" || mentions key "inprofileresponse" ||
  mentions key "xmlresponse".
Proof.
  unfold mentions. cbn [existsb experianIndicators].
  change (Str.toLowerCase "INProfileResponse") with "inprofileresponse".
  change (Str.toLowerCase "CreditReport") with "creditreport".
  change (Str.toLowerCase "CREDITREPORT") with "creditreport".
  change (Str.toLowerCase "ExpCreditReport") with "expcreditreport".
  change (Str.toLowerCase "Report") with "report".
  change (Str.toLowerCase "XMLResponse") with "xmlresponse".
  set (k := Str.toLowerCase key).
  destruct (Str.includes k "report") eqn:R.
  - destruct (Str.includes k "inprofileresponse"),
             (Str.includes k "creditreport"),
             (Str.includes k "expcreditreport"); reflexivity.
  - assert (C : Str.includes k "creditreport" = false).
    { destruct (Str.includes k "creditreport") eqn:C; [|reflexivity].
      rewrite (includes_part k "credit" "report" "") in R;
        [discriminate R|exact C]. }
    assert (E : Str.includes k "expcreditreport" = false).
    { destruct (Str.includes k "expcreditreport") eqn:E; [|reflexivity].
      rewrite (includes_part k "expcredit" "report" "") in R;
        [discriminate R|exact E]. }
    rewrite C, E.
    destruct (Str.includes k "inprofileresponse"),
             (Str.includes k "xmlresponse"); reflexivity.
Qed.

Lemma hasExperianRoot_names rootKeys :
  hasExperianRoot rootKeys = namesReport rootKeys.
Proof.
  unfold hasExperianRoot, namesReport.
  induction rootKeys as [|key rest IH]; [reflexivity|].
  cbn [existsb]. rewrite IH, indicators_reduce. reflexivity.
Qed.

Lemma digits_lower s :
  DateTime.allDigits s = true -> Str.toLowerCase s = s.
Proof.
  unfold DateTime.allDigits. induction s as [|c s IH]; [reflexivity|].
  cbn [Str.filter Str.toLowerCase]. destruct (Str.is_digit c) eqn:D;
    cbn [negb]; [|discriminate].
  intros H. rewrite (IH H). f_equal.
  unfold Str.lower_char. unfold Str.is_digit in D.
  destruct ((65 <=? Str.code c)%N && (Str.code c <=? 90)%N ||
            (192 <=? Str.code c)%N && (Str.code c <=? 222)%N &&
            negb (Str.code c =? 215)%N) eqn:U; [|reflexivity].
  exfalso. revert D U. generalize (Str.code c). intros n D U.
  apply andb_true_iff in D as [D1 D2].
  apply N.leb_le in D1, D2.
  apply orb_true_iff in U as [U|U].
  - apply andb_true_iff in U as [U1 U2]. apply N.leb_le in U1. lia.
  - apply andb_true_iff in U as [U _].
    apply andb_true_iff in U as [U1 U2]. apply N.leb_le in U1. lia.
Qed.

Lemma digits_exclude s c sub :
  DateTime.allDigits s = true -> Str.is_digit c = false ->
  Str.includes s (String c sub) = false.
Proof.
  unfold DateTime.allDigits. intros H D.
  induction s as [|x s IH]; [reflexivity|].
  cbn [Str.filter] in H. destruct (Str.is_digit x) eqn:X; cbn [negb] in H;
    [|discriminate H].
  cbn [Str.includes prefix].
  destruct (ascii_dec c x) as [->|]; [congruence|].
  cbn [orb]. apply IH, H.
Qed.

Lemma numerals_unnamed (l : list nat) :
  namesReport (map (fun i => Str.of_N (N.of_nat i)) l) = false.
Proof.
  unfold namesReport. induction l as [|i l IH]; [reflexivity|].
  cbn [map existsb]. rewrite IH, orb_false_r. unfold mentions.
  rewrite (digits_lower _ (of_N_digits _)).
  rewrite !(digits_exclude _ _ _ (of_N_digits _)); reflexivity.
Qed.

Lemma truthy_or a b : truthy (or a b) = truthy a || truthy b.
Proof. unfold or. destruct (truthy a) eqn:T; [exact T|reflexivity]. Qed.

(** X4. The validator accepts exactly the objects (never an array, a
    scalar, [null] or [undefined]) with a top-level key that contains
    "report", "inprofileresponse" or "xmlresponse" in any letter case, and,
    when [INProfileResponse] is a non-empty member, with one of its
    [Header], [CAIS_Account] and [Current_Application] sections non-empty.
    The indicators CreditReport, CREDITREPORT and ExpCreditReport add
    nothing to Report. *)
Theorem validateExperianXml_accepts :
  forall (parsedData : jsval),
    validateExperianXml parsedData = true <->
    exists ps,
      parsedData = JObj ps /\
      namesReport (map fst ps) = true /\
      (truthy (prop parsedData "INProfileResponse") = true ->
       let profileResponse := prop parsedData "INProfileResponse" in
       truthy (prop profileResponse "Header") ||
       truthy (prop profileResponse "CAIS_Account") ||
       truthy (prop profileResponse "Current_Application") = true).
Proof.
  intros d. unfold validateExperianXml. rewrite hasExperianRoot_names.
  rewrite !truthy_or. cbv zeta.
  destruct d as [| |b|n|s|l|ps|f]; cbn [truthy isObjectType negb orb keys];
    try (split; [intros H; discriminate H|intros (ps & E & _); discriminate E]).
  - rewrite orb_true_r.
    split; [intros H; discriminate H|intros (ps & E & _); discriminate E].
  - rewrite orb_true_r.
    split; [intros H; discriminate H|intros (ps & E & _); discriminate E].
  - rewrite orb_true_r.
    split; [intros H; discriminate H|intros (ps & E & _); discriminate E].
  - rewrite numerals_unnamed. cbn [negb].
    split; [intros H; discriminate H|intros (ps & E & _); discriminate E].
  - destruct (namesReport (map fst ps)) eqn:K; cbn [negb].
    + destruct (truthy (prop (JObj ps) "INProfileResponse")) eqn:T.
      * split.
        -- intros H. exists ps. split; [reflexivity|]. split; [exact K|].
           intros _. exact H.
        -- intros (ps' & E & _ & H). injection E as <-. apply H. reflexivity.
      * split; [|reflexivity].
        intros _. exists ps. split; [reflexivity|]. split; [exact K|].
        intros H. discriminate H.
    + split; [intros H; discriminate H|].
      intros (ps' & E & K' & _). injection E as <-. congruence.
Qed.

(** ** Reading a file *)

Lemma parseXmlFile_named readFile parse filePath error :
  parseXmlFile readFile parse filePath = Rejected error ->
  JsError.name error = "XMLParsingError".
Proof.
  unfold parseXmlFile. intros H.
  destruct (parseXmlBody readFile parse filePath) as [v|cause];
    [discriminate H|].
  destruct (String.eqb_spec (JsError.name cause) "XMLParsingError") as [N|N];
    injection H as <-; [exact N|reflexivity].
Qed.

(** X5. Whatever goes wrong in [parseXmlFile], the error it rejects with
    is named XMLParsingError: an error of that name raised inside is passed
    on as it is, and an error of the file system or of the XML library
    with message [m] is reported as "XML parsing failed: m". *)
Theorem parseXmlFile_error_name :
  forall (readFile : string -> settled string)
         (parse : string -> settled jsval) (filePath : string)
         (error : JsError.t),
    parseXmlFile readFile parse filePath = Rejected error ->
    JsError.name error = "XMLParsingError" /\
    (forall cause,
       parseXmlBody readFile parse filePath = Rejected cause ->
       JsError.name cause = "XMLParsingError" ->
       error = cause) /\
    (forall cause,
       parseXmlBody readFile parse filePath = Rejected cause ->
       JsError.name cause <> "XMLParsingError" ->
       JsError.message error =
       "XML parsing failed: " ++ JsError.message cause).
Proof.
  intros readFile parse filePath error H. unfold parseXmlFile in H.
  destruct (parseXmlBody readFile parse filePath) as [v|cause];
    [discriminate H|].
  destruct (String.eqb_spec (JsError.name cause) "XMLParsingError") as [N|N].
  - injection H as <-. split; [exact N|]. split.
    + intros c E _. injection E as <-. reflexivity.
    + intros c E. injection E as <-. intros X. contradiction.
  - injection H as <-. split; [reflexivity|]. split.
    + intros c E X. injection E as <-. contradiction.
    + intros c E. injection E as <-. reflexivity.
Qed.

Lemma parseXmlFile_error_name_witness :
  exists error,
    parseXmlFile missingFile anyParser "report.xml" = Rejected error /\
    JsError.name error = "XMLParsingError" /\
    JsError.message error =
    "XML parsing failed: ENOENT: no such file or directory".
Proof.
  eexists. split; [reflexivity|].
  destruct (parseXmlFile_error_name missingFile anyParser "report.xml" _
              eq_refl) as (N & _ & M).
  split; [exact N|]. apply (M _ eq_refl). discriminate.
Defined.

(** X6. A file that is empty or holds white space only is rejected with
    "XML file is empty" whatever the XML library would make of it; and a
    document that [parseXmlFile] resolves with is what the library built
    from a non-blank file, and is truthy. *)
Theorem parseXmlFile_blank_file :
  forall (readFile : string -> settled string)
         (parse : string -> settled jsval) (filePath xmlContent : string),
    readFile filePath = Resolved xmlContent ->
    (Str.trim xmlContent = "" ->
     parseXmlFile readFile parse filePath =
     Rejected (xmlParsingError "XML file is empty")) /\
    (forall parsedData,
       parseXmlFile readFile parse filePath = Resolved parsedData ->
       Str.trim xmlContent <> "" /\
       parse xmlContent = Resolved parsedData /\
       truthy parsedData = true).
Proof.
  intros readFile parse filePath xmlContent R.
  unfold parseXmlFile, parseXmlBody. rewrite R. split.
  - intros B. rewrite B. cbn [String.length Nat.eqb]. rewrite orb_true_r.
    reflexivity.
  - intros parsedData H.
    destruct (Str.trim xmlContent) as [|c t] eqn:T.
    + cbn [String.length Nat.eqb] in H. rewrite orb_true_r in H.
      discriminate H.
    + split; [discriminate|].
      destruct (Str.isEmpty xmlContent || _) in H; [discriminate H|].
      destruct (parse xmlContent) as [v|cause].
      * destruct (truthy v) eqn:Tv; cbn [negb] in H; [|discriminate H].
        injection H as <-. split; [reflexivity|exact Tv].
      * destruct (String.eqb (JsError.name cause) "XMLParsingError");
          discriminate H.
Qed.

Lemma parseXmlFile_blank_file_witness :
  parseXmlFile blankFile anyParser "report.xml" =
  Rejected (xmlParsingError "XML file is empty").
Proof.
  exact (proj1 (parseXmlFile_blank_file blankFile anyParser "report.xml" _
                  eq_refl) eq_refl).
Defined.

(** ** What the transformation does with the clock and with a value that
    is no document *)

Lemma digits_not_object s k :
  DateTime.allDigits k = true -> isObjectType (prop (JStr s) k) = false.
Proof.
  intros D. cbn [prop].
  destruct (isIndex k).
  - destruct (indexOf k <? String.length s)%nat; reflexivity.
  - destruct (String.eqb k "length"); [reflexivity|].
    unfold inherited.
    destruct (String.eqb_spec k "__proto__") as [->|]; [discriminate D|].
    destruct (String.eqb k "constructor"); [reflexivity|].
    destruct (existsb (String.eqb k) objectPrototypeNames); reflexivity.
Qed.

Lemma firstObjectValue_string s (l : list nat) :
  firstObjectValue (JStr s) (map (fun i => Str.of_N (N.of_nat i)) l) = None.
Proof.
  induction l as [|i l IH]; [reflexivity|].
  cbn [map firstObjectValue].
  rewrite (digits_not_object s _ (of_N_digits _)). exact IH.
Qed.

Lemma findReportRoot_scalar v :
  isObjectType v = false -> nullish v = false ->
  findReportRoot v = Ok JNull.
Proof.
  intros O N. unfold findReportRoot, getp. rewrite N. cbn [bind].
  assert (P : forall k, plainKey k = true -> prop v k = JUndefined).
  { intros k K. apply plainKey_prop; [exact K|].
    intros ps ->. discriminate O. }
  rewrite (P "INProfileResponse" eq_refl). cbn [truthy].
  unfold possibleRoots. cbn [firstTruthyPath].
  rewrite (getNestedValue_absent _ "CreditReport" "CreditReport" []),
    (getNestedValue_absent _ "CREDITREPORT" "CREDITREPORT" []),
    (getNestedValue_absent _ "ExpCreditReport" "ExpCreditReport" []),
    (getNestedValue_absent _ "Report" "Report" []),
    (getNestedValue_absent _ "XMLResponse.CreditReport" "XMLResponse"
       ["CreditReport"]),
    (getNestedValue_absent _ "XMLResponse.Response.CreditReport"
       "XMLResponse" ["Response"; "CreditReport"]);
    try reflexivity; try (apply P; reflexivity).
  cbn [truthy].
  destruct v as [| |b|n|s|l|ps|f]; try discriminate; try reflexivity.
  cbn [keys]. rewrite firstObjectValue_string. reflexivity.
Qed.

(** X7. Handed anything but an object or an array, the transformation
    raises, and what it raises is an [Error] whose message starts with
    "Data transformation failed: ": the not-found message for a string, a
    number, a boolean or a function, and the engine's complaint about
    reading [INProfileResponse] for [null] and [undefined]. *)
Theorem transform_rejects_non_objects :
  forall (hostDateParse : string -> jsdate) (parsedXml : jsval) (w : world),
    isObjectType parsedXml = false ->
    transformCreditReportData hostDateParse parsedXml w =
    Throw (Error
      ("Data transformation failed: " ++
       if nullish parsedXml
       then "Cannot read properties of " ++ describe parsedXml ++
            " (reading 'INProfileResponse')"
       else "Could not find credit report data in XML")).
Proof.
  intros host v w O. unfold transformCreditReportData, transformBody.
  destruct (nullish v) eqn:N.
  - unfold findReportRoot, getp. rewrite N. reflexivity.
  - rewrite (findReportRoot_scalar v O N). reflexivity.
Qed.

Lemma transform_rejects_non_objects_witness :
  transformCreditReportData noHostDates (JStr "<INProfileResponse/>")
    sampleWorld =
  Throw (Error
    "Data transformation failed: Could not find credit report data in XML").
Proof.
  exact (transform_rejects_non_objects noHostDates
           (JStr "<INProfileResponse/>") sampleWorld eq_refl).
Defined.

Lemma extractEnquiries_reads hostDateParse root w l w1 :
  extractEnquiries hostDateParse root w = Ok (l, w1) ->
  w1 = w \/
  (exists p, l = [synthesized (fst (newDateNow w)) p] /\
             w1 = snd (newDateNow w)).
Proof.
  unfold extractEnquiries, fromCapsSummary. intros H.
  destruct (getp root "CAPS") as [caps|]; cbn [bind] in H; [|discriminate H].
  destruct (truthy caps).
  2:{ cbn [bind List.length Nat.eqb] in H. left.
      peel H; try discriminate H; injection H as _ <-; reflexivity. }
  destruct (truthy (prop caps "CAPS_Summary")).
  2:{ cbn [bind List.length Nat.eqb] in H. left.
      peel H; try discriminate H; injection H as _ <-; reflexivity. }
  destruct (extractNumber (prop (prop caps "CAPS_Summary") "CAPSLast90Days"))
    as [n90|]; cbn [bind] in H; [|discriminate H].
  destruct (extractNumber (prop (prop caps "CAPS_Summary") "CAPSLast30Days"))
    as [n30|]; cbn [bind] in H; [|discriminate H].
  destruct (extractNumber (prop (prop caps "CAPS_Summary") "CAPSLast7Days"))
    as [n7|]; cbn [bind] in H; [|discriminate H].
  destruct (Num.gtb (Num.or_zero n90) Num.zero).
  - right. cbn in H. injection H as <- <-. eexists. split; reflexivity.
  - cbn [bind List.length Nat.eqb] in H. left.
    peel H; try discriminate H; injection H as _ <-; reflexivity.
Qed.

(** X8. One transformation reads the clock once, for [reportDate], or
    twice: first for the date of the synthesized enquiry, then for
    [reportDate], so that the synthesized enquiry carries the earlier
    reading. *)
Theorem transform_reads_the_clock :
  forall (hostDateParse : string -> jsdate) (parsedXml : jsval)
         (w w' : world) (report : TransformedReport.t),
    transformCreditReportData hostDateParse parsedXml w = Ok (report, w') ->
    clock w' = clock w /\
    ((reads w' = S (reads w) /\
      TransformedReport.reportDate report = DateAt (clock w (reads w))) \/
     (reads w' = S (S (reads w)) /\
      TransformedReport.reportDate report = DateAt (clock w (S (reads w))) /\
      exists purpose,
        TransformedReport.enquiries report =
        [synthesized (DateAt (clock w (reads w))) purpose])).
Proof.
  intros host doc w w' report H.
  unfold transformCreditReportData in H.
  destruct (transformBody host doc w) as [[r v]|] eqn:B; [|discriminate H].
  injection H as -> ->. unfold transformBody in B.
  destruct (findReportRoot doc) as [root|]; cbn [bind] in B; [|discriminate B].
  destruct (negb (truthy root)); [discriminate B|].
  destruct (extractBasicDetails host root); cbn [bind] in B; [|discriminate B].
  destruct (extractReportSummary root); cbn [bind] in B; [|discriminate B].
  destruct (extractCreditAccounts host root); cbn [bind] in B;
    [|discriminate B].
  destruct (extractEnquiries host root w) as [[l w1]|] eqn:E; cbn [bind] in B;
    [|discriminate B].
  cbn in B. injection B as <- <-. cbn.
  destruct (extractEnquiries_reads host root w l w1 E)
    as [->|(p & -> & ->)].
  - split; [reflexivity|]. left. split; reflexivity.
  - split; [reflexivity|]. right. cbn. split; [reflexivity|].
    split; [reflexivity|]. exists p. reflexivity.
Qed.

Lemma transform_reads_the_clock_witness :
  exists report w',
    transformCreditReportData noHostDates capsExample sampleWorld =
      Ok (report, w') /\
    reads w' = 2%nat /\
    TransformedReport.reportDate report = DateAt 1.
Proof.
  destruct (transformCreditReportData noHostDates capsExample sampleWorld)
    as [[report w']|] eqn:E; [|vm_compute in E; discriminate E].
  exists report, w'. split; [reflexivity|].
  destruct (transform_reads_the_clock noHostDates capsExample sampleWorld w'
              report E) as [_ [[R D]|(R & D & _)]].
  - exfalso. vm_compute in E. injection E as <- <-. discriminate R.
  - split; [exact R|exact D].
Defined.

(** ** Basic details *)

Ltac settle :=
  repeat match goal with
  | E : Ok _ = Ok _ |- _ => injection E as <-
  | E : Throw _ = Ok _ |- _ => discriminate E
  end.

Ltac peels :=
  repeat match goal with
  | H : bind _ _ = Ok _ |- _ => progress peel H
  | H : (if _ then _ else _) = Ok _ |- _ => progress peel H
  end; settle.

Lemma follows_refl bd : follows bd bd.
Proof. unfold follows. tauto. Qed.

Lemma follows_trans a b c : follows a b -> follows b c -> follows a c.
Proof.
  unfold follows.
  intros (N1 & P1 & M1 & A1 & D1 & E1 & G1 & S1)
         (N2 & P2 & M2 & A2 & D2 & E2 & G2 & S2).
  repeat split.
  - intros T. rewrite N2; rewrite N1; auto.
  - intros T. rewrite P2; rewrite P1; auto.
  - intros T. rewrite M2; rewrite M1; auto.
  - intros T. rewrite A2; rewrite A1; auto.
  - intros T. rewrite D2; rewrite D1; auto.
  - congruence.
  - destruct G2 as [G2|G2]; [rewrite G2; exact G1|tauto].
  - destruct S2 as [S2|S2]; [|tauto].
    destruct S1 as [S1|S1]; [left; congruence|right; rewrite S2; exact S1].
Qed.

(** One conditional assignment at a time. *)
Ltac stage E :=
  peel E; settle; unfold follows; cbn; repeat split; intros;
  try tauto; try congruence;
  try match goal with
      | X : ?a = true, Y : negb ?a = true |- _ =>
          rewrite X in Y; discriminate Y
      end.

Section Details.

Variable hostDateParse : string -> jsdate.

Lemma fromApplicantDetails_keeps a bd bd' :
  fromApplicantDetails hostDateParse a bd = Ok bd' ->
  BasicDetails.gender bd' = BasicDetails.gender bd /\
  BasicDetails.creditScore bd' = BasicDetails.creditScore bd /\
  BasicDetails.address bd' = BasicDetails.address bd.
Proof.
  intros H. unfold fromApplicantDetails in H.
  peel H; settle; repeat split; reflexivity.
Qed.

Lemma fromCurrentApplication_keeps ca bd bd' :
  fromCurrentApplication hostDateParse ca bd = Ok bd' ->
  BasicDetails.gender bd' = BasicDetails.gender bd /\
  BasicDetails.creditScore bd' = BasicDetails.creditScore bd.
Proof.
  intros H. unfold fromCurrentApplication in H. cbv zeta in H.
  peel H; settle;
    repeat match goal with
    | E : (if ?c then _ else _) = Ok _ |- _ => destruct c
    | E : fromApplicantDetails _ _ _ = Ok _ |- _ =>
        apply fromApplicantDetails_keeps in E; destruct E as (? & ? & ?)
    end; settle; cbn; split; congruence.
Qed.

Lemma fromHolderDetails_follows h bd bd' :
  fromHolderDetails hostDateParse h bd = Ok bd' -> follows bd bd'.
Proof.
  intros H. unfold fromHolderDetails in H.
  destruct (if negb (truthy (BasicDetails.name bd))
            then nm <- fullName h "First_Name_Non_Normalized"
                         "Surname_Non_Normalized" ;;
                 Ok (BasicDetails.setName nm bd)
            else Ok bd) as [b0|] eqn:E0; cbn [bind] in H; [|discriminate H].
  assert (K0 : follows bd b0) by (stage E0).
  destruct (if falsyS (BasicDetails.pan b0)
            then p <- extractText (prop h "Income_TAX_PAN") ;;
                 Ok (BasicDetails.setPan (orS p "") b0)
            else Ok b0) as [b1|] eqn:E1; cbn [bind] in H; [|discriminate H].
  assert (K1 : follows b0 b1) by (stage E1).
  destruct (match BasicDetails.dateOfBirth b1 with
            | Some _ => Ok b1
            | None =>
                if truthy (prop h "Date_of_birth")
                then
                  dobString <- extractText (prop h "Date_of_birth") ;;
                  (if negb (Str.isEmpty dobString) &&
                      (String.length dobString =? 8)%nat
                   then Ok (BasicDetails.setDateOfBirth
                              (dateOfCode hostDateParse dobString) b1)
                   else Ok b1)
                else Ok b1
            end) as [b2|] eqn:E2; cbn [bind] in H; [|discriminate H].
  assert (K2 : follows b1 b2) by (stage E2).
  assert (K3 : follows b2 bd') by (stage H).
  exact (follows_trans _ _ _ (follows_trans _ _ _ (follows_trans _ _ _ K0 K1) K2) K3).
Qed.

Lemma fromAccountDetails_follows d bd bd' :
  fromAccountDetails hostDateParse d bd = Ok bd' -> follows bd bd'.
Proof.
  intros H. unfold fromAccountDetails in H. cbv zeta in H.
  set (c := if isArray d then first d else d) in H.
  destruct (if truthy (getopt c "CAIS_Holder_Details")
            then fromHolderDetails hostDateParse
                   (getopt c "CAIS_Holder_Details") bd
            else Ok bd) as [b0|] eqn:E0; cbn [bind] in H; [|discriminate H].
  assert (K0 : follows bd b0).
  { destruct (truthy (getopt c "CAIS_Holder_Details")).
    - apply fromHolderDetails_follows in E0. exact E0.
    - injection E0 as <-. apply follows_refl. }
  destruct (if truthy (getopt c "CAIS_Holder_Phone_Details") &&
               falsyS (BasicDetails.mobilePhone b0)
            then phone <- textOr (getopt c "CAIS_Holder_Phone_Details")
                            "Telephone_Number" "Mobile_Telephone_Number" ;;
                 Ok (BasicDetails.setMobilePhone phone b0)
            else Ok b0) as [b1|] eqn:E1; cbn [bind] in H; [|discriminate H].
  assert (K1 : follows b0 b1).
  { destruct (falsyS (BasicDetails.mobilePhone b0)) eqn:F;
      rewrite ?andb_false_r, ?andb_true_r in E1; stage E1. }
  assert (K2 : follows b1 bd').
  { destruct (falsyS (BasicDetails.address b1)) eqn:F;
      rewrite ?andb_false_r, ?andb_true_r in H; stage H. }
  exact (follows_trans _ _ _ (follows_trans _ _ _ K0 K1) K2).
Qed.

Lemma extractBasicDetails_follows root bd :
  extractBasicDetails hostDateParse root = Ok bd ->
  exists bd1, applicationDetails hostDateParse root = Ok bd1 /\
              follows bd1 bd /\
              (BasicDetails.name bd = JStr "" \/
               truthy (BasicDetails.name bd) = true).
Proof.
  intros H. unfold extractBasicDetails in H. cbv zeta in H.
  set (legacyName := findValueFromPaths root namePaths) in H.
  unfold getp in H. destruct (nullish root); [discriminate H|].
  cbn [bind] in H. fold (applicationDetails hostDateParse root) in H.
  destruct (applicationDetails hostDateParse root) as [bd1|];
    cbn [bind] in H; [|discriminate H].
  exists bd1. split; [reflexivity|].
  destruct (if truthy (prop root "SCORE")
            then score <- extractNumber
                            (prop (prop root "SCORE") "BureauScore") ;;
                 Ok (BasicDetails.setCreditScore
                       (if Num.gtb score Num.zero then Some score else None)
                       bd1)
            else Ok bd1) as [b2|] eqn:E2; cbn [bind] in H; [|discriminate H].
  assert (K2 : follows bd1 b2).
  { peel E2; settle; unfold follows; cbn; repeat split; intros; try tauto.
    right.
    match goal with
    | |- context [Num.gtb ?a Num.zero] =>
        destruct (Num.gtb a Num.zero) eqn:G; [exact G|exact I]
    end. }
  destruct (if truthy (getopt (prop root "CAIS_Account")
                              "CAIS_Account_DETAILS")
            then fromAccountDetails hostDateParse
                   (getopt (prop root "CAIS_Account") "CAIS_Account_DETAILS")
                   b2
            else Ok b2) as [b3|] eqn:E3; cbn [bind] in H; [|discriminate H].
  assert (K3 : follows b2 b3).
  { destruct (truthy (getopt (prop root "CAIS_Account")
                             "CAIS_Account_DETAILS")).
    - apply fromAccountDetails_follows in E3. exact E3.
    - injection E3 as <-. apply follows_refl. }
  destruct (truthy (BasicDetails.name b3)) eqn:T; cbn [negb] in H.
  - injection H as <-. split.
    + exact (follows_trans _ _ _ K2 K3).
    + right. exact T.
  - injection H as <-. split.
    + apply (follows_trans _ b3); [exact (follows_trans _ _ _ K2 K3)|].
      unfold follows. cbn. repeat split; intros; try tauto; congruence.
    + cbn [BasicDetails.name BasicDetails.setName]. unfold or.
      destruct (truthy legacyName) eqn:F;
        [right; exact F|left; reflexivity].
Qed.

(** X9. What the current application supplies is never overwritten: a
    name, PAN, phone number or address that the [Current_Application] block
    found non-empty, and a date of birth it decoded, are those of the
    result whatever the CAIS holder details and the legacy paths hold; the
    e-mail address comes from that block only. *)
Theorem application_details_win :
  forall (reportRoot : jsval) (bd : BasicDetails.t),
    extractBasicDetails hostDateParse reportRoot = Ok bd ->
    exists found,
      applicationDetails hostDateParse reportRoot = Ok found /\
      (truthy (BasicDetails.name found) = true ->
       BasicDetails.name bd = BasicDetails.name found) /\
      (falsyS (BasicDetails.pan found) = false ->
       BasicDetails.pan bd = BasicDetails.pan found) /\
      (falsyS (BasicDetails.mobilePhone found) = false ->
       BasicDetails.mobilePhone bd = BasicDetails.mobilePhone found) /\
      (falsyS (BasicDetails.address found) = false ->
       BasicDetails.address bd = BasicDetails.address found) /\
      (BasicDetails.dateOfBirth found <> None ->
       BasicDetails.dateOfBirth bd = BasicDetails.dateOfBirth found) /\
      BasicDetails.email bd = BasicDetails.email found.
Proof.
  intros root bd H.
  destruct (extractBasicDetails_follows root bd H) as (bd1 & E & F & _).
  exists bd1. split; [exact E|]. unfold follows in F. tauto.
Qed.

(** X10. In every result of [extractBasicDetails] the name is assigned
    (it is the empty string or something truthy), the gender is absent,
    "Male" or "Female", and the credit score is absent, [null] or a number
    above zero: a score of 0, a negative score and text that is no number
    all give [null]. *)
Theorem basic_details_ranges :
  forall (reportRoot : jsval) (bd : BasicDetails.t),
    extractBasicDetails hostDateParse reportRoot = Ok bd ->
    (BasicDetails.name bd = JStr "" \/
     truthy (BasicDetails.name bd) = true) /\
    genderRange (BasicDetails.gender bd) /\
    scoreRange (BasicDetails.creditScore bd).
Proof.
  intros root bd H.
  destruct (extractBasicDetails_follows root bd H) as (bd1 & E & F & N).
  split; [exact N|].
  assert (K : BasicDetails.gender bd1 = None /\
              BasicDetails.creditScore bd1 = None).
  { unfold applicationDetails in E.
    destruct (truthy (prop root "Current_Application")).
    - apply fromCurrentApplication_keeps in E. exact E.
    - injection E as <-. split; reflexivity. }
  destruct K as [G S]. unfold follows in F.
  destruct F as (_ & _ & _ & _ & _ & _ & FG & FS).
  rewrite G in FG. rewrite S in FS. split.
  - exact FG.
  - destruct FS as [-> |FS]; [exact I|exact FS].
Qed.

End Details.

Lemma application_details_win_witness :
  exists bd,
    extractBasicDetails noHostDates twoNames = Ok bd /\
    BasicDetails.name bd = JStr "Asha Rao".
Proof.
  destruct (extractBasicDetails noHostDates twoNames) as [bd|] eqn:E;
    [|vm_compute in E; discriminate E].
  exists bd. split; [reflexivity|].
  destruct (application_details_win noHostDates twoNames bd E)
    as (found & F & N & _).
  vm_compute in F. injection F as <-. apply N. reflexivity.
Defined.

Lemma basic_details_ranges_witness :
  exists bd,
    extractBasicDetails noHostDates twoNames = Ok bd /\
    genderRange (BasicDetails.gender bd) /\
    scoreRange (BasicDetails.creditScore bd).
Proof.
  destruct (extractBasicDetails noHostDates twoNames) as [bd|] eqn:E;
    [|vm_compute in E; discriminate E].
  exists bd. split; [reflexivity|].
  exact (proj2 (basic_details_ranges noHostDates twoNames bd E)).
Defined.

(** ** The summary: counters, legacy collections, and the accounts *)

Lemma truthy_number t :
  Num.truthy t = true -> Num.eqb t Num.zero = false /\ Num.or_zero t = t.
Proof.
  intros T. unfold Num.or_zero. rewrite T. split; [|reflexivity].
  destruct t as [s| | |s m e]; try discriminate T; destruct s; reflexivity.
Qed.

Lemma foldM_keeps {A S B} (f : S -> A -> result S) (get : S -> B) :
  (forall s a s', f s a = Ok s' -> get s' = get s) ->
  forall l s s', foldM f l s = Ok s' -> get s' = get s.
Proof.
  intros K. induction l as [|a l IH]; intros s s' E.
  - injection E as <-. reflexivity.
  - cbn [foldM] in E. destruct (f s a) as [s1|] eqn:F; [|discriminate E].
    cbn [bind] in E. rewrite (IH _ _ E). exact (K _ _ _ F).
Qed.

Lemma countAccount_total s a s' :
  countAccount s a = Ok s' ->
  ReportSummary.totalAccounts s' = ReportSummary.totalAccounts s /\
  ReportSummary.recentEnquiries s' = ReportSummary.recentEnquiries s.
Proof.
  intros H. unfold countAccount in H. peel H; settle;
    repeat match goal with
    | |- context [if ?c then _ else _] => destruct c
    end; split; reflexivity.
Qed.

Lemma countLegacyAccount_tally s a :
  countLegacyAccount s a = (r <- readLegacyAccount a ;; Ok (legacyTally s r)).
Proof.
  unfold countLegacyAccount, readLegacyAccount, nested2.
  destruct (extractText (or (getNestedValue a "Status")
                            (getNestedValue a "AccountStatus"))) as [status|];
    [|reflexivity].
  cbn [bind].
  destruct (extractNumber (or (getNestedValue a "CurrentBalance")
                              (getNestedValue a "Balance"))) as [balance|];
    [|reflexivity].
  cbn [bind].
  destruct (extractText (or (getNestedValue a "Type")
                            (getNestedValue a "AccountType"))) as [ty|];
    [|reflexivity].
  cbn [bind legacyTally]. unfold saysClosed, saysActive.
  destruct (Str.isEmpty status); cbn [negb andb];
    [|destruct (Str.includes (Str.toLowerCase status) "active" ||
                Str.includes (Str.toLowerCase status) "current");
      cbn [negb andb]];
    destruct (negb (Str.isEmpty ty) &&
              Str.includes (Str.toLowerCase ty) "secured"); reflexivity.
Qed.

Lemma foldM_legacyTally records : forall s,
  foldM countLegacyAccount records s =
  (rs <- mapM readLegacyAccount records ;; Ok (fold_left legacyTally rs s)).
Proof.
  induction records as [|a records IH]; intros s; [reflexivity|].
  cbn [foldM mapM]. rewrite countLegacyAccount_tally.
  destruct (readLegacyAccount a) as [r|]; [|reflexivity]. cbn [bind].
  rewrite IH. destruct (mapM readLegacyAccount records); reflexivity.
Qed.

Lemma fold_counts {R} (step : ReportSummary.t -> R -> ReportSummary.t)
    (get : ReportSummary.t -> number) (p : R -> bool) :
  (forall s r, get (step s r) = if p r then Num.incr (get s) else get s) ->
  forall rs s n,
    get s = Num.of_Z n -> 0 <= n ->
    n + Z.of_nat (List.length rs) < 2 ^ Num.prec ->
    get (fold_left step rs s) = Num.of_Z (n + Z.of_nat (countIf p rs)).
Proof.
  intros St. induction rs as [|r rs IH]; intros s n E Hn B.
  - cbn. rewrite Z.add_0_r. exact E.
  - cbn [fold_left]. cbn [List.length] in B. rewrite Nat2Z.inj_succ in B.
    unfold countIf. cbn [List.filter]. destruct (p r) eqn:P.
    + rewrite (IH _ (n + 1)); try lia.
      * cbn [List.length]. rewrite Nat2Z.inj_succ. f_equal. unfold countIf. lia.
      * rewrite St, P, E. apply incr_of_Z. unfold Num.prec in *. lia.
    + rewrite (IH _ n); try lia; [reflexivity|]. rewrite St, P. exact E.
Qed.

Lemma fold_keeps {R S B} (step : S -> R -> S) (get : S -> B) :
  (forall s r, get (step s r) = get s) ->
  forall rs s, get (fold_left step rs s) = get s.
Proof.
  intros K. induction rs as [|r rs IH]; intros s; [reflexivity|].
  cbn [fold_left]. rewrite IH. apply K.
Qed.

Lemma legacyTally_total s r :
  ReportSummary.totalAccounts (legacyTally s r) = ReportSummary.totalAccounts s.
Proof.
  destruct r as [[st b] ty]. unfold legacyTally.
  destruct (saysActive st), (saysClosed st),
    (negb (Str.isEmpty ty) && Str.includes (Str.toLowerCase ty) "secured");
    reflexivity.
Qed.

Lemma legacyTally_active s r :
  ReportSummary.activeAccounts (legacyTally s r) =
  if saysActive (statusOf r) then Num.incr (ReportSummary.activeAccounts s)
  else ReportSummary.activeAccounts s.
Proof.
  destruct r as [[st b] ty]. unfold legacyTally, statusOf. cbn [fst].
  destruct (saysActive st), (saysClosed st),
    (negb (Str.isEmpty ty) && Str.includes (Str.toLowerCase ty) "secured");
    reflexivity.
Qed.

Lemma legacyTally_closed s r :
  ReportSummary.closedAccounts (legacyTally s r) =
  if saysClosed (statusOf r) then Num.incr (ReportSummary.closedAccounts s)
  else ReportSummary.closedAccounts s.
Proof.
  destruct r as [[st b] ty]. unfold legacyTally, statusOf. cbn [fst].
  unfold saysClosed.
  destruct (saysActive st); cbn [negb andb];
    [|destruct (negb (Str.isEmpty st) &&
                Str.includes (Str.toLowerCase st) "closed")];
    destruct (negb (Str.isEmpty ty) &&
              Str.includes (Str.toLowerCase ty) "secured"); reflexivity.
Qed.

Lemma count_disjoint {R} (p q : R -> bool) rs :
  (forall r, p r = true -> q r = false) ->
  (countIf p rs + countIf q rs <= List.length rs)%nat.
Proof.
  intros D. unfold countIf. induction rs as [|r rs IH]; [cbn; lia|].
  cbn [List.filter List.length]. destruct (p r) eqn:P.
  - rewrite (D r P). cbn [List.length]. lia.
  - destruct (q r); cbn [List.length]; lia.
Qed.

(** The summary before the legacy block, when the CAIS block gives no
    total: all zero but for [recentEnquiries]. *)
Lemma legacy_entry root summary :
  extractReportSummary root = Ok summary ->
  truthy (caisSummaryOf root) = false ->
  truthy (accountDetailsOf root) = false ->
  exists q,
    (truthy (getopt (prop root "CAPS") "CAPS_Summary") = false ->
     q = Num.zero) /\
    legacySummary root
      (ReportSummary.setRecentEnquiries q ReportSummary.zero) = Ok summary.
Proof.
  intros H C D. unfold extractReportSummary in H. cbv zeta in H.
  unfold getp in H. destruct (nullish root); [discriminate H|].
  cbn [bind] in H. fold (caisSummaryOf root) in H.
  fold (accountDetailsOf root) in H. rewrite C, D in H. cbn [bind] in H.
  destruct (truthy (getopt (prop root "CAPS") "CAPS_Summary")).
  - destruct (extractNumber _) as [n|] in H; cbn [bind] in H;
      [|discriminate H].
    exists (Num.or_zero n). split; [discriminate|exact H].
  - exists Num.zero. split; [reflexivity|exact H].
Qed.

(** X11. A legacy report (no CAIS summary, no CAIS account records) with
    an account collection of fewer than [2^32] records is summarised from
    that collection: totalAccounts is the number of records,
    activeAccounts the number whose status text contains "active" or
    "current" in any letter case, closedAccounts the number of the others
    whose status text contains "closed"; so active and closed accounts
    together never exceed the total. *)
Theorem legacy_summary_counts :
  forall (root : jsval) (summary : ReportSummary.t),
    extractReportSummary root = Ok summary ->
    truthy (caisSummaryOf root) = false ->
    truthy (accountDetailsOf root) = false ->
    truthy (legacyAccountsOf root) = true ->
    Z.of_nat (List.length (asArray (legacyAccountsOf root))) < 2 ^ 32 ->
    exists readings,
      mapM readLegacyAccount (asArray (legacyAccountsOf root)) = Ok readings /\
      ReportSummary.totalAccounts summary =
        Num.of_nat (List.length (asArray (legacyAccountsOf root))) /\
      ReportSummary.activeAccounts summary =
        Num.of_nat (countIf (fun r => saysActive (statusOf r)) readings) /\
      ReportSummary.closedAccounts summary =
        Num.of_nat (countIf (fun r => saysClosed (statusOf r)) readings) /\
      (countIf (fun r => saysActive (statusOf r)) readings +
       countIf (fun r => saysClosed (statusOf r)) readings <=
       List.length (asArray (legacyAccountsOf root)))%nat.
Proof.
  intros root summary H C D T B.
  destruct (legacy_entry root summary H C D) as (q & _ & L).
  unfold legacySummary in L. cbv zeta in L.
  fold (legacyAccountsOf root) in L. rewrite T in L.
  rewrite foldM_legacyTally in L.
  destruct (mapM readLegacyAccount (asArray (legacyAccountsOf root)))
    as [rs|] eqn:Ers; cbn [bind] in L; [|discriminate L].
  pose proof (mapM_length _ _ _ Ers) as Len.
  exists rs. split; [reflexivity|].
  set (s0 := ReportSummary.setTotalAccounts _ _) in L.
  assert (Et : ReportSummary.totalAccounts (fold_left legacyTally rs s0) =
               Num.of_nat (List.length (asArray (legacyAccountsOf root))))
    by (rewrite (fold_keeps legacyTally ReportSummary.totalAccounts
                   legacyTally_total); reflexivity).
  assert (Ea : ReportSummary.activeAccounts (fold_left legacyTally rs s0) =
               Num.of_nat (countIf (fun r => saysActive (statusOf r)) rs)).
  { rewrite (fold_counts legacyTally ReportSummary.activeAccounts
               (fun r => saysActive (statusOf r)) legacyTally_active rs s0 0);
      [reflexivity|reflexivity|lia|unfold Num.prec; lia]. }
  assert (Ec : ReportSummary.closedAccounts (fold_left legacyTally rs s0) =
               Num.of_nat (countIf (fun r => saysClosed (statusOf r)) rs)).
  { rewrite (fold_counts legacyTally ReportSummary.closedAccounts
               (fun r => saysClosed (statusOf r)) legacyTally_closed rs s0 0);
      [reflexivity|reflexivity|lia|unfold Num.prec; lia]. }
  assert (Es : ReportSummary.totalAccounts summary =
                 ReportSummary.totalAccounts (fold_left legacyTally rs s0) /\
               ReportSummary.activeAccounts summary =
                 ReportSummary.activeAccounts (fold_left legacyTally rs s0) /\
               ReportSummary.closedAccounts summary =
                 ReportSummary.closedAccounts (fold_left legacyTally rs s0)).
  { destruct (truthy (findValueFromPaths root enquiriesPaths));
      injection L as <-; repeat split; reflexivity. }
  destruct Es as (-> & -> & ->).
  split; [exact Et|]. split; [exact Ea|]. split; [exact Ec|].
  rewrite <- Len. apply count_disjoint.
  intros r A. unfold saysClosed. rewrite A. reflexivity.
Qed.

Lemma legacy_summary_counts_witness :
  exists summary,
    extractReportSummary legacyReport = Ok summary /\
    ReportSummary.totalAccounts summary = Num.of_Z 3 /\
    ReportSummary.activeAccounts summary = Num.of_Z 2 /\
    ReportSummary.closedAccounts summary = Num.of_Z 1.
Proof.
  destruct (extractReportSummary legacyReport) as [summary|] eqn:E;
    [|vm_compute in E; discriminate E].
  exists summary. split; [reflexivity|].
  destruct (legacy_summary_counts legacyReport summary E eq_refl eq_refl
              eq_refl ltac:(vm_compute; reflexivity))
    as (rs & Ers & Ht & Ha & Hc & _).
  vm_compute in Ers. injection Ers as <-.
  repeat split; assumption.
Defined.

Lemma member_of_object v k :
  truthy (prop v k) = true -> plainKey k = true -> truthy v = true.
Proof.
  intros T K. destruct v as [| |b|n|s|l|ps|f]; try reflexivity;
    rewrite plainKey_prop in T; try discriminate T; try exact K;
    intros ps' E; discriminate E.
Qed.

Lemma fromCaisSummary_total cs s0 total :
  fromCaisSummary cs ReportSummary.zero = Ok s0 ->
  truthy (prop cs "Credit_Account") = true ->
  extractNumber (prop (prop cs "Credit_Account") "CreditAccountTotal")
    = Ok total ->
  ReportSummary.totalAccounts s0 = Num.or_zero total.
Proof.
  intros H C E. unfold fromCaisSummary in H. cbv zeta in H.
  rewrite C, E in H. cbn [bind] in H.
  peels; reflexivity.
Qed.

(** X12. When the CAIS summary states a total that is not zero, the
    summary is the one read from the CAIS summary block: the account
    records and the legacy collections are not counted, and only
    [recentEnquiries] is filled in from the CAPS block, with its 90-day
    counter when the block has a summary and left at 0 otherwise. *)
Theorem summary_counters_win :
  forall (root : jsval) (summary : ReportSummary.t) (total : number),
    extractReportSummary root = Ok summary ->
    truthy (prop (caisSummaryOf root) "Credit_Account") = true ->
    extractNumber
      (prop (prop (caisSummaryOf root) "Credit_Account") "CreditAccountTotal")
      = Ok total ->
    Num.truthy total = true ->
    exists stated,
      fromCaisSummary (caisSummaryOf root) ReportSummary.zero = Ok stated /\
      ReportSummary.totalAccounts summary = total /\
      summary =
      ReportSummary.setRecentEnquiries
        (ReportSummary.recentEnquiries summary) stated /\
      (truthy (getopt (prop root "CAPS") "CAPS_Summary") = true ->
       forall n,
         extractNumber (prop (getopt (prop root "CAPS") "CAPS_Summary")
                             "CAPSLast90Days") = Ok n ->
         ReportSummary.recentEnquiries summary = Num.or_zero n) /\
      (truthy (getopt (prop root "CAPS") "CAPS_Summary") = false ->
       ReportSummary.recentEnquiries summary = Num.zero).
Proof.
  intros root summary total H C E T.
  pose proof (member_of_object _ _ C eq_refl) as Tc.
  destruct (truthy_number total T) as [Z O].
  unfold extractReportSummary in H. cbv zeta in H.
  unfold getp in H. destruct (nullish root); [discriminate H|].
  cbn [bind] in H. fold (caisSummaryOf root) in H.
  fold (accountDetailsOf root) in H. rewrite Tc in H.
  destruct (fromCaisSummary (caisSummaryOf root) ReportSummary.zero)
    as [s0|] eqn:F; cbn [bind] in H; [|discriminate H].
  pose proof (fromCaisSummary_total _ _ _ F C E) as Et. rewrite O in Et.
  exists s0. split; [reflexivity|].
  rewrite Et, Z in H.
  assert (H1 : (s <- Ok s0 ;;
                caps <- Ok (prop root "CAPS") ;;
                summary <-
                  (if truthy (getopt caps "CAPS_Summary") then
                     n <- extractNumber (prop (getopt caps "CAPS_Summary")
                                              "CAPSLast90Days") ;;
                     Ok (ReportSummary.setRecentEnquiries (Num.or_zero n) s)
                   else Ok s) ;;
                (if Num.eqb (ReportSummary.totalAccounts summary) Num.zero
                 then legacySummary root summary else Ok summary))
               = Ok summary).
  { destruct (truthy (accountDetailsOf root)); exact H. }
  clear H. cbn [bind] in H1.
  assert (R0 : ReportSummary.recentEnquiries s0 = Num.zero).
  { unfold fromCaisSummary in F. cbv zeta in F. rewrite C in F.
    peels; reflexivity. }
  destruct (truthy (getopt (prop root "CAPS") "CAPS_Summary")).
  - destruct (extractNumber _) as [n|] eqn:En in H1; cbn [bind] in H1;
      [|discriminate H1].
    cbn [ReportSummary.totalAccounts ReportSummary.setRecentEnquiries] in H1.
    rewrite Et, Z in H1. injection H1 as <-.
    split; [exact Et|]. split; [reflexivity|]. split; [|discriminate].
    intros _ n' En'. rewrite En in En'. injection En' as <-. reflexivity.
  - cbn [bind] in H1. rewrite Et, Z in H1. injection H1 as <-.
    split; [exact Et|]. split; [destruct s0; reflexivity|].
    split; [discriminate|]. intros _. exact R0.
Qed.

Lemma summary_counters_win_witness :
  exists summary,
    extractReportSummary countedReport = Ok summary /\
    ReportSummary.totalAccounts summary = Num.of_Z 5 /\
    ReportSummary.activeAccounts summary = Num.of_Z 4.
Proof.
  destruct (extractReportSummary countedReport) as [summary|] eqn:E;
    [|vm_compute in E; discriminate E].
  exists summary. split; [reflexivity|].
  destruct (summary_counters_win countedReport summary (Num.of_Z 5) E
              eq_refl ltac:(vm_compute; reflexivity) eq_refl)
    as (stated & F & Ht & Hs & _).
  split; [exact Ht|].
  vm_compute in F. injection F as <-. rewrite Hs. reflexivity.
Defined.

Section Accounts.

Variable hostDateParse : string -> jsdate.

Lemma legacySummary_total root s summary :
  legacySummary root s = Ok summary ->
  ReportSummary.totalAccounts summary =
  if truthy (legacyAccountsOf root)
  then Num.of_nat (List.length (asArray (legacyAccountsOf root)))
  else ReportSummary.totalAccounts s.
Proof.
  intros L. unfold legacySummary in L. cbv zeta in L.
  fold (legacyAccountsOf root) in L.
  destruct (truthy (legacyAccountsOf root)).
  - rewrite foldM_legacyTally in L.
    destruct (mapM readLegacyAccount (asArray (legacyAccountsOf root)))
      as [rs|]; cbn [bind] in L; [|discriminate L].
    assert (E : ReportSummary.totalAccounts summary =
                ReportSummary.totalAccounts
                  (fold_left legacyTally rs
                     (ReportSummary.setTotalAccounts
                        (Num.of_nat (List.length
                                       (asArray (legacyAccountsOf root)))) s)))
      by (destruct (truthy (findValueFromPaths root enquiriesPaths));
          injection L as <-; reflexivity).
    rewrite E, (fold_keeps legacyTally ReportSummary.totalAccounts
                  legacyTally_total). reflexivity.
  - cbn [bind] in L.
    destruct (truthy (findValueFromPaths root enquiriesPaths));
      injection L as <-; reflexivity.
Qed.

Lemma legacy_accounts_length root accounts :
  (if truthy (legacyAccountsOf root)
   then mapM (mapLegacyAccount hostDateParse) (asArray (legacyAccountsOf root))
   else Ok []) = Ok accounts ->
  Num.of_nat (List.length accounts) =
  if truthy (legacyAccountsOf root)
  then Num.of_nat (List.length (asArray (legacyAccountsOf root)))
  else Num.zero.
Proof.
  destruct (truthy (legacyAccountsOf root)); intros E.
  - rewrite (mapM_length _ _ _ E). reflexivity.
  - injection E as <-. reflexivity.
Qed.

Lemma accounts_counted root accounts :
  extractCreditAccounts hostDateParse root = Ok accounts ->
  List.length accounts =
  if truthy (accountDetailsOf root) &&
     negb (List.length (asArray (accountDetailsOf root)) =? 0)%nat
  then List.length (asArray (accountDetailsOf root))
  else if truthy (legacyAccountsOf root)
       then List.length (asArray (legacyAccountsOf root))
       else 0%nat.
Proof.
  intros A. unfold extractCreditAccounts in A. cbv zeta in A.
  unfold getp in A. destruct (nullish root); [discriminate A|].
  cbn [bind] in A. fold (accountDetailsOf root) in A.
  fold (legacyAccountsOf root) in A.
  destruct (truthy (accountDetailsOf root)); cbn [andb].
  - destruct (mapM (mapAccount hostDateParse)
                (asArray (accountDetailsOf root))) as [a0|] eqn:M;
      cbn [bind] in A; [|discriminate A].
    pose proof (mapM_length _ _ _ M) as L0. rewrite <- L0.
    destruct (List.length a0 =? 0)%nat eqn:Z0; cbn [negb].
    + destruct (truthy (legacyAccountsOf root)).
      * exact (mapM_length _ _ _ A).
      * injection A as <-. apply Nat.eqb_eq in Z0. exact Z0.
    + injection A as <-. reflexivity.
  - cbn [bind List.length Nat.eqb] in A.
    destruct (truthy (legacyAccountsOf root)).
    + exact (mapM_length _ _ _ A).
    + injection A as <-. reflexivity.
Qed.

(** X13. When the CAIS summary states no counters, the total of the
    summary is the number of accounts extracted: both count the CAIS
    account records (fewer than [2^32]) when there are any, and the same
    legacy collection otherwise. *)
Theorem total_accounts_matches_accounts :
  forall (root : jsval) (summary : ReportSummary.t)
         (accounts : list CreditAccount.t),
    extractReportSummary root = Ok summary ->
    extractCreditAccounts hostDateParse root = Ok accounts ->
    truthy (prop (caisSummaryOf root) "Credit_Account") = false ->
    Z.of_nat (List.length (asArray (accountDetailsOf root))) < 2 ^ 32 ->
    ReportSummary.totalAccounts summary = Num.of_nat (List.length accounts) /\
    List.length accounts =
      if truthy (accountDetailsOf root) &&
         negb (List.length (asArray (accountDetailsOf root)) =? 0)%nat
      then List.length (asArray (accountDetailsOf root))
      else if truthy (legacyAccountsOf root)
           then List.length (asArray (legacyAccountsOf root))
           else 0%nat.
Proof.
  intros root summary accounts H A C B.
  split; [|exact (accounts_counted root accounts A)].
  unfold extractReportSummary in H. cbv zeta in H.
  unfold extractCreditAccounts in A. cbv zeta in A.
  unfold getp in H, A. destruct (nullish root); [discriminate H|].
  cbn [bind] in H, A. fold (caisSummaryOf root) in H.
  fold (accountDetailsOf root) in H, A. fold (legacyAccountsOf root) in A.
  destruct (if truthy (caisSummaryOf root)
            then fromCaisSummary (caisSummaryOf root) ReportSummary.zero
            else Ok ReportSummary.zero) as [s0|] eqn:F; cbn [bind] in H;
    [|discriminate H].
  assert (Z0 : ReportSummary.totalAccounts s0 = Num.zero).
  { destruct (truthy (caisSummaryOf root)).
    - unfold fromCaisSummary in F. cbv zeta in F. rewrite C in F.
      cbn [bind] in F. peels; reflexivity.
    - injection F as <-. reflexivity. }
  destruct (truthy (accountDetailsOf root)) eqn:D.
  - rewrite Z0 in H. change (Num.eqb Num.zero Num.zero) with true in H.
    cbv iota in H.
    destruct (foldM countAccount (asArray (accountDetailsOf root)) _)
      as [s1|] eqn:F1 in H; cbn [bind] in H; [|discriminate H].
    pose proof (foldM_keeps countAccount ReportSummary.totalAccounts
                  (fun s a s' E => proj1 (countAccount_total s a s' E))
                  _ _ _ F1) as T1.
    cbn [ReportSummary.totalAccounts ReportSummary.setTotalAccounts] in T1.
    destruct (mapM (mapAccount hostDateParse)
                (asArray (accountDetailsOf root))) as [a0|] eqn:M;
      cbn [bind] in A; [|discriminate A].
    pose proof (mapM_length _ _ _ M) as L0.
    destruct (if truthy (getopt (prop root "CAPS") "CAPS_Summary")
              then n <- extractNumber
                          (prop (getopt (prop root "CAPS") "CAPS_Summary")
                                "CAPSLast90Days") ;;
                   Ok (ReportSummary.setRecentEnquiries (Num.or_zero n) s1)
              else Ok s1) as [s2|] eqn:F2; cbn [bind] in H; [|discriminate H].
    assert (T2 : ReportSummary.totalAccounts s2 =
                 ReportSummary.totalAccounts s1)
      by (peel F2; settle; reflexivity).
    rewrite T2, T1 in H.
    destruct (asArray (accountDetailsOf root)) as [|x l] eqn:Arr.
    + cbn [List.length] in *. destruct a0; [|discriminate L0].
      change (Num.eqb (Num.of_nat 0) Num.zero) with true in H.
      cbn [List.length Nat.eqb] in A. cbv iota in H.
      rewrite (legacySummary_total _ _ _ H), T2, T1.
      rewrite (legacy_accounts_length root accounts).
      * reflexivity.
      * destruct (truthy (legacyAccountsOf root)); exact A.
    + unfold Num.of_nat in H. rewrite eqb_of_Z_zero in H.
      * injection H as <-. rewrite T2, T1.
        destruct a0 as [|y a0]; [discriminate L0|].
        cbn [List.length Nat.eqb] in A. injection A as <-.
        rewrite L0. reflexivity.
      * unfold Num.prec. cbn [List.length] in *. lia.
      * cbn [List.length]. lia.
  - cbn [bind] in H.
    destruct (if truthy (getopt (prop root "CAPS") "CAPS_Summary")
              then n <- extractNumber
                          (prop (getopt (prop root "CAPS") "CAPS_Summary")
                                "CAPSLast90Days") ;;
                   Ok (ReportSummary.setRecentEnquiries (Num.or_zero n) s0)
              else Ok s0) as [s2|] eqn:F2; cbn [bind] in H; [|discriminate H].
    assert (T2 : ReportSummary.totalAccounts s2 =
                 ReportSummary.totalAccounts s0)
      by (peel F2; settle; reflexivity).
    rewrite T2, Z0 in H. change (Num.eqb Num.zero Num.zero) with true in H.
    cbv iota in H. cbn [bind List.length Nat.eqb] in A.
    rewrite (legacySummary_total _ _ _ H), T2, Z0.
    rewrite (legacy_accounts_length root accounts).
    + reflexivity.
    + destruct (truthy (legacyAccountsOf root)); exact A.
Qed.

End Accounts.

Lemma total_accounts_matches_accounts_witness :
  exists summary accounts,
    extractReportSummary legacyReport = Ok summary /\
    extractCreditAccounts noHostDates legacyReport = Ok accounts /\
    ReportSummary.totalAccounts summary = Num.of_nat (List.length accounts).
Proof.
  destruct (extractReportSummary legacyReport) as [summary|] eqn:E;
    [|vm_compute in E; discriminate E].
  destruct (extractCreditAccounts noHostDates legacyReport)
    as [accounts|] eqn:A; [|vm_compute in A; discriminate A].
  exists summary, accounts. split; [reflexivity|]. split; [reflexivity|].
  apply (proj1 (total_accounts_matches_accounts noHostDates legacyReport
                  summary accounts E A eq_refl
                  ltac:(vm_compute; reflexivity))).
Defined.

(** ** The accounts *)

Lemma trimEnd_idem s : Str.trimEnd (Str.trimEnd s) = Str.trimEnd s.
Proof.
  induction s as [|c s IH]; [reflexivity|].
  cbn [Str.trimEnd]. destruct (Str.trimEnd s) as [|d t] eqn:E.
  - destruct (Str.is_space c) eqn:Sp; [reflexivity|].
    cbn [Str.trimEnd]. rewrite Sp. reflexivity.
  - cbn [Str.trimEnd]. cbn [Str.trimEnd] in IH. rewrite IH. reflexivity.
Qed.

Lemma trimStart_head s c t :
  Str.trimStart s = String c t -> Str.is_space c = false.
Proof.
  induction s as [|x s IH]; cbn [Str.trimStart]; [discriminate|].
  destruct (Str.is_space x) eqn:Sp; [exact IH|].
  intros E. injection E as <- _. exact Sp.
Qed.

Lemma trimEnd_head s c t :
  Str.trimEnd s = String c t -> exists t', s = String c t'.
Proof.
  destruct s as [|x s]; cbn [Str.trimEnd]; [discriminate|].
  destruct (Str.trimEnd s); [destruct (Str.is_space x)|];
    intros E; try discriminate E; injection E as <- _; eauto.
Qed.

Lemma trim_idem s : Str.trim (Str.trim s) = Str.trim s.
Proof.
  unfold Str.trim.
  assert (H : Str.trimStart (Str.trimEnd (Str.trimStart s)) =
              Str.trimEnd (Str.trimStart s)).
  { destruct (Str.trimEnd (Str.trimStart s)) as [|c t] eqn:E; [reflexivity|].
    destruct (trimEnd_head _ _ _ E) as [t' E'].
    cbn [Str.trimStart]. rewrite (trimStart_head _ _ _ E'). reflexivity. }
  rewrite H. apply trimEnd_idem.
Qed.

Lemma orS_filled s d : d <> "" -> orS s d <> "".
Proof.
  unfold orS. destruct s; cbn [Str.isEmpty]; [tauto|discriminate].
Qed.

Lemma orS_truthy s d :
  Str.isEmpty d = false -> truthy (JStr (orS s d)) = true.
Proof.
  intros D. unfold orS. destruct s; cbn [Str.isEmpty truthy];
    [rewrite D|]; reflexivity.
Qed.

Lemma append_filled s t : Str.isEmpty t = false -> Str.isEmpty (s ++ t) = false.
Proof. destruct s; [tauto|reflexivity]. Qed.

Lemma appendTo_truthy v suffix :
  truthy v = true -> Str.isEmpty suffix = false ->
  truthy (appendTo v suffix) = true.
Proof.
  intros T S. unfold appendTo. destruct (toStringCall v); [|exact T].
  cbn [truthy]. rewrite (append_filled _ _ S). reflexivity.
Qed.

Lemma getAccountTypeString_truthy typeCode portfolio :
  truthy (getAccountTypeString typeCode portfolio) = true.
Proof.
  unfold getAccountTypeString. cbv zeta.
  assert (T : truthy (or (prop typeMap typeCode) (JStr "Other")) = true)
    by (rewrite truthy_or; apply orb_true_r).
  destruct (String.eqb portfolio "R"), (String.eqb portfolio "I");
    repeat apply appendTo_truthy; try exact T; reflexivity.
Qed.

Lemma getAccountStatus_truthy statusCode :
  truthy (getAccountStatus statusCode) = true.
Proof. unfold getAccountStatus. rewrite truthy_or. apply orb_true_r. Qed.

Lemma extractNumber_number node n :
  extractNumber node = Ok n -> Num.isNaN n = false.
Proof.
  unfold extractNumber. destruct (extractText node); cbn [bind];
    [|discriminate].
  intros E. injection E as <-.
  destruct (Num.isNaN (Num.parseFloat _)) eqn:N; [reflexivity|exact N].
Qed.

Lemma or_zero_number n : Num.isNaN (Num.or_zero n) = false.
Proof. destruct n; reflexivity. Qed.

Lemma truthy_is_number n : Num.truthy n = true -> Num.isNaN n = false.
Proof. destruct n; try reflexivity. discriminate. Qed.

Lemma mapM_Forall {A B} (f : A -> result B) (P : B -> Prop) :
  (forall a b, f a = Ok b -> P b) ->
  forall l bs, mapM f l = Ok bs -> Forall P bs.
Proof.
  intros K. induction l as [|a l IH]; intros bs E.
  - injection E as <-. constructor.
  - cbn [mapM] in E. destruct (f a) as [b|] eqn:F; [|discriminate E].
    cbn [bind] in E. destruct (mapM f l) as [bs'|]; [|discriminate E].
    injection E as <-. constructor; [exact (K _ _ F)|apply IH; reflexivity].
Qed.

Section AccountShape.

Variable hostDateParse : string -> jsdate.

Lemma mapAccount_shape account a :
  mapAccount hostDateParse account = Ok a ->
  truthy (CreditAccount.type a) = true /\
  truthy (CreditAccount.status a) = true /\
  amountsAreNumbers a = true.
Proof.
  intros H. unfold mapAccount in H. cbv zeta in H. peels.
  all: unfold amountsAreNumbers;
    cbn [CreditAccount.type CreditAccount.status CreditAccount.amountOverdue
         CreditAccount.currentBalance CreditAccount.sanctionedAmount];
    rewrite getAccountTypeString_truthy, getAccountStatus_truthy,
      !or_zero_number; repeat split.
  rewrite truthy_is_number by assumption. reflexivity.
Qed.

Lemma mapLegacyAccount_shape account a :
  mapLegacyAccount hostDateParse account = Ok a ->
  truthy (CreditAccount.type a) = true /\
  truthy (CreditAccount.status a) = true /\
  amountsAreNumbers a = true.
Proof.
  intros H. unfold mapLegacyAccount in H. peels.
  unfold amountsAreNumbers.
  cbn [CreditAccount.type CreditAccount.status CreditAccount.amountOverdue
       CreditAccount.currentBalance CreditAccount.sanctionedAmount].
  repeat match goal with
         | E : extractNumber _ = Ok _ |- _ =>
             apply extractNumber_number in E; rewrite E
         end.
  rewrite !orS_truthy by reflexivity. repeat split.
Qed.

(** X14. Every account that [extractCreditAccounts] returns, from the
    CAIS records or from a legacy collection, has a type and a status that
    are not empty, and an overdue amount, a balance and a sanctioned
    amount that are numbers, never [NaN]. *)
Theorem accounts_are_filled_in :
  forall (root : jsval) (accounts : list CreditAccount.t),
    extractCreditAccounts hostDateParse root = Ok accounts ->
    Forall (fun a => truthy (CreditAccount.type a) = true /\
                     truthy (CreditAccount.status a) = true /\
                     amountsAreNumbers a = true) accounts.
Proof.
  intros root accounts H. unfold extractCreditAccounts in H. cbv zeta in H.
  destruct (getp root "CAIS_Account") as [c|]; cbn [bind] in H;
    [|discriminate H].
  destruct (if truthy (getopt c "CAIS_Account_DETAILS")
            then mapM (mapAccount hostDateParse)
                   (asArray (getopt c "CAIS_Account_DETAILS"))
            else Ok []) as [a0|] eqn:E; cbn [bind] in H; [|discriminate H].
  assert (F0 : Forall (fun a => truthy (CreditAccount.type a) = true /\
                                truthy (CreditAccount.status a) = true /\
                                amountsAreNumbers a = true) a0).
  { destruct (truthy (getopt c "CAIS_Account_DETAILS")).
    - exact (mapM_Forall _ _ mapAccount_shape _ _ E).
    - injection E as <-. constructor. }
  destruct (List.length a0 =? 0)%nat; [|injection H as <-; exact F0].
  destruct (truthy (findValueFromPaths root accountsPaths)).
  - exact (mapM_Forall _ _ mapLegacyAccount_shape _ _ H).
  - injection H as <-. exact F0.
Qed.

(** X15. An account mapped from a CAIS record always names a bank, with
    no white space around the name ("Unknown Bank" when the record has
    none), an account number ("N/A") and a payment rating ("0"); its
    address is empty, and its portfolio type and last-reported date are
    present. *)
Theorem cais_account_defaults :
  forall (account : jsval) (a : CreditAccount.t),
    mapAccount hostDateParse account = Ok a ->
    CreditAccount.bankName a <> "" /\
    Str.trim (CreditAccount.bankName a) = CreditAccount.bankName a /\
    CreditAccount.accountNumber a <> "" /\
    CreditAccount.address a = "" /\
    (exists rating, CreditAccount.paymentRating a = Some rating /\
                    rating <> "") /\
    CreditAccount.portfolioType a <> None /\
    CreditAccount.lastReported a <> None /\
    (forall subscriber,
       extractText (prop account "Subscriber_Name") = Ok subscriber ->
       Str.trim subscriber = "" ->
       CreditAccount.bankName a = "Unknown Bank").
Proof.
  intros account a H. unfold mapAccount in H. cbv zeta in H. peels.
  all: cbn [CreditAccount.bankName CreditAccount.accountNumber
            CreditAccount.address CreditAccount.paymentRating
            CreditAccount.portfolioType CreditAccount.lastReported].
  all: repeat split; try discriminate;
    try (apply orS_filled; discriminate);
    try (eexists; split; [reflexivity|apply orS_filled; discriminate]).
  all: try (unfold orS; destruct (Str.isEmpty (Str.trim _));
            [reflexivity|apply trim_idem]).
  all: intros subscriber Es Bs; injection Es as <-; rewrite Bs; reflexivity.
Qed.

End AccountShape.

Lemma accounts_are_filled_in_witness :
  exists accounts,
    extractCreditAccounts noHostDates threeAccounts = Ok accounts /\
    List.length accounts = 3%nat /\
    Forall (fun a => amountsAreNumbers a = true) accounts.
Proof.
  destruct (extractCreditAccounts noHostDates threeAccounts)
    as [accounts|] eqn:E; [|vm_compute in E; discriminate E].
  exists accounts. split; [reflexivity|]. split.
  - vm_compute in E. injection E as <-. reflexivity.
  - eapply Forall_impl;
      [|exact (accounts_are_filled_in noHostDates threeAccounts accounts E)].
    intros a (_ & _ & N). exact N.
Defined.

Lemma cais_account_defaults_witness :
  exists a,
    mapAccount noHostDates (JObj [("Account_Number", JStr "")]) = Ok a /\
    CreditAccount.bankName a = "Unknown Bank".
Proof.
  destruct (mapAccount noHostDates (JObj [("Account_Number", JStr "")]))
    as [a|] eqn:E; [|vm_compute in E; discriminate E].
  exists a. split; [reflexivity|].
  destruct (cais_account_defaults noHostDates _ a E)
    as (_ & _ & _ & _ & _ & _ & _ & U).
  apply (U ""); reflexivity.
Defined.

(** ** Numerals *)

Lemma digit_not_space c : Str.is_digit c = true -> Str.is_space c = false.
Proof.
  unfold Str.is_digit, Str.is_space. generalize (Str.code c). intros n D.
  apply andb_true_iff in D as [D1 D2]. apply N.leb_le in D1, D2.
  destruct (9 <=? n)%N eqn:A, (n <=? 13)%N eqn:B, (n =? 32)%N eqn:C,
    (n =? 160)%N eqn:E; try reflexivity; exfalso;
    try apply N.leb_le in B; try apply N.eqb_eq in C;
    try apply N.eqb_eq in E; lia.
Qed.

Lemma digits_trimEnd s : DateTime.allDigits s = true -> Str.trimEnd s = s.
Proof.
  induction s as [|c s IH]; [reflexivity|]. intros D.
  apply allDigits_cons in D as [Dc Ds]. cbn [Str.trimEnd].
  rewrite (IH Ds). destruct s; [|reflexivity].
  rewrite (digit_not_space _ Dc). reflexivity.
Qed.

Lemma digits_trim s : DateTime.allDigits s = true -> Str.trim s = s.
Proof.
  intros D. unfold Str.trim.
  assert (E : Str.trimStart s = s).
  { destruct s as [|c s]; [reflexivity|].
    apply allDigits_cons in D as [Dc _]. cbn [Str.trimStart].
    rewrite (digit_not_space _ Dc). reflexivity. }
  rewrite E. apply digits_trimEnd, D.
Qed.

Lemma digits_span s :
  DateTime.allDigits s = true -> Str.span_digits s = (s, "").
Proof.
  induction s as [|c s IH]; [reflexivity|]. intros D.
  apply allDigits_cons in D as [Dc Ds]. cbn [Str.span_digits].
  rewrite Dc, (IH Ds). reflexivity.
Qed.

Lemma parseFloat_digits s :
  DateTime.allDigits s = true -> s <> "" ->
  Num.parseFloat s = Num.of_decimal false (Str.digits_value 0 s) 0.
Proof.
  intros D N. destruct s as [|c s]; [contradiction|].
  pose proof (digits_span _ D) as Sp.
  destruct (allDigits_cons _ _ D) as [Dc _].
  unfold Num.parseFloat.
  destruct c as [[|] [|] [|] [|] [|] [|] [|] [|]]; try discriminate Dc;
    cbv iota; rewrite Sp; cbv iota beta; cbn [Str.isEmpty andb];
    rewrite append_empty_r; reflexivity.
Qed.

Lemma of_decimal_integer n :
  0 <= n -> Num.of_decimal false n 0 = Num.of_Z n.
Proof.
  intros H. unfold Num.of_decimal, Num.of_Z.
  destruct (Z.eqb_spec n 0) as [->|]; [reflexivity|].
  cbn [Z.leb Z.compare]. f_equal. cbn [Z.pow]. lia.
Qed.

Lemma of_Z_number n : Z.abs n < 2 ^ Num.prec -> Num.isNaN (Num.of_Z n) = false.
Proof.
  intros B. destruct (Z.eq_dec n 0) as [->|N]; [reflexivity|].
  destruct (of_Z_canon n B N) as (s & p & -> & _). reflexivity.
Qed.

(** X16. Text whose digits, full stops and minus signs spell the decimal
    numeral of an integer below [2^53] (so with spaces, separators, letters
    or a currency sign between the digits, but without a full stop or a
    minus sign) is read as exactly that integer. *)
Theorem extractNumber_reads_integers :
  forall (text : string) (n : N),
    Str.filter keepNumeric (Str.trim text) = Str.of_N n ->
    Z.of_N n < 2 ^ 53 ->
    extractNumber (JStr text) = Ok (Num.of_Z (Z.of_N n)).
Proof.
  intros text n F B.
  assert (T : extractText (JStr text) = Ok (Str.trim text)).
  { unfold extractText. destruct text; reflexivity. }
  unfold extractNumber. rewrite T. cbn [bind]. rewrite F.
  assert (NE : Str.of_N n <> "").
  { intros E. pose proof (digits_of_N n) as V. rewrite E in V.
    cbn [Str.digits_value] in V.
    assert (n = 0%N) by lia. subst n. discriminate E. }
  rewrite (parseFloat_digits _ (of_N_digits n) NE), digits_of_N.
  rewrite of_decimal_integer by lia.
  rewrite of_Z_number by (unfold Num.prec; lia). reflexivity.
Qed.

Lemma extractNumber_reads_integers_witness :
  extractNumber (JStr " INR 1,50,000 ") = Ok (Num.of_Z 150000).
Proof.
  exact (extractNumber_reads_integers " INR 1,50,000 " 150000 eq_refl
           ltac:(vm_compute; reflexivity)).
Defined.

(** ** Date codes of every day of the calendar *)

Lemma civil_of_day n : DateTime.civil (n * DateTime.msPerDay) = civilOfDay n.
Proof.
  unfold DateTime.civil, civilOfDay.
  rewrite Z.div_mul by (unfold DateTime.msPerDay; lia). reflexivity.
Qed.

(** The year of the era from the day of the era. *)
Lemma yoe_of_doe yoe doy :
  0 <= yoe < 400 -> 0 <= doy ->
  doy <= 364 + ((yoe + 1) / 4 - yoe / 4) - ((yoe + 1) / 100 - yoe / 100)
         + ((yoe + 1) / 400 - yoe / 400) ->
  let doe := 365 * yoe + yoe / 4 - yoe / 100 + doy in
  0 <= doe < 146097 /\
  (doe - doe / 1460 + doe / 36524 - doe / 146096) / 365 = yoe.
Proof.
  intros Hy Hd Hb. cbv zeta. split; Z.div_mod_to_equations; lia.
Qed.

Lemma leap_step y :
  (if DateTime.isLeap y then 1 else 0) =
  (y / 4 - (y - 1) / 4) - (y / 100 - (y - 1) / 100)
  + (y / 400 - (y - 1) / 400).
Proof.
  unfold DateTime.isLeap.
  destruct (Z.eqb_spec (y mod 4) 0), (Z.eqb_spec (y mod 100) 0),
    (Z.eqb_spec (y mod 400) 0); cbn [negb andb orb];
    Z.div_mod_to_equations; lia.
Qed.

Lemma civilOfDay_march y mp dd :
  0 <= mp <= 11 -> 0 <= dd ->
  dd < (153 * (mp + 1) + 2) / 5 - (153 * mp + 2) / 5 ->
  (153 * mp + 2) / 5 + dd <=
    364 + (if DateTime.isLeap (y + 1) then 1 else 0) ->
  civilOfDay (marchDay y mp dd) =
  (y + (if mp <? 10 then 0 else 1),
   (if mp <? 10 then mp + 3 else mp - 9) - 1, dd + 1).
Proof.
  intros Hmp Hdd Hlen Hdoy. rewrite leap_step in Hdoy.
  unfold civilOfDay, marchDay. cbv zeta.
  set (era := y / 400) in *. set (yoe := y mod 400) in *.
  assert (Ey : y = 400 * era + yoe /\ 0 <= yoe < 400)
    by (subst era yoe; Z.div_mod_to_equations; lia).
  destruct Ey as [Ey Hyoe].
  set (doy := (153 * mp + 2) / 5 + dd) in *.
  assert (Hdoy0 : 0 <= doy) by (subst doy; Z.div_mod_to_equations; lia).
  assert (Hb : doy <= 364 + ((yoe + 1) / 4 - yoe / 4)
                      - ((yoe + 1) / 100 - yoe / 100)
                      + ((yoe + 1) / 400 - yoe / 400)).
  { replace (y + 1 - 1) with y in Hdoy by ring. rewrite Ey in Hdoy.
    Z.div_mod_to_equations. lia. }
  destruct (yoe_of_doe yoe doy Hyoe Hdoy0 Hb) as [Hdoe Eyoe].
  cbv zeta in Hdoe, Eyoe.
  set (doe := 365 * yoe + yoe / 4 - yoe / 100 + doy) in *.
  replace (146097 * era + (365 * yoe + yoe / 4 - yoe / 100) + doy
           - 719468 + 719468) with (doe + era * 146097)
    by (subst doe; ring).
  rewrite Z.div_add by lia. rewrite (Z.div_small doe) by lia.
  cbn [Z.add].
  replace (doe + era * 146097 - era * 146097) with doe by ring.
  rewrite Eyoe.
  replace (doe - (365 * yoe + yoe / 4 - yoe / 100)) with doy
    by (subst doe; ring).
  assert (Emp : (5 * doy + 2) / 153 = mp)
    by (subst doy; Z.div_mod_to_equations; lia).
  rewrite Emp.
  f_equal; [f_equal|subst doy; ring].
  rewrite Ey. destruct (mp <? 10) eqn:M.
  - replace (mp + 3 <=? 2) with false
      by (symmetry; apply Z.leb_gt; lia). ring.
  - apply Z.ltb_ge in M.
    replace (mp - 9 <=? 2) with true by (symmetry; apply Z.leb_le; lia).
    ring.
Qed.

Lemma dayNumber_march y m d :
  1 <= m <= 12 ->
  dayNumber y m d =
  marchDay (if m <=? 2 then y - 1 else y)
           (if m <=? 2 then m + 9 else m - 3) (d - 1).
Proof.
  intros Hm.
  assert (C : m = 1 \/ m = 2 \/ m = 3 \/ m = 4 \/ m = 5 \/ m = 6 \/ m = 7 \/
              m = 8 \/ m = 9 \/ m = 10 \/ m = 11 \/ m = 12) by lia.
  pose proof (leap_step y) as L.
  unfold dayNumber, marchDay, DateTime.dayFromYear.
  repeat (destruct C as [->|C]); try subst m;
    match goal with
    | |- context [Z.to_nat ?e] =>
        let n := eval vm_compute in (Z.to_nat e) in
        change (Z.to_nat e) with n
    end;
    cbn [DateTime.daysBefore Z.leb Z.compare Pos.compare Pos.compare_cont];
    unfold DateTime.daysInMonth;
    cbn [Z.of_nat Pos.of_succ_nat Pos.succ Z.eqb Pos.eqb orb];
    destruct (DateTime.isLeap y);
    Z.div_mod_to_equations; lia.
Qed.

(** [civil] inverts [utc] on every day of every year. *)
Lemma civilOfDay_inverts y m d :
  1 <= m <= 12 -> 1 <= d <= DateTime.daysInMonth y m ->
  civilOfDay (dayNumber y m d) = (y, m - 1, d).
Proof.
  intros Hm Hd. rewrite (dayNumber_march y m d Hm).
  unfold DateTime.daysInMonth in Hd.
  destruct (m <=? 2) eqn:Early.
  - apply Z.leb_le in Early.
    replace (m =? 4) with false in Hd by (symmetry; apply Z.eqb_neq; lia).
    replace (m =? 6) with false in Hd by (symmetry; apply Z.eqb_neq; lia).
    replace (m =? 9) with false in Hd by (symmetry; apply Z.eqb_neq; lia).
    replace (m =? 11) with false in Hd by (symmetry; apply Z.eqb_neq; lia).
    cbn [orb] in Hd.
    rewrite civilOfDay_march.
    + replace (m + 9 <? 10) with false by (symmetry; apply Z.ltb_ge; lia).
      f_equal; [f_equal|]; lia.
    + lia.
    + lia.
    + destruct (Z.eqb_spec m 2) as [->|N].
      * destruct (DateTime.isLeap y); Z.div_mod_to_equations; lia.
      * assert (m = 1) as -> by lia. Z.div_mod_to_equations. lia.
    + replace (y - 1 + 1) with y by ring.
      destruct (Z.eqb_spec m 2) as [->|N].
      * destruct (DateTime.isLeap y); Z.div_mod_to_equations; lia.
      * assert (m = 1) as -> by lia.
        destruct (DateTime.isLeap y); Z.div_mod_to_equations; lia.
  - apply Z.leb_gt in Early.
    replace (m =? 2) with false in Hd by (symmetry; apply Z.eqb_neq; lia).
    rewrite civilOfDay_march.
    + replace (m - 3 <? 10) with true by (symmetry; apply Z.ltb_lt; lia).
      f_equal; [f_equal|]; lia.
    + lia.
    + lia.
    + assert (C : m = 3 \/ m = 4 \/ m = 5 \/ m = 6 \/ m = 7 \/ m = 8 \/
                  m = 9 \/ m = 10 \/ m = 11 \/ m = 12) by lia.
      repeat (destruct C as [->|C]); try subst m;
        cbn [Z.eqb Pos.eqb orb] in Hd; Z.div_mod_to_equations; lia.
    + assert (Bd : d <= 31)
        by (destruct ((m =? 4) || (m =? 6) || (m =? 9) || (m =? 11)); lia).
      destruct (DateTime.isLeap (y + 1)); Z.div_mod_to_equations; lia.
Qed.

Lemma digitOf_digit k :
  0 <= k <= 9 ->
  Str.is_digit (digitOf k) = true /\ Str.digit_val (digitOf k) = k.
Proof.
  intros H.
  assert (C : k = 0 \/ k = 1 \/ k = 2 \/ k = 3 \/ k = 4 \/ k = 5 \/ k = 6 \/
              k = 7 \/ k = 8 \/ k = 9) by lia.
  repeat (destruct C as [->|C]); try subst k; split; reflexivity.
Qed.

Lemma twoDigits_reads n :
  0 <= n <= 99 ->
  DateTime.allDigits (twoDigits n) = true /\
  Str.digits_value 0 (twoDigits n) = n.
Proof.
  intros H. unfold twoDigits, DateTime.allDigits.
  cbn [Str.filter Str.digits_value].
  destruct (digitOf_digit (n / 10 mod 10)) as [D1 V1];
    [Z.div_mod_to_equations; lia|].
  destruct (digitOf_digit (n mod 10)) as [D2 V2];
    [Z.div_mod_to_equations; lia|].
  rewrite D1, D2, V1, V2. cbn [negb Str.isEmpty]. split; [reflexivity|].
  Z.div_mod_to_equations. lia.
Qed.

Lemma fourDigits_reads n :
  0 <= n <= 9999 ->
  DateTime.allDigits (fourDigits n) = true /\
  Str.digits_value 0 (fourDigits n) = n.
Proof.
  intros H. unfold fourDigits, twoDigits, DateTime.allDigits.
  cbn [Str.filter Str.digits_value].
  destruct (digitOf_digit (n / 1000 mod 10)) as [D1 V1];
    [Z.div_mod_to_equations; lia|].
  destruct (digitOf_digit (n / 100 mod 10)) as [D2 V2];
    [Z.div_mod_to_equations; lia|].
  destruct (digitOf_digit (n / 10 mod 10)) as [D3 V3];
    [Z.div_mod_to_equations; lia|].
  destruct (digitOf_digit (n mod 10)) as [D4 V4];
    [Z.div_mod_to_equations; lia|].
  rewrite D1, D2, D3, D4, V1, V2, V3, V4. cbn [negb Str.isEmpty].
  split; [reflexivity|]. Z.div_mod_to_equations. lia.
Qed.

Section Codes.

Variable hostDateParse : string -> jsdate.

(** [new Date] on a text made of four, two and two digits, and the
    slices of the code made of the same digits. *)
Lemma newDate_parts a b c y m d :
  String.length a = 4%nat -> String.length b = 2%nat ->
  String.length c = 2%nat ->
  DateTime.allDigits a = true -> DateTime.allDigits b = true ->
  DateTime.allDigits c = true ->
  Str.digits_value 0 a = y -> Str.digits_value 0 b = m ->
  Str.digits_value 0 c = d ->
  1 <= m <= 12 -> 1 <= d <= DateTime.daysInMonth y m ->
  newDate hostDateParse (a ++ "-" ++ b ++ "-" ++ c) =
    DateAt (DateTime.utc y m d) /\
  Str.trim (a ++ "-" ++ b ++ "-" ++ c) = a ++ "-" ++ b ++ "-" ++ c /\
  Str.substring 0 4 (a ++ b ++ c) = a /\
  Str.substring 4 6 (a ++ b ++ c) = b /\
  Str.substring 6 8 (a ++ b ++ c) = c /\
  String.length (a ++ b ++ c) = 8%nat.
Proof.
  intros La Lb Lc Da Db Dc Va Vb Vc Hm Hd.
  destruct a as [|a1 [|a2 [|a3 [|a4 [|]]]]]; try discriminate La.
  destruct b as [|b1 [|b2 [|]]]; try discriminate Lb.
  destruct c as [|c1 [|c2 [|]]]; try discriminate Lc.
  split; [|split; [|repeat split]].
  - unfold newDate, DateTime.calendarDate.
    cbn [append Str.substring String.substring String.length Nat.eqb Nat.sub
         String.eqb Ascii.eqb Bool.eqb andb].
    rewrite Da, Db, Dc, Va, Vb, Vc. cbn [andb].
    replace ((1 <=? m) && (m <=? 12) && (1 <=? d) &&
             (d <=? DateTime.daysInMonth y m)) with true; [reflexivity|].
    symmetry. rewrite !andb_true_iff, !Z.leb_le. lia.
  - destruct (allDigits_cons _ _ Da) as [D1 _].
    destruct (allDigits_cons _ _ Dc) as [_ D2].
    destruct (allDigits_cons _ _ D2) as [D3 _].
    unfold Str.trim. cbn [append Str.trimStart].
    rewrite (digit_not_space _ D1). cbn [Str.trimEnd].
    rewrite (digit_not_space _ D3). reflexivity.
Qed.

Lemma day_decodes y m d :
  0 <= y <= 9999 -> 1 <= m <= 12 -> 1 <= d <= DateTime.daysInMonth y m ->
  newDate hostDateParse (isoDate y m d) = DateAt (DateTime.utc y m d) /\
  Str.trim (isoDate y m d) = isoDate y m d /\
  dateOfCode hostDateParse (dateCode y m d) = DateAt (DateTime.utc y m d) /\
  convertDate hostDateParse (dateCode y m d) =
    Some (DateAt (DateTime.utc y m d)) /\
  DateTime.civil (DateTime.utc y m d) = (y, m - 1, d).
Proof.
  intros Hy Hm Hd.
  assert (Bd : d <= 31).
  { unfold DateTime.daysInMonth in Hd.
    destruct (m =? 2); [destruct (DateTime.isLeap y)|
      destruct ((m =? 4) || (m =? 6) || (m =? 9) || (m =? 11))]; lia. }
  destruct (fourDigits_reads y Hy) as [Da Va].
  destruct (twoDigits_reads m ltac:(lia)) as [Db Vb].
  destruct (twoDigits_reads d ltac:(lia)) as [Dc Vc].
  destruct (newDate_parts (fourDigits y) (twoDigits m) (twoDigits d) y m d
              eq_refl eq_refl eq_refl Da Db Dc Va Vb Vc Hm Hd)
    as (E & T & Sa & Sb & Sc & L8).
  fold (isoDate y m d) in E, T. fold (dateCode y m d) in Sa, Sb, Sc, L8.
  assert (C : dateOfCode hostDateParse (dateCode y m d) =
              DateAt (DateTime.utc y m d))
    by (unfold dateOfCode; rewrite Sa, Sb, Sc; exact E).
  split; [exact E|]. split; [exact T|]. split; [exact C|]. split.
  - unfold convertDate. rewrite L8, C.
    destruct (dateCode y m d); [discriminate L8|reflexivity].
  - change (DateTime.utc y m d) with (dayNumber y m d * DateTime.msPerDay).
    rewrite civil_of_day. apply civilOfDay_inverts; assumption.
Qed.

(** X17. Every day of the calendar survives its [YYYYMMDD] code: for a
    year from 0 to 9999, a month from 1 to 12 and a day of that month, the
    code decodes, whatever the host makes of other strings, to the Date
    whose UTC year, month index and day of the month are that year, the
    month less one and that day. *)
Theorem date_code_round_trip :
  forall (y m d : Z),
    0 <= y <= 9999 -> 1 <= m <= 12 -> 1 <= d <= DateTime.daysInMonth y m ->
    exists ms,
      dateOfCode hostDateParse (dateCode y m d) = DateAt ms /\
      convertDate hostDateParse (dateCode y m d) = Some (DateAt ms) /\
      DateTime.getUTCFullYear ms = y /\
      DateTime.getUTCMonth ms = m - 1 /\
      DateTime.getUTCDate ms = d.
Proof.
  intros y m d Hy Hm Hd.
  destruct (day_decodes y m d Hy Hm Hd) as (_ & _ & E & C & U).
  exists (DateTime.utc y m d). split; [exact E|]. split; [exact C|].
  unfold DateTime.getUTCFullYear, DateTime.getUTCMonth, DateTime.getUTCDate.
  rewrite U. repeat split.
Qed.

(** X18. A day written [YYYY-MM-DD], as the legacy collections carry
    their dates, is read by [extractDate] as that day: the Date it returns
    has that UTC year, month (less one) and day of the month. *)
Theorem extractDate_reads_iso_days :
  forall (y m d : Z),
    0 <= y <= 9999 -> 1 <= m <= 12 -> 1 <= d <= DateTime.daysInMonth y m ->
    exists ms,
      extractDate hostDateParse (JStr (isoDate y m d))
        = Ok (Some (DateAt ms)) /\
      DateTime.getUTCFullYear ms = y /\
      DateTime.getUTCMonth ms = m - 1 /\
      DateTime.getUTCDate ms = d.
Proof.
  intros y m d Hy Hm Hd.
  destruct (day_decodes y m d Hy Hm Hd) as (E & T & _ & _ & U).
  exists (DateTime.utc y m d). split.
  - unfold extractDate, extractText.
    assert (NE : Str.isEmpty (isoDate y m d) = false) by reflexivity.
    cbn [truthy]. rewrite NE. cbn [negb bind]. rewrite T, NE, E.
    reflexivity.
  - unfold DateTime.getUTCFullYear, DateTime.getUTCMonth, DateTime.getUTCDate.
    rewrite U. repeat split.
Qed.

End Codes.

Lemma date_code_round_trip_witness :
  exists ms,
    convertDate noHostDates "20240229" = Some (DateAt ms) /\
    DateTime.getUTCFullYear ms = 2024 /\
    DateTime.getUTCMonth ms = 1 /\
    DateTime.getUTCDate ms = 29.
Proof.
  destruct (date_code_round_trip noHostDates 2024 2 29
              ltac:(lia) ltac:(lia) ltac:(vm_compute; split; discriminate))
    as (ms & _ & C & Y & M & D).
  exists ms. split; [exact C|]. repeat split; assumption.
Defined.

Lemma extractDate_reads_iso_days_witness :
  exists ms,
    extractDate noHostDates (JStr "2024-01-15") = Ok (Some (DateAt ms)) /\
    DateTime.getUTCFullYear ms = 2024 /\
    DateTime.getUTCMonth ms = 0 /\
    DateTime.getUTCDate ms = 15.
Proof.
  exact (extractDate_reads_iso_days noHostDates 2024 1 15
           ltac:(lia) ltac:(lia) ltac:(vm_compute; split; discriminate)).
Defined.

(** ** Enquiries of a legacy report *)

Lemma legacyTally_recent s r :
  ReportSummary.recentEnquiries (legacyTally s r) =
  ReportSummary.recentEnquiries s.
Proof.
  destruct r as [[st b] ty]. unfold legacyTally.
  destruct (saysActive st), (saysClosed st),
    (negb (Str.isEmpty ty) && Str.includes (Str.toLowerCase ty) "secured");
    reflexivity.
Qed.

(** X19. For a legacy report (no CAIS summary, no CAIS account records, no
    CAPS summary) the recent-enquiry count of the summary is the number of
    enquiries extracted, and extracting them does not read the clock. *)
Theorem legacy_enquiries_are_counted :
  forall (hostDateParse : string -> jsdate) (root : jsval)
         (summary : ReportSummary.t) (enquiries : list Enquiry.t)
         (w w' : world),
    extractReportSummary root = Ok summary ->
    extractEnquiries hostDateParse root w = Ok (enquiries, w') ->
    truthy (caisSummaryOf root) = false ->
    truthy (accountDetailsOf root) = false ->
    truthy (getopt (prop root "CAPS") "CAPS_Summary") = false ->
    ReportSummary.recentEnquiries summary =
      Num.of_nat (List.length enquiries) /\
    w' = w.
Proof.
  intros host root summary enquiries w w' H E C D P.
  destruct (legacy_entry root summary H C D) as (q & Q & L).
  rewrite (Q P) in L. clear Q.
  unfold legacySummary in L. cbv zeta in L.
  fold (legacyEnquiriesOf root) in L.
  unfold extractEnquiries in E. unfold getp in E.
  destruct (nullish root) eqn:N; [discriminate E|]. cbn [bind] in E.
  assert (E' : (if truthy (legacyEnquiriesOf root)
                then mapped <- mapM (mapLegacyEnquiry host)
                                 (asArray (legacyEnquiriesOf root)) ;;
                     Ok (mapped, w)
                else Ok ([], w)) = Ok (enquiries, w')).
  { unfold getopt in P.
    destruct (truthy (prop root "CAPS")) eqn:T.
    - rewrite (truthy_not_nullish _ T) in P. rewrite P in E. exact E.
    - exact E. }
  clear E.
  destruct (if truthy (findValueFromPaths root accountsPaths)
            then foldM countLegacyAccount
                   (asArray (findValueFromPaths root accountsPaths))
                   (ReportSummary.setTotalAccounts
                      (Num.of_nat
                         (List.length
                            (asArray (findValueFromPaths root accountsPaths))))
                      (ReportSummary.setRecentEnquiries Num.zero
                         ReportSummary.zero))
            else Ok (ReportSummary.setRecentEnquiries Num.zero
                       ReportSummary.zero)) as [s1|] eqn:F;
    cbn [bind] in L; [|discriminate L].
  assert (R1 : ReportSummary.recentEnquiries s1 = Num.zero).
  { destruct (truthy (findValueFromPaths root accountsPaths)).
    - rewrite foldM_legacyTally in F.
      destruct (mapM readLegacyAccount _) as [rs|] in F; cbn [bind] in F;
        [|discriminate F].
      injection F as <-.
      rewrite (fold_keeps legacyTally ReportSummary.recentEnquiries
                 legacyTally_recent). reflexivity.
    - injection F as <-. reflexivity. }
  destruct (truthy (legacyEnquiriesOf root)).
  - destruct (mapM (mapLegacyEnquiry host) (asArray (legacyEnquiriesOf root)))
      as [mapped|] eqn:M; cbn [bind] in E'; [|discriminate E'].
    injection E' as <- <-. injection L as <-.
    rewrite (mapM_length _ _ _ M). split; reflexivity.
  - injection E' as <- <-. injection L as <-. split; [exact R1|reflexivity].
Qed.

Lemma legacy_enquiries_are_counted_witness :
  exists summary enquiries,
    extractReportSummary legacyReport = Ok summary /\
    extractEnquiries noHostDates legacyReport sampleWorld =
      Ok (enquiries, sampleWorld) /\
    ReportSummary.recentEnquiries summary = Num.of_Z 2.
Proof.
  destruct (extractReportSummary legacyReport) as [summary|] eqn:S;
    [|vm_compute in S; discriminate S].
  destruct (extractEnquiries noHostDates legacyReport sampleWorld)
    as [[enquiries w']|] eqn:E; [|exfalso].
  - destruct (legacy_enquiries_are_counted noHostDates legacyReport summary
                enquiries sampleWorld w' S E eq_refl eq_refl eq_refl)
      as [R ->].
    exists summary, enquiries. split; [reflexivity|]. split; [reflexivity|].
    rewrite R. unfold extractEnquiries in E. cbn in E.
    injection E as <-. reflexivity.
  - unfold extractEnquiries in E. cbn in E. discriminate E.
Defined.

(** ** Text *)

(** X20. The text extracted from a string, or from a node that carries
    its text under ['#text'], has no white space around it: extracting the
    text of that text gives it back. *)
Theorem extractText_settles :
  forall (node : jsval) (text : string),
    extractText node = Ok text ->
    isString node = true \/ truthy (prop node "#text") = true ->
    Str.trim text = text /\ extractText (JStr text) = Ok text.
Proof.
  intros node text H K.
  assert (T : Str.trim text = text).
  { unfold extractText in H.
    destruct (truthy node) eqn:Tn; cbn [negb] in H;
      [|injection H as <-; reflexivity].
    destruct node as [| |b|n|s|l|ps|f]; try discriminate Tn;
      try (injection H as <-; apply trim_idem);
      try (destruct K as [K|K]; [discriminate K|];
           cbv zeta in H; rewrite K in H;
           destruct (toStringCall _) in H; cbn [bind] in H;
           [injection H as <-; apply trim_idem|discriminate H]).
    destruct K as [K|K]; [discriminate K|]. cbn in K. discriminate K. }
  split; [exact T|]. unfold extractText.
  destruct text as [|c t]; [reflexivity|]. cbn [truthy Str.isEmpty negb].
  rewrite T. reflexivity.
Qed.

Lemma extractText_settles_witness :
  extractText (JStr " ICICI Bank ") = Ok "ICICI Bank" /\
  extractText (JStr "ICICI Bank") = Ok "ICICI Bank".
Proof.
  split; [reflexivity|].
  exact (proj2 (extractText_settles (JStr " ICICI Bank ") "ICICI Bank"
                  eq_refl (or_introl eq_refl))).
Defined.

(** ** The report root *)

Lemma firstTruthyPath_none obj paths :
  firstTruthyPath obj paths = None <->
  forall p, In p paths -> truthy (getNestedValue obj p) = false.
Proof.
  induction paths as [|p paths IH]; cbn [firstTruthyPath].
  - split; [intros _ q []|reflexivity].
  - destruct (truthy (getNestedValue obj p)) eqn:T.
    + split; [discriminate|]. intros H.
      rewrite (H p (or_introl eq_refl)) in T. discriminate T.
    + rewrite IH. split.
      * intros H q [<-|Hq]; [exact T|apply H, Hq].
      * intros H q Hq. apply H. right. exact Hq.
Qed.

Lemma firstTruthyPath_some obj paths r :
  firstTruthyPath obj paths = Some r -> truthy r = true.
Proof.
  induction paths as [|p paths IH]; cbn [firstTruthyPath]; [discriminate|].
  destruct (truthy (getNestedValue obj p)) eqn:T; [|exact IH].
  intros E. injection E as <-. exact T.
Qed.

Lemma firstObjectValue_none_iff obj ks :
  firstObjectValue obj ks = None <->
  forall k, In k ks -> isObjectType (prop obj k) = false.
Proof.
  induction ks as [|k ks IH]; cbn [firstObjectValue].
  - split; [intros _ q []|reflexivity].
  - destruct (isObjectType (prop obj k)) eqn:T.
    + split; [discriminate|]. intros H.
      rewrite (H k (or_introl eq_refl)) in T. discriminate T.
    + rewrite IH. split.
      * intros H q [<-|Hq]; [exact T|apply H, Hq].
      * intros H q Hq. apply H. right. exact Hq.
Qed.

Lemma firstObjectValue_some obj ks r :
  firstObjectValue obj ks = Some r -> truthy r = true.
Proof.
  induction ks as [|k ks IH]; cbn [firstObjectValue]; [discriminate|].
  destruct (isObjectType (prop obj k)) eqn:T; [|exact IH].
  intros E. injection E as <-. destruct (prop obj k); try discriminate T;
    reflexivity.
Qed.

(** X21. What [findReportRoot] returns is truthy or [null], never another
    falsy value, and on an object it is [null] exactly when the
    [INProfileResponse] member is falsy, each of the six known root paths
    resolves to something falsy, and no member is an object or an array;
    then, and only then, does the caller see no report root. *)
Theorem report_root_not_found_exactly :
  forall (parsedXml root : jsval),
    findReportRoot parsedXml = Ok root ->
    (root = JNull \/ truthy root = true) /\
    (root = JNull <->
     truthy (prop parsedXml "INProfileResponse") = false /\
     (forall path, In path possibleRoots ->
                   truthy (getNestedValue parsedXml path) = false) /\
     (forall key, In key (keys parsedXml) ->
                  isObjectType (prop parsedXml key) = false)).
Proof.
  intros doc root H. unfold findReportRoot, getp in H.
  destruct (nullish doc); [discriminate H|]. cbn [bind] in H.
  destruct (truthy (prop doc "INProfileResponse")) eqn:T.
  { injection H as <-. split; [right; exact T|].
    split; [intros E; rewrite E in T; discriminate T|].
    intros (F & _). discriminate F. }
  destruct (firstTruthyPath doc possibleRoots) as [r|] eqn:P.
  { injection H as <-. pose proof (firstTruthyPath_some _ _ _ P) as Tr.
    split; [right; exact Tr|].
    split; [intros E; rewrite E in Tr; discriminate Tr|].
    intros (_ & F & _). apply firstTruthyPath_none in F. congruence. }
  destruct (firstObjectValue doc (keys doc)) as [r|] eqn:O.
  { injection H as <-. pose proof (firstObjectValue_some _ _ _ O) as Tr.
    split; [right; exact Tr|].
    split; [intros E; rewrite E in Tr; discriminate Tr|].
    intros (_ & _ & F). apply firstObjectValue_none_iff in F. congruence. }
  injection H as <-. split; [left; reflexivity|].
  split; [|reflexivity]. intros _. split; [reflexivity|]. split.
  - apply firstTruthyPath_none, P.
  - apply firstObjectValue_none_iff, O.
Qed.

Lemma report_root_not_found_exactly_witness :
  findReportRoot (JObj [("Report", JStr ""); ("Other", JStr "x")]) =
    Ok JNull /\
  truthy (getNestedValue (JObj [("Report", JStr ""); ("Other", JStr "x")])
            "Report") = false.
Proof.
  split; [reflexivity|].
  destruct (report_root_not_found_exactly
              (JObj [("Report", JStr ""); ("Other", JStr "x")]) JNull eq_refl)
    as [_ [F _]].
  destruct (F eq_refl) as (_ & P & _).
  apply P. cbn. tauto.
Defined.

(** ** The balance buckets of a legacy report *)

Lemma fold_left_mapped {A B S} (f : S -> B -> S) (g : A -> B) l : forall s,
  fold_left f (map g l) s = fold_left (fun s x => f s (g x)) l s.
Proof. induction l as [|a l IH]; intros s; [reflexivity|apply IH]. Qed.

Lemma filter_all {A} (l : list A) : List.filter (fun _ => true) l = l.
Proof. induction l as [|a l IH]; [reflexivity|]. cbn. now rewrite IH. Qed.

Lemma fold_sums (step : ReportSummary.t -> string * Z * string -> ReportSummary.t)
    (get : ReportSummary.t -> number) (p : string * Z * string -> bool) :
  (forall s r, get (step s r) =
               if p r then Num.add (get s) (Num.of_Z (amountOf r)) else get s) ->
  forall rs s n,
    get s = Num.of_Z n -> Z.abs n + sumAbs rs < 2 ^ Num.prec ->
    get (fold_left step rs s) = Num.of_Z (n + sumOf (List.filter p rs)).
Proof.
  intros St. induction rs as [|r rs IH]; intros s n E B.
  - cbn. rewrite Z.add_0_r. exact E.
  - pose proof (sumAbs_nonneg rs) as Hs.
    assert (Hz : sumAbs (r :: rs) = Z.abs (amountOf r) + sumAbs rs)
      by reflexivity.
    rewrite Hz in B. cbn [fold_left List.filter].
    destruct (p r) eqn:P.
    + rewrite (IH _ (n + amountOf r)).
      * f_equal. unfold sumOf, sumZ. cbn [map fold_right]. lia.
      * rewrite St, P, E. apply add_of_Z; unfold Num.prec in *; lia.
      * lia.
    + rewrite (IH _ n); [reflexivity| |lia]. rewrite St, P. exact E.
Qed.

Lemma legacyTally_balances s r :
  ReportSummary.currentBalanceAmount (legacyTally s (intReading r)) =
    Num.add (ReportSummary.currentBalanceAmount s) (Num.of_Z (amountOf r)) /\
  ReportSummary.securedAmount (legacyTally s (intReading r)) =
    (if securedInt r
     then Num.add (ReportSummary.securedAmount s) (Num.of_Z (amountOf r))
     else ReportSummary.securedAmount s) /\
  ReportSummary.unsecuredAmount (legacyTally s (intReading r)) =
    (if negb (securedInt r)
     then Num.add (ReportSummary.unsecuredAmount s) (Num.of_Z (amountOf r))
     else ReportSummary.unsecuredAmount s).
Proof.
  destruct r as [[st z] ty].
  unfold legacyTally, intReading, securedInt, saysSecured, amountOf.
  cbn [fst snd].
  destruct (saysActive st), (saysClosed st),
    (negb (Str.isEmpty ty) && Str.includes (Str.toLowerCase ty) "secured");
    repeat split; reflexivity.
Qed.

(** X22. In the summary of a legacy report whose accounts carry
    whole-number balances with absolute values adding up to less than
    [2^53], currentBalanceAmount is the sum of all balances, securedAmount
    the sum over the accounts whose type text contains "secured" in any
    letter case (as "Unsecured" does), and unsecuredAmount the sum over the
    others. *)
Theorem legacy_balance_buckets :
  forall (root : jsval) (summary : ReportSummary.t)
         (ints : list (string * Z * string)),
    extractReportSummary root = Ok summary ->
    truthy (caisSummaryOf root) = false ->
    truthy (accountDetailsOf root) = false ->
    truthy (legacyAccountsOf root) = true ->
    mapM readLegacyAccount (asArray (legacyAccountsOf root)) =
      Ok (map intReading ints) ->
    sumAbs ints < 2 ^ 53 ->
    ReportSummary.currentBalanceAmount summary = Num.of_Z (sumOf ints) /\
    ReportSummary.securedAmount summary =
      Num.of_Z (sumOf (List.filter securedInt ints)) /\
    ReportSummary.unsecuredAmount summary =
      Num.of_Z (sumOf (List.filter (fun r => negb (securedInt r)) ints)).
Proof.
  intros root summary ints H C D T Ers B.
  destruct (legacy_entry root summary H C D) as (q & _ & L).
  unfold legacySummary in L. cbv zeta in L.
  fold (legacyAccountsOf root) in L. rewrite T in L.
  rewrite foldM_legacyTally, Ers in L. cbn [bind] in L.
  rewrite fold_left_mapped in L.
  set (s0 := ReportSummary.setTotalAccounts _ _) in L.
  set (step := fun s x => legacyTally s (intReading x)) in L.
  assert (Es : ReportSummary.currentBalanceAmount summary =
                 ReportSummary.currentBalanceAmount (fold_left step ints s0) /\
               ReportSummary.securedAmount summary =
                 ReportSummary.securedAmount (fold_left step ints s0) /\
               ReportSummary.unsecuredAmount summary =
                 ReportSummary.unsecuredAmount (fold_left step ints s0)).
  { destruct (truthy (findValueFromPaths root enquiriesPaths));
      injection L as <-; repeat split; reflexivity. }
  destruct Es as (-> & -> & ->).
  pose proof (sumAbs_nonneg ints) as Hs.
  assert (B' : Z.abs 0 + sumAbs ints < 2 ^ Num.prec)
    by (unfold Num.prec; cbn [Z.abs]; lia).
  split; [|split].
  - rewrite (fold_sums step ReportSummary.currentBalanceAmount
               (fun _ => true)
               (fun s r => proj1 (legacyTally_balances s r)) ints s0 0
               eq_refl B').
    rewrite filter_all. reflexivity.
  - rewrite (fold_sums step ReportSummary.securedAmount securedInt
               (fun s r => proj1 (proj2 (legacyTally_balances s r))) ints s0 0
               eq_refl B').
    reflexivity.
  - rewrite (fold_sums step ReportSummary.unsecuredAmount
               (fun r => negb (securedInt r))
               (fun s r => proj2 (proj2 (legacyTally_balances s r))) ints s0 0
               eq_refl B').
    reflexivity.
Qed.

Lemma legacy_balance_buckets_witness :
  exists summary,
    extractReportSummary legacyReport = Ok summary /\
    ReportSummary.currentBalanceAmount summary = Num.of_Z 150 /\
    ReportSummary.securedAmount summary = Num.of_Z 150 /\
    ReportSummary.unsecuredAmount summary = Num.of_Z 0.
Proof.
  destruct (extractReportSummary legacyReport) as [summary|] eqn:E;
    [|vm_compute in E; discriminate E].
  exists summary. split; [reflexivity|].
  exact (legacy_balance_buckets legacyReport summary
           [("Active", 100, "Secured"); ("Inactive", 50, "Unsecured");
            ("Closed", 0, "")]
           E eq_refl eq_refl eq_refl ltac:(vm_compute; reflexivity)
           ltac:(vm_compute; reflexivity)).
Defined.

(** ** How failures are answered *)

(** X23. A failure of [parseXmlFile] handed to [errorHandler] is answered
    with status 422 and its message ("Server Error" when the message is
    empty), unless the message contains "Cloudinary": then the answer is
    500 "File storage error", except for an error that carries a file-type
    code. No status other than 422 and 500 is possible. *)
Theorem parse_failure_is_unprocessable :
  forall (readFile : string -> settled string)
         (parse : string -> settled jsval) (filePath : string)
         (error : JsError.t),
    parseXmlFile readFile parse filePath = Rejected error ->
    exists response,
      errorHandler error = Ok response /\
      (Response.status response = 422 \/ Response.status response = 500) /\
      (Str.includes (JsError.message error) "Cloudinary" = false ->
       Response.status response = 422 /\
       Response.message response =
         orS (JsError.message error) "Server Error") /\
      (Str.includes (JsError.message error) "Cloudinary" = true ->
       codeIs error "INVALID_FILE_TYPE" || codeIs error "INVALID_MIME_TYPE"
         = false ->
       Response.status response = 500 /\
       Response.message response = "File storage error").
Proof.
  intros readFile parse filePath error H.
  pose proof (parseXmlFile_named _ _ _ _ H) as N.
  unfold errorHandler. rewrite N.
  cbn [String.eqb Ascii.eqb Bool.eqb bind].
  destruct (codeIs error "INVALID_FILE_TYPE" || codeIs error "INVALID_MIME_TYPE").
  - eexists. split; [reflexivity|]. cbn. split; [left; reflexivity|].
    split; [intros _; split; reflexivity|discriminate].
  - destruct (Str.includes (JsError.message error) "Cloudinary") eqn:C.
    + assert (F : Str.isEmpty (JsError.message error) = false)
        by (destruct (JsError.message error); [discriminate C|reflexivity]).
      rewrite F. cbn [negb andb].
      eexists. split; [reflexivity|]. cbn.
      split; [right; reflexivity|].
      split; [discriminate|intros _ _; split; reflexivity].
    + rewrite andb_false_r. eexists. split; [reflexivity|]. cbn.
      split; [left; reflexivity|].
      split; [intros _; split; reflexivity|discriminate].
Qed.

Lemma parse_failure_is_unprocessable_witness :
  exists response,
    errorHandler (xmlParsingError "XML file is empty") = Ok response /\
    Response.status response = 422 /\
    Response.message response = "XML file is empty".
Proof.
  destruct (parse_failure_is_unprocessable blankFile anyParser "report.xml"
              (xmlParsingError "XML file is empty") eq_refl)
    as (response & E & _ & R & _).
  exists response. split; [exact E|]. apply R. reflexivity.
Defined.

(** X24. Whatever makes [transformCreditReportData] raise, a missing
    report root included, [errorHandler] answers it with status 500, a
    server error, never 422; the message is the one raised, which starts
    with "Data transformation failed: ", unless it contains "Cloudinary". *)
Theorem transform_failure_is_server_error :
  forall (hostDateParse : string -> jsdate) (parsedXml : jsval) (w : world)
         (e : exn),
    transformCreditReportData hostDateParse parsedXml w = Throw e ->
    exists response,
      errorHandler (thrown e) = Ok response /\
      Response.status response = 500 /\
      prefix "Data transformation failed: " (message e) = true /\
      (Str.includes (message e) "Cloudinary" = false ->
       Response.message response = message e).
Proof.
  intros host doc w e H. unfold transformCreditReportData in H.
  destruct (transformBody host doc w) as [r|inner]; [discriminate H|].
  set (m := "Data transformation failed: " ++ message inner) in H.
  assert (NE : Str.isEmpty m = false) by reflexivity.
  assert (P : prefix "Data transformation failed: " m = true)
    by apply prefix_append.
  clearbody m. injection H as <-. unfold errorHandler, thrown.
  cbn [JsError.name JsError.message JsError.code JsError.statusCode
       JsError.errors message String.eqb Ascii.eqb Bool.eqb bind codeIs orb].
  rewrite NE. cbn [negb andb].
  destruct (Str.includes m "Cloudinary") eqn:C; eexists;
    (split; [reflexivity|]); cbn [Response.status Response.message fst snd Z.eqb];
    (split; [reflexivity|]);
    (split; [exact P|]).
  - discriminate.
  - intros _. unfold orS. rewrite NE. reflexivity.
Qed.

Lemma transform_failure_is_server_error_witness :
  exists response,
    errorHandler
      (thrown (Error
         "Data transformation failed: Could not find credit report data in XML"))
      = Ok response /\
    Response.status response = 500.
Proof.
  destruct (transform_failure_is_server_error noHostDates (JStr "x")
              sampleWorld _ eq_refl) as (response & E & S & _).
  exists response. split; [exact E|exact S].
Defined.

(** X25. [errorHandler] never answers with an empty message; for an
    error without a status code of its own the status is 400, 404, 422 or
    500; and an error with a file-type code is answered 422 with its own
    message whatever its name and message are. *)
Theorem errorHandler_answers :
  forall (err : JsError.t) (response : Response.t),
    errorHandler err = Ok response ->
    Response.message response <> "" /\
    (JsError.statusCode err = None ->
     In (Response.status response) [400; 404; 422; 500]) /\
    (codeIs err "INVALID_FILE_TYPE" || codeIs err "INVALID_MIME_TYPE" = true ->
     Response.status response = 422 /\
     Response.message response = orS (JsError.message err) "Server Error").
Proof.
  intros err response H. unfold errorHandler in H.
  set (e0 := (JsError.statusCode err, JsError.message err)) in H.
  set (e1 := if String.eqb (JsError.name err) "CastError"
             then (Some 404, "Resource not found") else e0) in H.
  set (e2 := match JsError.code err with
             | JsError.NumCode n =>
                 if n =? 11000
                 then (Some 400, "Duplicate field value entered") else e1
             | _ => e1
             end) in H.
  destruct (if String.eqb (JsError.name err) "ValidationError"
            then match JsError.errors err with
                 | Some messages => Ok (Some 400, Str.join ", " messages)
                 | None =>
                     Throw (TypeError
                              "Cannot convert undefined or null to object")
                 end
            else Ok e2) as [e3|] eqn:E3; cbn [bind] in H; [|discriminate H].
  injection H as <-.
  cbn [Response.status Response.message].
  split; [apply orS_filled; discriminate|]. split.
  - intros S.
    assert (R0 : fst e0 = None) by exact S.
    assert (R1 : fst e1 = None \/ fst e1 = Some 404)
      by (subst e1; destruct (String.eqb (JsError.name err) "CastError");
          [right; reflexivity|left; exact R0]).
    assert (R2 : fst e2 = None \/ fst e2 = Some 404 \/ fst e2 = Some 400).
    { subst e2. destruct (JsError.code err) as [|n|s]; try tauto.
      destruct (n =? 11000); [right; right; reflexivity|tauto]. }
    assert (R3 : fst e3 = None \/ fst e3 = Some 404 \/ fst e3 = Some 400).
    { destruct (String.eqb (JsError.name err) "ValidationError").
      - destruct (JsError.errors err); [|discriminate E3].
        injection E3 as <-. right. right. reflexivity.
      - injection E3 as <-. exact R2. }
    destruct (codeIs err "INVALID_FILE_TYPE" || codeIs err "INVALID_MIME_TYPE");
      [cbn; tauto|].
    destruct (negb (Str.isEmpty (JsError.message err)) &&
              Str.includes (JsError.message err) "Cloudinary"); [cbn; tauto|].
    destruct (String.eqb (JsError.name err) "XMLParsingError"); [cbn; tauto|].
    destruct R3 as [->|[->| ->]]; cbn; tauto.
  - intros C. rewrite C. split; reflexivity.
Qed.

Lemma errorHandler_answers_witness :
  exists response,
    errorHandler
      (JsError.mk "Error" "Only XML files are allowed"
                  (JsError.StrCode "INVALID_FILE_TYPE") None None)
      = Ok response /\
    Response.status response = 422.
Proof.
  exists {| Response.status := 422;
            Response.message := "Only XML files are allowed" |}.
  split; [reflexivity|].
  exact (proj1 (proj2 (proj2
           (errorHandler_answers
              (JsError.mk "Error" "Only XML files are allowed"
                          (JsError.StrCode "INVALID_FILE_TYPE") None None)
              _ eq_refl)) eq_refl)).
Defined.

(** ** Account texts and the schema *)

Ltac by_code c k :=
  let N := fresh "N" in
  destruct (String.eqb_spec c k) as [->|N].

Ltac placed :=
  first [ left; split; reflexivity
        | right; left; split;
          [reflexivity|first [left; reflexivity|right; reflexivity]]
        | right; right; repeat split; congruence ].

Ltac listing :=
  let H := fresh in
  split;
  [ intros H; cbn in H;
    repeat (destruct H as [H|H]; [first [congruence|placed]|]);
    contradiction
  | intros H;
    first [ solve [cbn; tauto]
          | destruct H as [[? ?]|[[? [?|?]]|(? & ? & ?)]]; congruence ] ].

(** X26. For a type code that names nothing every object inherits,
    [getAccountTypeString] returns a text, and that text is one of the
    values the [type] enum of [CreditAccountSchema] lists exactly when the
    portfolio is "R" and the code is "10", or the portfolio is "I" and the
    code is "51" or "52", or the portfolio is neither and the code is not
    "61": "Housing Loan" and every other suffixed text are not listed. *)
Theorem account_type_listed_exactly :
  forall typeCode portfolio : string,
    inherited typeCode = JUndefined ->
    exists s,
      getAccountTypeString typeCode portfolio = JStr s /\
      (In s accountTypeEnum <->
       (portfolio = "R" /\ typeCode = "10") \/
       (portfolio = "I" /\ (typeCode = "51" \/ typeCode = "52")) \/
       (portfolio <> "R" /\ portfolio <> "I" /\ typeCode <> "61")).
Proof.
  intros typeCode portfolio I. unfold getAccountTypeString.
  assert (T : exists t,
             or (prop typeMap typeCode) (JStr "Other") = JStr t /\
             ((typeCode = "10" /\ t = "Credit Card") \/
              ((typeCode = "51" \/ typeCode = "52") /\ t = "Personal Loan") \/
              (typeCode = "53" /\ t = "Auto Loan") \/
              (typeCode = "61" /\ t = "Housing Loan") \/
              (typeCode = "71" /\ t = "Gold Loan") \/
              (typeCode = "81" /\ t = "Two Wheeler Loan") \/
              (typeCode <> "10" /\ typeCode <> "51" /\ typeCode <> "52" /\
               typeCode <> "61" /\ t = "Other"))).
  { unfold typeMap, prop. cbn [lookup].
    by_code typeCode "10"; [eexists; split; [reflexivity|tauto]|].
    by_code typeCode "51"; [eexists; split; [reflexivity|tauto]|].
    by_code typeCode "52"; [eexists; split; [reflexivity|tauto]|].
    by_code typeCode "53"; [eexists; split; [reflexivity|tauto]|].
    by_code typeCode "61"; [eexists; split; [reflexivity|tauto]|].
    by_code typeCode "71"; [eexists; split; [reflexivity|tauto]|].
    by_code typeCode "81"; [eexists; split; [reflexivity|tauto]|].
    rewrite I. eexists. split; [reflexivity|tauto]. }
  destruct T as (t & -> & T).
  by_code portfolio "R"; [|by_code portfolio "I"];
    cbn [String.eqb Ascii.eqb Bool.eqb appendTo toStringCall];
    (eexists; split; [reflexivity|]);
    destruct T as [[-> ->]|[[[-> | ->] ->]|[[-> ->]|[[-> ->]|[[-> ->]|
                   [[-> ->]|(N10 & N51 & N52 & N61 & ->)]]]]]];
    cbn [append]; listing.
Qed.

Lemma account_type_listed_exactly_witness :
  ~ In "Auto Loan (Installment)" accountTypeEnum /\
  getAccountTypeString "53" "I" = JStr "Auto Loan (Installment)".
Proof.
  destruct (account_type_listed_exactly "53" "I" eq_refl) as (s & E & L).
  injection E as <-. split; [|reflexivity].
  intros H. apply L in H.
  destruct H as [[E _]|[[_ [E|E]]|[_ [E _]]]]; congruence.
Defined.

Ltac known_status :=
  eexists; split; [reflexivity|split; intros _; cbn; tauto].

(** X27. For a status code that names nothing every object inherits,
    [getAccountStatus] returns a text, and that text is one of the values
    the [status] enum of [CreditAccountSchema] lists exactly when the code
    is one of the twenty codes of the status table: the text made up for
    any other code, "Status " followed by the code, is never listed. *)
Theorem account_status_listed_exactly :
  forall statusCode : string,
    inherited statusCode = JUndefined ->
    exists s,
      getAccountStatus statusCode = JStr s /\
      (In s accountStatusEnum <->
       In statusCode ["11"; "12"; "13"; "14"; "21"; "22"; "31"; "32"; "41";
                      "42"; "51"; "52"; "53"; "71"; "78"; "80"; "82"; "83";
                      "84"; "89"]).
Proof.
  intros statusCode I. unfold getAccountStatus, statusMap, prop.
  cbn [lookup].
  by_code statusCode "11"; [known_status|].
  by_code statusCode "12"; [known_status|].
  by_code statusCode "13"; [known_status|].
  by_code statusCode "14"; [known_status|].
  by_code statusCode "21"; [known_status|].
  by_code statusCode "22"; [known_status|].
  by_code statusCode "31"; [known_status|].
  by_code statusCode "32"; [known_status|].
  by_code statusCode "41"; [known_status|].
  by_code statusCode "42"; [known_status|].
  by_code statusCode "51"; [known_status|].
  by_code statusCode "52"; [known_status|].
  by_code statusCode "53"; [known_status|].
  by_code statusCode "71"; [known_status|].
  by_code statusCode "78"; [known_status|].
  by_code statusCode "80"; [known_status|].
  by_code statusCode "82"; [known_status|].
  by_code statusCode "83"; [known_status|].
  by_code statusCode "84"; [known_status|].
  by_code statusCode "89"; [known_status|].
  rewrite I. eexists. split; [reflexivity|].
  split; intros H; cbn in H;
    repeat (destruct H as [H|H]; [congruence|]); contradiction.
Qed.

Lemma account_status_listed_exactly_witness :
  getAccountStatus "99" = JStr "Status 99" /\
  ~ In "Status 99" accountStatusEnum.
Proof.
  destruct (account_status_listed_exactly "99" eq_refl) as (s & E & L).
  injection E as <-. split; [reflexivity|].
  intros H. apply L in H. cbn in H.
  repeat (destruct H as [H|H]; [congruence|]). contradiction.
Defined.
